(** * The in-memory URL registry and click store (models/urlStorage.js)

    A shallow embedding of the [URLStorage] class: the two JavaScript
    [Map]s, the shortcode generator, creation, expiry-hiding lookup, click
    recording, statistics and the cleanup sweep, followed by the properties
    of the registry.

    Modelling conventions.
    - A [Date] is its time value, an integer number of milliseconds; the ISO
      strings kept in records ([createdAt], [expiresAt], [timestamp]) are
      modelled by the time value they denote, because [toISOString] and the
      [Date] constructor are inverse to each other at millisecond precision.
      Time values are unbounded integers here, whereas a [Date] holds at most
      [Date_max] milliseconds either side of the epoch and [toISOString]
      raises a RangeError on a [Date] beyond that.  The model therefore
      follows [createShortURL] on the calls whose creation and expiry times
      are valid time values ([dates_in_range]), which is every call with a
      validity of 1 to 525600 minutes at a clock value from the epoch up to
      a year short of [Date_max].
    - The two [Map]s are finite maps keyed by strings.  Enumeration goes
      through [map_to_list]: the entries are those of the JavaScript
      iteration, their order is the finite map's and not insertion order.
    - Methods are computations in a state-and-exception monad over [World]:
      the store, the clock read by [new Date()], the counters of the calls
      made so far to [Math.random] and [uuidv4], and the log lines written
      through [logger].
    - The values returned by [Math.random] and [uuidv4] come from two
      oracles, which every definition and theorem takes as parameters. *)

From stdpp Require Import gmap strings list fin_maps.
From Stdlib Require Import ZArith Ascii.

Open Scope string_scope.

(** ** JavaScript values that reach the store *)

(** The values a caller can pass where a shortcode is expected. *)
Inductive jsval : Type :=
  | JNull
  | JUndefined
  | JBool (b : bool)
  | JNum (n : Z)
  | JStr (s : string)
  | JObject.

(** JavaScript truthiness, as used by [if (x)], [!x] and [x || d]. *)
Definition truthy (v : jsval) : bool :=
  match v with
  | JNull | JUndefined => false
  | JBool b => b
  | JNum n => negb (n =? 0)%Z
  | JStr s => negb (String.eqb s "")
  | JObject => true
  end.

(** [typeof v === 'string'] *)
Definition is_string (v : jsval) : bool :=
  match v with JStr _ => true | _ => false end.

(** [x || d] for an optional string field: [undefined], [null] and the empty
    string are falsy. *)
Definition or_default (x : option string) (d : string) : string :=
  match x with
  | Some s => if String.eqb s "" then d else s
  | None => d
  end.

(** ** Records *)

Record urlData : Type := mkUrlData {
  url_id : string;
  originalUrl : string;
  shortcode : string;
  createdAt : Z;
  expiresAt : Z;
  validityMinutes : Z;
  isActive : bool
}.

(** The [clickData] argument of [recordClick]. *)
Record clickData : Type := mkClickData {
  cd_ip : option string;
  cd_userAgent : option string;
  cd_referrer : option string;
  cd_location : option string
}.

Record clickRecord : Type := mkClickRecord {
  click_id : string;
  timestamp : Z;
  ip : option string;
  userAgent : option string;
  referrer : string;
  location : string
}.

(** One element of the [clicks] array of [getStatistics]. *)
Record clickView : Type := mkClickView {
  view_timestamp : Z;
  view_referrer : string;
  view_location : string;
  view_userAgent : option string
}.

Record statistics : Type := mkStatistics {
  stat_shortcode : string;
  stat_originalUrl : string;
  stat_createdAt : Z;
  stat_expiresAt : Z;
  stat_totalClicks : nat;
  stat_clicks : list clickView
}.

(** One element of the array of [getAllURLs]: [{...urlData, totalClicks}]. *)
Record urlSummary : Type := mkUrlSummary {
  summary_data : urlData;
  totalClicks : nat
}.

(** ** The world and the monad *)

Inductive logLevel : Type := LInfo | LWarn | LError.

Record World : Type := mkWorld {
  urls : gmap string urlData;
  clicks : gmap string (list clickRecord);
  clock : Z;
  random_calls : nat;
  uuid_calls : nat;
  logs : list (logLevel * string)
}.

Inductive Error : Type :=
  | InvalidShortcodeFormat
  | ShortcodeAlreadyExists.

(** The [message] of the thrown [Error]. *)
Definition message (e : Error) : string :=
  match e with
  | InvalidShortcodeFormat =>
      "Invalid shortcode format. Use alphanumeric characters, 3-20 length."
  | ShortcodeAlreadyExists =>
      "Shortcode already exists. Please choose a different one."
  end.

(** How a call ends: with a value, with an exception, or not within the
    fuel given to a loop. *)
Inductive Completion (A : Type) : Type :=
  | Normal (a : A)
  | Thrown (e : Error)
  | OutOfFuel.

Arguments Normal {A} a.
Arguments Thrown {A} e.
Arguments OutOfFuel {A}.

Definition JS (A : Type) : Type := World -> Completion A * World.

Definition ret {A} (a : A) : JS A := fun w => (Normal a, w).

Definition bind {A B} (c : JS A) (k : A -> JS B) : JS B :=
  fun w =>
    match c w with
    | (Normal a, w') => k a w'
    | (Thrown e, w') => (Thrown e, w')
    | (OutOfFuel, w') => (OutOfFuel, w')
    end.

Definition throw {A} (e : Error) : JS A := fun w => (Thrown e, w).

Definition out_of_fuel {A} : JS A := fun w => (OutOfFuel, w).

(** [try { c } catch (error) { h error; throw error; }] *)
Definition try_rethrow {A} (c : JS A) (h : Error -> JS unit) : JS A :=
  fun w =>
    match c w with
    | (Thrown e, w') => bind (h e) (fun _ => throw e) w'
    | r => r
    end.

Notation "'let*' x ':=' c 'in' k" := (bind c (fun x => k))
  (at level 10, x name, c at level 100, k at level 200).
Notation "c ';;;' k" := (bind c (fun _ => k))
  (at level 100, k at level 200, right associativity).

Definition result {A} (r : Completion A * World) : Completion A := fst r.

(** The value of a normal completion. *)
Definition result_value {A} (c : Completion A) : option A :=
  match c with Normal a => Some a | _ => None end.

Definition world_after {A} (r : Completion A * World) : World := snd r.

(** *** Primitive effects *)

Definition logger (l : logLevel) (msg : string) : JS unit :=
  fun w =>
    (Normal tt,
     mkWorld (urls w) (clicks w) (clock w) (random_calls w) (uuid_calls w)
             (logs w ++ [(l, msg)])%list).

(** [new Date()], as a time value. *)
Definition Date_now : JS Z := fun w => (Normal (clock w), w).

Definition urls_get (k : string) : JS (option urlData) :=
  fun w => (Normal (urls w !! k), w).

Definition urls_has (k : string) : JS bool :=
  fun w => (Normal (bool_decide (is_Some (urls w !! k))), w).

Definition urls_set (k : string) (v : urlData) : JS unit :=
  fun w =>
    (Normal tt,
     mkWorld (<[k := v]> (urls w)) (clicks w) (clock w) (random_calls w)
             (uuid_calls w) (logs w)).

Definition urls_delete (k : string) : JS unit :=
  fun w =>
    (Normal tt,
     mkWorld (delete k (urls w)) (clicks w) (clock w) (random_calls w)
             (uuid_calls w) (logs w)).

Definition urls_entries : JS (list (string * urlData)) :=
  fun w => (Normal (map_to_list (urls w)), w).

Definition clicks_get (k : string) : JS (option (list clickRecord)) :=
  fun w => (Normal (clicks w !! k), w).

Definition clicks_set (k : string) (v : list clickRecord) : JS unit :=
  fun w =>
    (Normal tt,
     mkWorld (urls w) (<[k := v]> (clicks w)) (clock w) (random_calls w)
             (uuid_calls w) (logs w)).

Definition clicks_delete (k : string) : JS unit :=
  fun w =>
    (Normal tt,
     mkWorld (urls w) (delete k (clicks w)) (clock w) (random_calls w)
             (uuid_calls w) (logs w)).

(** The state of a freshly constructed [URLStorage], at clock [t]. *)
Definition constructor (t : Z) : World :=
  mkWorld ∅ ∅ t 0 0 [(LInfo, "URL Storage initialized")].

(** The environment moves the clock between calls. *)
Definition set_clock (t : Z) (w : World) : World :=
  mkWorld (urls w) (clicks w) t (random_calls w) (uuid_calls w) (logs w).

(** ** Shortcode format *)

Definition chars : string :=
  "abcdefghijklmnopqrstuvwxyzABCDEFGHIJKLMNOPQRSTUVWXYZ0123456789".

(** The character class [[a-zA-Z0-9]]. *)
Definition is_alnum (c : ascii) : bool :=
  let n := nat_of_ascii c in
  (((97 <=? n) && (n <=? 122)) || ((65 <=? n) && (n <=? 90))
   || ((48 <=? n) && (n <=? 57)))%nat.

Fixpoint all_alnum (s : string) : bool :=
  match s with
  | EmptyString => true
  | String c s' => is_alnum c && all_alnum s'
  end.

(** [/^[a-zA-Z0-9]+$/.test(s)] *)
Definition regex_alnum_plus (s : string) : bool :=
  negb (String.eqb s "") && all_alnum s.

Definition isValidShortcode (shortcode : jsval) : bool :=
  if negb (truthy shortcode) || negb (is_string shortcode) then false
  else
    match shortcode with
    | JStr s =>
        if ((String.length s <? 3) || (20 <? String.length s))%nat then false
        else regex_alnum_plus s
    | _ => false
    end.

(** [s.charAt(i)]: the empty string out of range. *)
Definition charAt (s : string) (i : nat) : string :=
  match String.get i s with
  | Some c => String c EmptyString
  | None => ""
  end.

Definition maxAttempts : nat := 100.

Section Storage.

(** The n-th call of [Math.random] returns a number [x] in [0,1);
    [random_draw n] determines [Math.floor(x * m)] as [random_draw n mod m]. *)
Variable random_draw : nat -> nat.

(** The value of the n-th call of [uuidv4]. *)
Variable uuid_draw : nat -> string.

(** [Math.floor(Math.random() * m)] *)
Definition random_below (m : nat) : JS nat :=
  fun w =>
    (Normal (random_draw (random_calls w) mod m),
     mkWorld (urls w) (clicks w) (clock w) (S (random_calls w))
             (uuid_calls w) (logs w)).

Definition uuidv4 : JS string :=
  fun w =>
    (Normal (uuid_draw (uuid_calls w)),
     mkWorld (urls w) (clicks w) (clock w) (random_calls w)
             (S (uuid_calls w)) (logs w)).

(** ** The generator *)

(** The [for] loop of [generateShortcode], with [n] iterations left. *)
Fixpoint generateShortcode_loop (n : nat) (result : string) : JS string :=
  match n with
  | O => ret result
  | S n' =>
      let* i := random_below (String.length chars) in
      generateShortcode_loop n' (result +:+ charAt chars i)
  end.

Definition generateShortcode (length : nat) : JS string :=
  generateShortcode_loop length "".

Definition shortcodeExists (shortcode : string) : JS bool :=
  urls_has shortcode.

(** The [do ... while] loop of [generateUniqueShortcode]; it returns the
    shortcode and the number of attempts. *)
Fixpoint generateUnique_loop (fuel : nat) (attempts : nat)
  : JS (string * nat) :=
  match fuel with
  | O => out_of_fuel
  | S fuel' =>
      let* shortcode := generateShortcode 6 in
      let attempts := S attempts in
      if (maxAttempts <? attempts)%nat then
        let* shortcode := generateShortcode 8 in
        ret (shortcode, attempts)
      else
        let* taken := shortcodeExists shortcode in
        if taken then generateUnique_loop fuel' attempts
        else ret (shortcode, attempts)
  end.

Definition generateUniqueShortcode_fuel (fuel : nat) : JS string :=
  let* r := generateUnique_loop fuel 0 in
  logger LInfo "Generated unique shortcode" ;;;
  ret (fst r).

Definition generateUniqueShortcode : JS string :=
  generateUniqueShortcode_fuel (S maxAttempts).

(** ** The registry *)

(** The largest time value of a [Date], in milliseconds either side of the
    epoch. *)
Definition Date_max : Z := 8640000000000000.

Definition valid_time (t : Z) : Prop := (- Date_max <= t <= Date_max)%Z.

(** [createShortURL], for the calls on which [now.toISOString()] and
    [expiry.toISOString()] return, that is, with [now] and
    [now + validityMinutes * 60 * 1000] valid time values. *)
Definition createShortURL (originalUrl : string) (validityMinutes : Z)
    (customShortcode : jsval) : JS urlData :=
  try_rethrow
    (let* shortcode :=
       if truthy customShortcode then
         match customShortcode with
         | JStr custom =>
             if negb (isValidShortcode customShortcode) then
               throw InvalidShortcodeFormat
             else
               let* taken := shortcodeExists custom in
               if taken then throw ShortcodeAlreadyExists else ret custom
         | _ =>
             (* not a string: isValidShortcode answers false *)
             throw InvalidShortcodeFormat
         end
       else generateUniqueShortcode in
     let* now := Date_now in
     let expiry := (now + validityMinutes * 60 * 1000)%Z in
     let* uid := uuidv4 in
     let urlData :=
       {| url_id := uid;
          originalUrl := originalUrl;
          shortcode := shortcode;
          createdAt := now;
          expiresAt := expiry;
          validityMinutes := validityMinutes;
          isActive := true |} in
     urls_set shortcode urlData ;;;
     clicks_set shortcode [] ;;;
     logger LInfo "Short URL created" ;;;
     ret urlData)
    (fun error => logger LError "Error creating short URL").

Definition getURLData (shortcode : string) : JS (option urlData) :=
  let* urlData := urls_get shortcode in
  match urlData with
  | None =>
      logger LWarn "URL not found" ;;;
      ret None
  | Some urlData =>
      let* now := Date_now in
      let expiry := expiresAt urlData in
      if (now >? expiry)%Z then
        logger LInfo "URL expired" ;;;
        ret None
      else ret (Some urlData)
  end.

Definition recordClick (shortcode : string) (clickData : clickData)
  : JS clickRecord :=
  try_rethrow
    (let* stored := clicks_get shortcode in
     let clicks := default [] stored in
     let* uid := uuidv4 in
     let* now := Date_now in
     let clickRecord :=
       {| click_id := uid;
          timestamp := now;
          ip := cd_ip clickData;
          userAgent := cd_userAgent clickData;
          referrer := or_default (cd_referrer clickData) "Direct";
          location := or_default (cd_location clickData) "Unknown" |} in
     let clicks := (clicks ++ [clickRecord])%list in
     clicks_set shortcode clicks ;;;
     logger LInfo "Click recorded" ;;;
     ret clickRecord)
    (fun error => logger LError "Error recording click").

Definition click_view (click : clickRecord) : clickView :=
  {| view_timestamp := timestamp click;
     view_referrer := referrer click;
     view_location := location click;
     view_userAgent := userAgent click |}.

Definition getStatistics (shortcode : string) : JS (option statistics) :=
  let* urlData := urls_get shortcode in
  match urlData with
  | None =>
      logger LWarn "Statistics requested for non-existent URL" ;;;
      ret None
  | Some urlData =>
      let* stored := clicks_get shortcode in
      let clicks := default [] stored in
      let stats :=
        {| stat_shortcode := shortcode;
           stat_originalUrl := originalUrl urlData;
           stat_createdAt := createdAt urlData;
           stat_expiresAt := expiresAt urlData;
           stat_totalClicks := length clicks;
           stat_clicks := click_view <$> clicks |} in
      logger LInfo "Statistics retrieved" ;;;
      ret (Some stats)
  end.

(** The [for ... of this.urls.entries()] loop of [getAllURLs]. *)
Fixpoint getAllURLs_loop (entries : list (string * urlData))
    (allUrls : list urlSummary) : JS (list urlSummary) :=
  match entries with
  | [] => ret allUrls
  | (shortcode, urlData) :: rest =>
      let* stored := clicks_get shortcode in
      let clicks := default [] stored in
      getAllURLs_loop rest
        (allUrls ++ [{| summary_data := urlData;
                        totalClicks := length clicks |}])%list
  end.

Definition getAllURLs : JS (list urlSummary) :=
  let* entries := urls_entries in
  let* allUrls := getAllURLs_loop entries [] in
  logger LInfo "All URLs retrieved" ;;;
  ret allUrls.

(** The [for ... of this.urls.entries()] loop of [cleanupExpiredURLs].  The
    body deletes only the entry being visited, so the live iterator visits
    the entries the map had when the loop started. *)
Fixpoint cleanup_loop (now : Z) (entries : list (string * urlData))
    (cleanedCount : nat) : JS nat :=
  match entries with
  | [] => ret cleanedCount
  | (shortcode, urlData) :: rest =>
      let expiry := expiresAt urlData in
      if (now >? expiry)%Z then
        urls_delete shortcode ;;;
        clicks_delete shortcode ;;;
        cleanup_loop now rest (S cleanedCount)
      else cleanup_loop now rest cleanedCount
  end.

Definition cleanupExpiredURLs : JS nat :=
  let* now := Date_now in
  let* entries := urls_entries in
  let* cleanedCount := cleanup_loop now entries 0 in
  (if (0 <? cleanedCount)%nat then logger LInfo "Expired URLs cleaned up"
   else ret tt) ;;;
  ret cleanedCount.

(** ** Sequences of calls *)

Inductive Call : Type :=
  | CallCreate (originalUrl : string) (validityMinutes : Z)
               (customShortcode : jsval)
  | CallGetURLData (shortcode : string)
  | CallRecordClick (shortcode : string) (clickData : clickData)
  | CallGetStatistics (shortcode : string)
  | CallGetAllURLs
  | CallCleanup
  | ClockMoves (t : Z).

(** The world after one call, whatever it returned or threw. *)
Definition after_call (c : Call) (w : World) : World :=
  match c with
  | CallCreate u v custom => world_after (createShortURL u v custom w)
  | CallGetURLData k => world_after (getURLData k w)
  | CallRecordClick k cd => world_after (recordClick k cd w)
  | CallGetStatistics k => world_after (getStatistics k w)
  | CallGetAllURLs => world_after (getAllURLs w)
  | CallCleanup => world_after (cleanupExpiredURLs w)
  | ClockMoves t => set_clock t w
  end.

Definition after_calls (cs : list Call) (w : World) : World :=
  foldl (fun w c => after_call c w) w cs.

End Storage.

(** ** Predicates used by the properties *)

(** [now > expiresAt] *)
Definition expired (now : Z) (r : urlData) : Prop := (expiresAt r < now)%Z.

Definition live (now : Z) (r : urlData) : Prop := (now <= expiresAt r)%Z.

(** The records of the registry are filed under their own shortcode, and
    every key has the shortcode format. *)
Definition well_formed (w : World) : Prop :=
  forall k r, urls w !! k = Some r ->
    shortcode r = k /\ isValidShortcode (JStr k) = true.

Definition is_cleanup (c : Call) : bool :=
  match c with CallCleanup => true | _ => false end.

Definition is_create (c : Call) : bool :=
  match c with CallCreate _ _ _ => true | _ => false end.

(** A character of [[a-zA-Z0-9]], by its code. *)
Definition alnum_char (c : ascii) : Prop :=
  let n := nat_of_ascii c in
  ((97 <= n /\ n <= 122) \/ (65 <= n /\ n <= 90) \/ (48 <= n /\ n <= 57))%nat.

(** The format in the words of the specification: a string of 3 to 20
    characters, all of them alphanumeric. *)
Definition shortcode_format (v : jsval) : Prop :=
  exists s, v = JStr s /\
    (3 <= String.length s)%nat /\ (String.length s <= 20)%nat /\
    forall i c, String.get i s = Some c -> alnum_char c.

(** The string [generateShortcode] builds from the draws [pos], [pos+1], ... *)
Fixpoint code_from (random_draw : nat -> nat) (pos n : nat) (acc : string)
  : string :=
  match n with
  | O => acc
  | S n' =>
      code_from random_draw (S pos) n'
        (acc +:+ charAt chars (random_draw pos mod String.length chars))
  end.

(** The world after [n] more calls of [Math.random]. *)
Definition drawn (n : nat) (w : World) : World :=
  mkWorld (urls w) (clicks w) (clock w) (random_calls w + n) (uuid_calls w)
          (logs w).

(** Two worlds with the same store and the same clock. *)
Definition same_store (w w' : World) : Prop :=
  urls w' = urls w /\ clicks w' = clicks w /\ clock w' = clock w.

(** The code tried by attempt number [j] (from 0) of a
    [generateUniqueShortcode] that starts in [w]. *)
Definition candidate (random_draw : nat -> nat) (w : World) (j : nat)
  : string :=
  code_from random_draw (random_calls w + 6 * j) 6 "".

(** The length-8 code of the fallback of a [generateUniqueShortcode] that
    starts in [w]. *)
Definition fallback (random_draw : nat -> nat) (w : World) : string :=
  code_from random_draw (random_calls w + 6 * S maxAttempts) 8 "".

(** The creation time and the expiry time that [createShortURL] computes in
    [w] for the validity [v] are valid time values: both [toISOString] calls
    of the method return. *)
Definition dates_in_range (w : World) (v : Z) : Prop :=
  valid_time (clock w) /\ valid_time (clock w + v * 60 * 1000).

(** Milliseconds in [n] seconds. *)
Definition seconds (n : Z) : Z := (n * 1000)%Z.

(** The record [createShortURL] builds in [w] for the shortcode [s]. *)
Definition new_record (uuid_draw : nat -> string) (w : World)
    (url : string) (v : Z) (s : string) : urlData :=
  {| url_id := uuid_draw (uuid_calls w);
     originalUrl := url;
     shortcode := s;
     createdAt := clock w;
     expiresAt := (clock w + v * 60 * 1000)%Z;
     validityMinutes := v;
     isActive := true |}.

(** The world in which that record and an empty click list are filed. *)
Definition filed (uuid_draw : nat -> string) (w : World)
    (url : string) (v : Z) (s : string) : World :=
  mkWorld (<[s := new_record uuid_draw w url v s]> (urls w))
          (<[s := []]> (clicks w))
          (clock w) (random_calls w) (S (uuid_calls w))
          (logs w ++ [(LInfo, "Short URL created")])%list.

(** The world after one more log line. *)
Definition logged (l : logLevel) (msg : string) (w : World) : World :=
  mkWorld (urls w) (clicks w) (clock w) (random_calls w) (uuid_calls w)
          (logs w ++ [(l, msg)])%list.

(** The click [recordClick] builds in [w] from [cd]. *)
Definition new_click (uuid_draw : nat -> string) (w : World) (cd : clickData)
  : clickRecord :=
  {| click_id := uuid_draw (uuid_calls w);
     timestamp := clock w;
     ip := cd_ip cd;
     userAgent := cd_userAgent cd;
     referrer := or_default (cd_referrer cd) "Direct";
     location := or_default (cd_location cd) "Unknown" |}.

(** The world in which that click is at the end of the list of [k]. *)
Definition clicked (uuid_draw : nat -> string) (w : World) (k : string)
    (cd : clickData) : World :=
  mkWorld (urls w)
          (<[k := (default [] (clicks w !! k) ++ [new_click uuid_draw w cd])%list]>
             (clicks w))
          (clock w) (random_calls w) (S (uuid_calls w))
          (logs w ++ [(LInfo, "Click recorded")])%list.

(** The click list of [k], empty when the click map has none. *)
Definition clicks_of (w : World) (k : string) : list clickRecord :=
  default [] (clicks w !! k).

(** The element of [getAllURLs] for the entry [kv] of the URL map. *)
Definition summary_of (w : World) (kv : string * urlData) : urlSummary :=
  {| summary_data := kv.2; totalClicks := length (clicks_of w kv.1) |}.

(** The answer of [getStatistics] for the record [r] filed under [k]. *)
Definition stats_of (w : World) (k : string) (r : urlData) : statistics :=
  {| stat_shortcode := k;
     stat_originalUrl := originalUrl r;
     stat_createdAt := createdAt r;
     stat_expiresAt := expiresAt r;
     stat_totalClicks := length (clicks_of w k);
     stat_clicks := click_view <$> clicks_of w k |}.

#[global] Instance expired_dec (now : Z) (r : urlData) :
  Decision (expired now r).
Proof. unfold expired. apply _. Defined.

(** The entries of [l] that are expired at [now]. *)
Definition expired_entries (now : Z) (l : list (string * urlData))
  : list (string * urlData) :=
  filter (fun kv => expired now kv.2) l.

(** The click data of the calls [recordClick(k, _)] among [cs], in call
    order. *)
Fixpoint clicks_recorded (k : string) (cs : list Call) : list clickData :=
  match cs with
  | [] => []
  | CallRecordClick k' cd :: cs' =>
      if decide (k' = k) then cd :: clicks_recorded k cs'
      else clicks_recorded k cs'
  | _ :: cs' => clicks_recorded k cs'
  end.

(** What statistics show of a click besides its time, as stored, as
    exposed and as computed from the click data. *)
Definition click_meta (c : clickRecord) : option string * string * string :=
  (userAgent c, referrer c, location c).

Definition view_meta (v : clickView) : option string * string * string :=
  (view_userAgent v, view_referrer v, view_location v).

Definition data_meta (cd : clickData) : option string * string * string :=
  (cd_userAgent cd,
   or_default (cd_referrer cd) "Direct", or_default (cd_location cd) "Unknown").

(** Calls that neither create nor clean up. *)
Definition is_quiet (c : Call) : bool :=
  negb (is_create c) && negb (is_cleanup c).

(** Cleanup passes and clock movements. *)
Definition is_sweep (c : Call) : bool :=
  match c with CallCleanup | ClockMoves _ => true | _ => false end.

#[global] Instance live_dec (now : Z) (r : urlData) : Decision (live now r).
Proof. unfold live. apply _. Defined.

(** The shortcode [k] has no record in the URL map before, between and
    after the calls [cs] made from [w]. *)
Fixpoint stays_unfiled (random_draw : nat -> nat) (uuid_draw : nat -> string)
    (k : string) (cs : list Call) (w : World) : Prop :=
  urls w !! k = None /\
  match cs with
  | [] => True
  | c :: cs' =>
      stays_unfiled random_draw uuid_draw k cs'
        (after_call random_draw uuid_draw c w)
  end.

(** Among the calls [cs] made from [w] there is a [createShortURL] without
    custom shortcode that finds the 100 candidates of its generator taken
    and whose unchecked fallback code is [k]. *)
Definition overwritten_by_fallback (random_draw : nat -> nat)
    (uuid_draw : nat -> string) (k : string) (cs : list Call) (w : World)
  : Prop :=
  exists cs1 u v cu cs2,
    cs = (cs1 ++ CallCreate u v cu :: cs2)%list /\
    truthy cu = false /\
    k = fallback random_draw (after_calls random_draw uuid_draw cs1 w) /\
    forall j, (j < maxAttempts)%nat ->
      is_Some (urls (after_calls random_draw uuid_draw cs1 w)
                 !! candidate random_draw
                      (after_calls random_draw uuid_draw cs1 w) j).

(** ** Sample oracles and worlds *)

Definition sample_random (n : nat) : nat := 7 * n + 3.

Definition sample_uuid (n : nat) : string :=
  "uuid-" +:+ String (ascii_of_nat (48 + n mod 10)) EmptyString.

Definition sample_world : World := constructor 1000.

(** An oracle that always draws the first character. *)
Definition zero_draw (n : nat) : nat := 0.

(** A registry that already holds the only codes [zero_draw] can generate. *)
Definition crowded_world : World :=
  after_calls zero_draw sample_uuid
    [CallCreate "https://example.com/a" 30 (JStr "aaaaaa");
     CallCreate "https://example.com/b" 30 (JStr "aaaaaaaa")]
    (constructor 0).

(** The record that [crowded_world] holds under the fallback code. *)
Definition crowded_record : urlData :=
  {| url_id := "uuid-1";
     originalUrl := "https://example.com/b";
     shortcode := "aaaaaaaa";
     createdAt := 0;
     expiresAt := 1800000;
     validityMinutes := 30;
     isActive := true |}.

(** The crowded registry an hour later: its records are expired. *)
Definition crowded_stale_world : World := set_clock 3600000 crowded_world.

(** A registry with one record, created for one minute and long expired. *)
Definition stale_record : urlData :=
  new_record sample_uuid sample_world "https://example.com" 1 "abc123".

Definition stale_world : World :=
  after_calls sample_random sample_uuid
    [CallCreate "https://example.com" 1 (JStr "abc123");
     ClockMoves 1000000000]
    sample_world.

Definition sample_click : clickData :=
  {| cd_ip := Some "1.2.3.4";
     cd_userAgent := Some "ua";
     cd_referrer := None;
     cd_location := Some "X" |}.

(** * The callers of the registry (utils/helpers.js, routes/urlRoutes.js)

    Strings are sequences of character codes below 256.  A request is the
    record of what the handlers read from it; its body has a string [url].
    A response is its status code and what was sent.  The geolocation
    database is an oracle, like the random source. *)

(** ** Helpers *)

(** The white space and line terminators that [String.prototype.trim]
    strips, among the codes below 256. *)
Definition is_space (c : ascii) : bool :=
  let n := nat_of_ascii c in
  (((9 <=? n) && (n <=? 13)) || (n =? 32) || (n =? 160))%nat.

Fixpoint trim_start (s : string) : string :=
  match s with
  | EmptyString => EmptyString
  | String c s' => if is_space c then trim_start s' else s
  end.

Fixpoint trim_end (s : string) : string :=
  match s with
  | EmptyString => EmptyString
  | String c s' =>
      let t := trim_end s' in
      if is_space c && String.eqb t "" then EmptyString else String c t
  end.

(** [s.trim()] *)
Definition trim (s : string) : string := trim_end (trim_start s).

Definition sanitizeInput (input : jsval) : jsval :=
  if negb (is_string input) then input
  else match input with JStr s => JStr (trim s) | _ => input end.

(** [a || b] on values. *)
Definition js_or (a b : jsval) : jsval := if truthy a then a else b.

(** [a || b] on optional strings. *)
Definition or_else (a b : option string) : option string :=
  match a with
  | Some s => if String.eqb s "" then b else a
  | None => b
  end.

(** [JNum] holds the integers, so [Number.isInteger] holds exactly there. *)
Definition Number_isInteger (v : jsval) : bool :=
  match v with JNum _ => true | _ => false end.

Definition isValidValidity (validity : jsval) : bool :=
  match validity with
  | JUndefined | JNull => true
  | JNum n => Number_isInteger validity && (n >? 0)%Z && (n <=? 525600)%Z
  | _ => Number_isInteger validity
  end.

(** [s.startsWith(p)] *)
Fixpoint startsWith (s p : string) : bool :=
  match p with
  | EmptyString => true
  | String c p' =>
      match s with
      | EmptyString => false
      | String d s' => Ascii.eqb c d && startsWith s' p'
      end
  end.

(** [s.includes(p)] *)
Fixpoint includes (s p : string) : bool :=
  startsWith s p
  || match s with
     | EmptyString => false
     | String _ s' => includes s' p
     end.

(** What [geoip.lookup] does with an address. *)
Inductive geoResult : Type :=
  | GeoThrows
  | GeoNone
  | GeoFound (city region country : option string).

Record Request : Type := mkRequest {
  req_protocol : string;
  req_host : option string;
  req_user_agent : option string;
  req_referrer : option string;
  req_referer : option string;
  hdr_x_forwarded_for : option string;
  hdr_x_real_ip : option string;
  connection_remoteAddress : option string;
  socket_remoteAddress : option string;
  connection_socket : option (option string);
  req_ip : option string;
  body_url : string;
  body_validity : jsval;
  body_shortcode : jsval;
  param_shortcode : string
}.

Definition getRealIP (req : Request) : string :=
  or_default
    (or_else
       (or_else
          (or_else
             (or_else
                (or_else (hdr_x_forwarded_for req) (hdr_x_real_ip req))
                (connection_remoteAddress req))
             (socket_remoteAddress req))
          (match connection_socket req with
           | Some socket => socket
           | None => None
           end))
       (req_ip req))
    "127.0.0.1".

(** What was sent. *)
Inductive ResponseBody : Type :=
  | BodyCreated (shortLink : string) (expiry : Z)
  | BodyError (message : string) (statusCode : nat) (timestamp : Z)
  | BodyStatistics (stats : statistics)
  | BodySuccess (data : list urlSummary) (message : string) (timestamp : Z)
  | BodyRedirect (target : string).

Record Response : Type := mkResponse {
  res_status : nat;
  res_body : ResponseBody
}.

(** [try { c } catch (error) { h error }] *)
Definition try_catch {A} (c : JS A) (h : Error -> JS A) : JS A :=
  fun w =>
    match c w with
    | (Thrown e, w') => h e w'
    | r => r
    end.

(** [formatErrorResponse(message)]: the status code in the body is the
    default of the second parameter. *)
Definition formatErrorResponse (message : string) : JS ResponseBody :=
  let* now := Date_now in
  ret (BodyError message 400 now).

Definition formatSuccessResponse (data : list urlSummary) (message : string)
  : JS ResponseBody :=
  let* now := Date_now in
  ret (BodySuccess data message now).

(** The minutes [createShortURL] computes with for a [validityMinutes] that
    passed [isValidValidity]: [undefined] takes the default of the
    parameter, [null] counts as 0. *)
Definition minutes_of (validityMinutes : jsval) : Z :=
  match validityMinutes with
  | JNum n => n
  | JNull => 0
  | _ => 30
  end.

(** A template literal prints a missing value as "undefined". *)
Definition template (x : option string) : string := default "undefined" x.

Section Routes.

Variable random_draw : nat -> nat.
Variable uuid_draw : nat -> string.
Variable geoip_lookup : string -> geoResult.

Definition getLocationFromIP (ip : string) : JS string :=
  if String.eqb ip "" || String.eqb ip "127.0.0.1" || String.eqb ip "::1"
     || startsWith ip "192.168." || startsWith ip "10."
     || startsWith ip "172."
  then ret "Local/Private Network"
  else
    match geoip_lookup ip with
    | GeoThrows =>
        logger LError "Geolocation lookup error" ;;;
        ret "Unknown Location"
    | GeoFound city region country =>
        ret (or_default city "Unknown City" +:+ ", "
             +:+ or_default region "Unknown Region" +:+ ", "
             +:+ or_default country "Unknown Country")
    | GeoNone => ret "Unknown Location"
    end.

(** [POST /shorturls] *)
Definition post_shorturls (req : Request) : JS Response :=
  try_catch
    (logger LInfo "Create short URL request received" ;;;
     let cleanUrl := trim (body_url req) in
     let cleanShortcode :=
       if truthy (body_shortcode req) then sanitizeInput (body_shortcode req)
       else JNull in
     let validityMinutes := js_or (body_validity req) (JNum 30) in
     if negb (isValidValidity validityMinutes) then
       logger LWarn "Invalid validity period" ;;;
       let* body :=
         formatErrorResponse
           "Validity must be a positive integer representing minutes (max 525600)." in
       ret {| res_status := 400; res_body := body |}
     else
       let* urlData :=
         createShortURL random_draw uuid_draw cleanUrl
           (minutes_of validityMinutes) cleanShortcode in
       let baseUrl := req_protocol req +:+ "://" +:+ template (req_host req) in
       let shortLink := baseUrl +:+ "/" +:+ shortcode urlData in
       logger LInfo "Short URL created successfully" ;;;
       ret {| res_status := 201;
              res_body := BodyCreated shortLink (expiresAt urlData) |})
    (fun error =>
       logger LError "Error creating short URL" ;;;
       if includes (message error) "shortcode" then
         let* body := formatErrorResponse (message error) in
         ret {| res_status := 409; res_body := body |}
       else
         let* body :=
           formatErrorResponse "Internal server error while creating short URL" in
         ret {| res_status := 500; res_body := body |}).

(** [GET /shorturls/:shortcode] *)
Definition get_statistics (req : Request) : JS Response :=
  try_catch
    (let cleanShortcode := trim (param_shortcode req) in
     logger LInfo "Statistics request received" ;;;
     if String.eqb cleanShortcode "" then
       logger LWarn "Empty shortcode in statistics request" ;;;
       let* body := formatErrorResponse "Shortcode is required" in
       ret {| res_status := 400; res_body := body |}
     else
       let* statistics := getStatistics cleanShortcode in
       match statistics with
       | None =>
           logger LWarn "Statistics requested for non-existent shortcode" ;;;
           let* body :=
             formatErrorResponse "Short URL not found or has expired" in
           ret {| res_status := 404; res_body := body |}
       | Some statistics =>
           logger LInfo "Statistics retrieved successfully" ;;;
           ret {| res_status := 200; res_body := BodyStatistics statistics |}
       end)
    (fun error =>
       logger LError "Error retrieving statistics" ;;;
       let* body :=
         formatErrorResponse "Internal server error while retrieving statistics" in
       ret {| res_status := 500; res_body := body |}).

(** [GET /all-urls] *)
Definition get_all_urls (req : Request) : JS Response :=
  try_catch
    (logger LInfo "All URLs request received" ;;;
     let* allUrls := getAllURLs in
     logger LInfo "All URLs retrieved successfully" ;;;
     let* body := formatSuccessResponse allUrls "All URLs retrieved successfully" in
     ret {| res_status := 200; res_body := body |})
    (fun error =>
       logger LError "Error retrieving all URLs" ;;;
       let* body :=
         formatErrorResponse "Internal server error while retrieving URLs" in
       ret {| res_status := 500; res_body := body |}).

(** [GET /:shortcode] *)
Definition get_redirect (req : Request) : JS Response :=
  try_catch
    (let cleanShortcode := trim (param_shortcode req) in
     logger LInfo "Redirect request received" ;;;
     if String.eqb cleanShortcode "" then
       logger LWarn "Empty shortcode in redirect request" ;;;
       let* body := formatErrorResponse "Invalid shortcode" in
       ret {| res_status := 400; res_body := body |}
     else
       let* urlData := getURLData cleanShortcode in
       match urlData with
       | None =>
           logger LWarn "Redirect attempted for non-existent or expired URL" ;;;
           let* body :=
             formatErrorResponse "Short URL not found or has expired" in
           ret {| res_status := 404; res_body := body |}
       | Some urlData =>
           let clientIP := getRealIP req in
           let* location := getLocationFromIP clientIP in
           let clickData :=
             {| cd_ip := Some clientIP;
                cd_userAgent := req_user_agent req;
                cd_referrer := or_else (req_referrer req) (req_referer req);
                cd_location := Some location |} in
           recordClick uuid_draw cleanShortcode clickData ;;;
           logger LInfo "Redirecting to original URL" ;;;
           ret {| res_status := 302;
                  res_body := BodyRedirect (originalUrl urlData) |}
       end)
    (fun error =>
       logger LError "Error during redirect" ;;;
       let* body := formatErrorResponse "Internal server error during redirect" in
       ret {| res_status := 500; res_body := body |}).

End Routes.

(** ** Predicates used by the further properties *)

(** What creation establishes of a record filed under [k]. *)
Definition record_sound (k : string) (r : urlData) : Prop :=
  shortcode r = k /\ shortcode_format (JStr k) /\ isActive r = true /\
  expiresAt r = (createdAt r + validityMinutes r * 60 * 1000)%Z.

Definition click_sound (c : clickRecord) : Prop :=
  referrer c <> "" /\ location c <> "".

Definition registry_inv (w : World) : Prop :=
  (forall k r, urls w !! k = Some r ->
     record_sound k r /\ is_Some (clicks w !! k)) /\
  (forall k l c, clicks w !! k = Some l -> c ∈ l -> click_sound c).

(** No white space at the front, none at the end. *)
Definition clean_start (s : string) : Prop :=
  match s with
  | EmptyString => True
  | String c _ => is_space c = false
  end.

Fixpoint clean_end (s : string) : Prop :=
  match s with
  | EmptyString => True
  | String c EmptyString => is_space c = false
  | String _ s' => clean_end s'
  end.

Fixpoint all_space (s : string) : bool :=
  match s with
  | EmptyString => true
  | String c s' => is_space c && all_space s'
  end.

(** ** Sample requests *)

Definition sample_geo (ip : string) : geoResult :=
  if String.eqb ip "8.8.8.8" then
    GeoFound (Some "Mountain View") (Some "CA") (Some "US")
  else if String.eqb ip "9.9.9.9" then GeoThrows
  else GeoNone.

Definition sample_request : Request :=
  {| req_protocol := "http";
     req_host := Some "short.test";
     req_user_agent := Some "ua";
     req_referrer := None;
     req_referer := Some "https://ref.example";
     hdr_x_forwarded_for := Some "8.8.8.8";
     hdr_x_real_ip := None;
     connection_remoteAddress := Some "10.0.0.7";
     socket_remoteAddress := None;
     connection_socket := None;
     req_ip := None;
     body_url := "  https://example.com/page ";
     body_validity := JNum 45;
     body_shortcode := JStr " abc123 ";
     param_shortcode := " abc123 " |}.

(** The registry right after [abc123] was created for one minute. *)
Definition fresh_world : World :=
  world_after
    (createShortURL sample_random sample_uuid "https://example.com" 1
       (JStr "abc123") sample_world).

Definition clicked_world : World :=
  after_calls sample_random sample_uuid
    [CallCreate "https://example.com" 1 (JStr "abc123");
     CallRecordClick "abc123" sample_click]
    (constructor 1000).

Definition sample_stored_click : clickRecord :=
  new_click sample_uuid fresh_world sample_click.

(** ** Properties *)

Lemma string_length_app (a b : string) :
  String.length (a +:+ b) = (String.length a + String.length b)%nat.
Proof. induction a as [|c a IH]; simpl; [reflexivity | now rewrite IH]. Qed.

Lemma all_alnum_app (a b : string) :
  all_alnum (a +:+ b) = all_alnum a && all_alnum b.
Proof.
  induction a as [|c a IH]; simpl; [reflexivity |].
  rewrite IH. now rewrite andb_assoc.
Qed.

Lemma chars_length : String.length chars = 62%nat.
Proof. reflexivity. Qed.

(** Every character of the alphabet of the generator is alphanumeric. *)
Lemma charAt_chars (i : nat) :
  (i < 62)%nat ->
  String.length (charAt chars i) = 1%nat /\ all_alnum (charAt chars i) = true.
Proof.
  intros Hi.
  assert (Hall : forallb (fun j =>
            Nat.eqb (String.length (charAt chars j)) 1
            && all_alnum (charAt chars j)) (seq 0 62) = true)
    by (vm_compute; reflexivity).
  rewrite forallb_forall in Hall.
  specialize (Hall i). rewrite in_seq in Hall.
  assert (Hi' : (0 <= i < 0 + 62)%nat) by lia.
  apply Hall, andb_prop in Hi'. destruct Hi' as [H1 H2].
  now apply Nat.eqb_eq in H1.
Qed.

Lemma code_from_spec (rnd : nat -> nat) (n pos : nat) (acc : string) :
  String.length (code_from rnd pos n acc) = (String.length acc + n)%nat /\
  (all_alnum acc = true -> all_alnum (code_from rnd pos n acc) = true).
Proof.
  revert pos acc. induction n as [|n IH]; intros pos acc; cbn [code_from].
  - split; [lia | tauto].
  - destruct (IH (S pos) (acc +:+ charAt chars (rnd pos mod String.length chars)))
      as [Hlen Hal].
    destruct (charAt_chars (rnd pos mod String.length chars)) as [H1 H2].
    { rewrite chars_length. apply Nat.mod_upper_bound. lia. }
    rewrite string_length_app, H1 in Hlen.
    split; [lia |].
    intros Hacc. apply Hal. rewrite all_alnum_app, Hacc, H2. reflexivity.
Qed.

Lemma code_from_empty (rnd : nat -> nat) (n pos : nat) :
  String.length (code_from rnd pos n "") = n /\
  all_alnum (code_from rnd pos n "") = true.
Proof.
  destruct (code_from_spec rnd n pos "") as [Hl Ha].
  split; [exact Hl | now apply Ha].
Qed.

Lemma all_alnum_get (s : string) :
  all_alnum s = true <-> forall i c, String.get i s = Some c -> is_alnum c = true.
Proof.
  induction s as [|a s IH]; simpl.
  - split; [intros _ i c H; destruct i; discriminate | reflexivity].
  - rewrite andb_true_iff, IH. split.
    + intros [Ha Hs] [|i] c H; [now inversion H; subst | eauto].
    + intros H. split; [apply (H 0%nat); reflexivity |].
      intros i c Hi. apply (H (S i)). exact Hi.
Qed.

Lemma is_alnum_spec (c : ascii) : is_alnum c = true <-> alnum_char c.
Proof.
  unfold is_alnum, alnum_char. cbv zeta.
  rewrite !orb_true_iff, !andb_true_iff, !Nat.leb_le. tauto.
Qed.

(** [isValidShortcode] decides the format of the specification. *)
Lemma isValidShortcode_spec (v : jsval) :
  isValidShortcode v = true <-> shortcode_format v.
Proof.
  unfold shortcode_format. split.
  - destruct v as [| |b|n|s|]; unfold isValidShortcode;
      cbn [truthy is_string negb orb]; try discriminate;
      try (rewrite orb_true_r; discriminate).
    unfold regex_alnum_plus.
    destruct (String.eqb_spec s "") as [->|Hne]; [discriminate |].
    destruct (String.length s <? 3)%nat eqn:H3; [discriminate |].
    destruct (20 <? String.length s)%nat eqn:H20; [discriminate |].
    cbn [negb orb andb]. intros Hal.
    apply Nat.ltb_ge in H3, H20.
    exists s. repeat split; try assumption.
    intros i c Hi. apply is_alnum_spec.
    rewrite all_alnum_get in Hal. eauto.
  - intros (s & -> & H3 & H20 & Hal).
    unfold isValidShortcode, regex_alnum_plus. cbn [truthy is_string].
    destruct (String.eqb_spec s "") as [->|Hne]; [simpl in H3; lia |].
    rewrite (proj2 (Nat.ltb_ge (String.length s) 3)) by lia.
    rewrite (proj2 (Nat.ltb_ge 20 (String.length s))) by lia.
    cbn [negb orb andb].
    apply all_alnum_get. intros i c Hi. apply is_alnum_spec. eauto.
Qed.

Lemma isValidShortcode_generated (s : string) :
  (String.length s = 6 \/ String.length s = 8)%nat ->
  all_alnum s = true ->
  isValidShortcode (JStr s) = true.
Proof.
  intros Hlen Hal.
  unfold isValidShortcode, regex_alnum_plus. cbn [truthy is_string].
  destruct (String.eqb_spec s "") as [->|Hne]; [simpl in Hlen; lia |].
  rewrite (proj2 (Nat.ltb_ge (String.length s) 3)) by lia.
  rewrite (proj2 (Nat.ltb_ge 20 (String.length s))) by lia.
  exact Hal.
Qed.

Lemma drawn_drawn (a b : nat) (w : World) :
  drawn a (drawn b w) = drawn (b + a) w.
Proof. unfold drawn; simpl. f_equal. lia. Qed.

Lemma drawn_0 (w : World) : drawn 0 w = w.
Proof. destruct w; unfold drawn; simpl. f_equal. lia. Qed.

Lemma same_store_refl (w : World) : same_store w w.
Proof. repeat split. Qed.

Lemma bind_normal {A B} (c : JS A) (k : A -> JS B) (w : World) (a : A)
    (w1 : World) :
  c w = (Normal a, w1) -> bind c k w = k a w1.
Proof. intros H. unfold bind. now rewrite H. Qed.

Section Properties.

Variable rnd : nat -> nat.
Variable uid : nat -> string.

(** *** The generator *)

Lemma generateShortcode_loop_eq (n : nat) (acc : string) (w : World) :
  generateShortcode_loop rnd n acc w
  = (Normal (code_from rnd (random_calls w) n acc), drawn n w).
Proof.
  revert acc w. induction n as [|n IH]; intros acc w.
  - cbn [generateShortcode_loop code_from]. unfold ret. now rewrite drawn_0.
  - cbn [generateShortcode_loop code_from]. unfold bind, random_below.
    rewrite IH. cbn [random_calls]. f_equal.
    unfold drawn; simpl. f_equal. lia.
Qed.

Lemma generateShortcode_eq (n : nat) (w : World) :
  generateShortcode rnd n w
  = (Normal (code_from rnd (random_calls w) n ""), drawn n w).
Proof. apply generateShortcode_loop_eq. Qed.

Lemma generateUnique_loop_spec (fuel attempts : nat) (w : World) :
  (attempts <= maxAttempts)%nat ->
  (maxAttempts < fuel + attempts)%nat ->
  exists code n k,
    generateUnique_loop rnd fuel attempts w = (Normal (code, n), drawn k w) /\
    (attempts < n)%nat /\ (n <= S maxAttempts)%nat /\
    (forall j, (j < n - attempts - 1)%nat ->
       is_Some (urls w !! code_from rnd (random_calls w + 6 * j) 6 "")) /\
    (((n <= maxAttempts)%nat /\
      code = code_from rnd (random_calls w + 6 * (n - attempts - 1)) 6 "" /\
      urls w !! code = None)
     \/
     (n = S maxAttempts /\
      code = code_from rnd (random_calls w + 6 * (n - attempts)) 8 "")).
Proof.
  revert attempts w. induction fuel as [|fuel IH]; intros attempts w Hle Hfuel.
  - simpl in Hfuel. lia.
  - cbn [generateUnique_loop]. unfold bind at 1.
    rewrite generateShortcode_eq.
    destruct (maxAttempts <? S attempts)%nat eqn:Hmax.
    + apply Nat.ltb_lt in Hmax.
      unfold bind, ret. rewrite generateShortcode_eq, drawn_drawn.
      exists (code_from rnd (random_calls (drawn 6 w)) 8 ""), (S attempts), (6 + 8)%nat.
      split; [reflexivity |]. split; [lia |]. split; [lia |].
      split; [intros j Hj; lia |].
      right. split; [lia |].
      unfold drawn; cbn [random_calls]. f_equal. lia.
    + apply Nat.ltb_ge in Hmax.
      unfold bind at 1, shortcodeExists, urls_has. cbn [urls drawn].
      destruct (bool_decide (is_Some (urls w !! code_from rnd (random_calls w) 6 "")))
        eqn:Htaken.
      * apply bool_decide_eq_true in Htaken.
        destruct (IH (S attempts) (drawn 6 w)) as (code & n & k & Hrun & Hn1 & Hn2 & Hprev & Hend);
          [lia | lia |].
        exists code, n, (6 + k)%nat.
        rewrite Hrun, drawn_drawn.
        split; [reflexivity |]. split; [lia |]. split; [lia |].
        cbn [drawn urls random_calls] in Hprev, Hend.
        split.
        { intros [|j] Hj.
          - now replace (random_calls w + 6 * 0)%nat with (random_calls w) by lia.
          - replace (random_calls w + 6 * S j)%nat
              with (random_calls w + 6 + 6 * j)%nat by lia.
            apply Hprev. lia. }
        destruct Hend as [(Hle' & -> & Hnone) | (-> & ->)].
        { left. split; [lia |]. split; [| exact Hnone].
          f_equal. lia. }
        { right. split; [reflexivity |]. f_equal. lia. }
      * apply bool_decide_eq_false in Htaken.
        exists (code_from rnd (random_calls w) 6 ""), (S attempts), 6%nat.
        unfold ret. split; [reflexivity |]. split; [lia |]. split; [lia |].
        split; [intros j Hj; lia |].
        left. split; [lia |].
        replace (random_calls w + 6 * (S attempts - attempts - 1))%nat
          with (random_calls w) by lia.
        split; [reflexivity |].
        destruct (urls w !! code_from rnd (random_calls w) 6 "") eqn:E;
          [exfalso; apply Htaken; eauto | reflexivity].
Qed.

Lemma generateUnique_loop_more_fuel (fuel extra attempts : nat) (w w' : World)
    (r : string * nat) :
  generateUnique_loop rnd fuel attempts w = (Normal r, w') ->
  generateUnique_loop rnd (fuel + extra) attempts w = (Normal r, w').
Proof.
  revert attempts w. induction fuel as [|fuel IH]; intros attempts w.
  - discriminate.
  - cbn [generateUnique_loop Nat.add].
    rewrite !(bind_normal _ _ w _ _ (generateShortcode_eq 6 w)).
    destruct (maxAttempts <? S attempts)%nat; [trivial |].
    unfold bind, shortcodeExists, urls_has. cbv beta iota.
    match goal with
    | |- context [if ?b then _ else _] => destruct b
    end; [apply IH | trivial].
Qed.

Lemma generateUniqueShortcode_fuel_spec (w : World) (fuel : nat) :
  (maxAttempts < fuel)%nat ->
  exists code attempts w',
    generateUniqueShortcode_fuel rnd fuel w = (Normal code, w') /\
    generateUniqueShortcode rnd w = (Normal code, w') /\
    same_store w w' /\ uuid_calls w' = uuid_calls w /\
    isValidShortcode (JStr code) = true /\
    (1 <= attempts)%nat /\ (attempts <= S maxAttempts)%nat /\
    (forall j, (j < attempts - 1)%nat ->
       is_Some (urls w !! candidate rnd w j)) /\
    (((attempts <= maxAttempts)%nat /\
      code = candidate rnd w (attempts - 1) /\
      String.length code = 6%nat /\ urls w !! code = None)
     \/
     (attempts = S maxAttempts /\
      code = fallback rnd w /\ String.length code = 8%nat)).
Proof.
  intros Hfuel.
  destruct (generateUnique_loop_spec (S maxAttempts) 0 w)
    as (code & n & k & Hrun & Hn1 & Hn2 & Hprev & Hend); [lia | lia |].
  pose proof (generateUnique_loop_more_fuel _ (fuel - S maxAttempts) _ _ _ _ Hrun)
    as Hrun'.
  replace (S maxAttempts + (fuel - S maxAttempts))%nat with fuel in Hrun' by lia.
  exists code, n. eexists.
  unfold generateUniqueShortcode, generateUniqueShortcode_fuel, bind.
  rewrite Hrun, Hrun'. unfold logger, ret. cbn [fst].
  split; [reflexivity |]. split; [reflexivity |].
  split; [repeat split |]. split; [reflexivity |].
  assert (Hvalid : isValidShortcode (JStr code) = true).
  { destruct Hend as [(_ & -> & _) | (_ & ->)];
      apply isValidShortcode_generated;
      match goal with
      | |- context [code_from ?r ?p ?m ""] =>
          destruct (code_from_empty r m p) as [Hl Ha]
      end; (lia || exact Ha). }
  split; [exact Hvalid |]. split; [lia |]. split; [lia |].
  split.
  { intros j Hj. apply Hprev. lia. }
  destruct Hend as [(Hle & Hc & Hnone) | (Hn & Hc)]; [left | right].
  - unfold candidate. replace (n - 1)%nat with (n - 0 - 1)%nat by lia.
    repeat split; try assumption.
    rewrite Hc. apply code_from_empty.
  - unfold fallback. rewrite Hn in Hc.
    replace (S maxAttempts - 0)%nat with (S maxAttempts) in Hc by lia.
    repeat split; try assumption.
    rewrite Hc. apply code_from_empty.
Qed.

(** *** Creation, case by case *)

Lemma not_string_invalid (v : jsval) :
  is_string v = false -> isValidShortcode v = false.
Proof.
  intros H. unfold isValidShortcode. rewrite H. cbn [negb].
  now rewrite orb_true_r.
Qed.

Lemma createShortURL_invalid (url : string) (v : Z) (custom : jsval)
    (w : World) :
  truthy custom = true ->
  isValidShortcode custom = false ->
  createShortURL rnd uid url v custom w
  = (Thrown InvalidShortcodeFormat,
     logged LError "Error creating short URL" w).
Proof.
  intros Ht Hv. unfold createShortURL, try_rethrow.
  rewrite Ht.
  destruct custom; try reflexivity.
  rewrite Hv. reflexivity.
Qed.

Lemma createShortURL_taken (url : string) (v : Z) (s : string) (w : World) :
  isValidShortcode (JStr s) = true ->
  is_Some (urls w !! s) ->
  createShortURL rnd uid url v (JStr s) w
  = (Thrown ShortcodeAlreadyExists,
     logged LError "Error creating short URL" w).
Proof.
  intros Hv Hs. unfold createShortURL, try_rethrow.
  assert (Ht : truthy (JStr s) = true).
  { unfold isValidShortcode in Hv. destruct (truthy (JStr s)); [reflexivity | discriminate]. }
  rewrite Ht, Hv. cbn [negb].
  unfold bind, shortcodeExists, urls_has. cbv beta iota.
  rewrite (bool_decide_eq_true_2 _ Hs). reflexivity.
Qed.

Lemma createShortURL_fresh (url : string) (v : Z) (s : string) (w : World) :
  isValidShortcode (JStr s) = true ->
  urls w !! s = None ->
  createShortURL rnd uid url v (JStr s) w
  = (Normal (new_record uid w url v s), filed uid w url v s).
Proof.
  intros Hv Hs. unfold createShortURL, try_rethrow.
  assert (Ht : truthy (JStr s) = true).
  { unfold isValidShortcode in Hv. destruct (truthy (JStr s)); [reflexivity | discriminate]. }
  rewrite Ht, Hv. cbn [negb].
  unfold bind, shortcodeExists, urls_has. cbv beta iota.
  rewrite bool_decide_eq_false_2; [reflexivity |].
  rewrite Hs. intros [x Hx]. discriminate.
Qed.

Lemma createShortURL_generated (url : string) (v : Z) (custom : jsval)
    (w : World) :
  truthy custom = false ->
  exists code w1,
    generateUniqueShortcode rnd w = (Normal code, w1) /\
    same_store w w1 /\ uuid_calls w1 = uuid_calls w /\
    isValidShortcode (JStr code) = true /\
    createShortURL rnd uid url v custom w
    = (Normal (new_record uid w1 url v code), filed uid w1 url v code).
Proof.
  intros Ht.
  destruct (generateUniqueShortcode_fuel_spec w (S maxAttempts))
    as (code & n & w1 & _ & Hgen & Hsame & Hcalls & Hvalid & _); [lia |].
  exists code, w1. repeat (split; [assumption |]).
  unfold createShortURL, try_rethrow. rewrite Ht.
  rewrite (bind_normal _ _ w _ _ Hgen). reflexivity.
Qed.

(** *** Lookup, clicks, statistics and enumeration *)

Lemma gtb_expired (now : Z) (r : urlData) :
  (now >? expiresAt r)%Z = true <-> expired now r.
Proof. unfold expired. rewrite Z.gtb_ltb. apply Z.ltb_lt. Qed.

Lemma gtb_live (now : Z) (r : urlData) :
  (now >? expiresAt r)%Z = false <-> live now r.
Proof. unfold live. rewrite Z.gtb_ltb. apply Z.ltb_ge. Qed.

Lemma live_not_expired (now : Z) (r : urlData) :
  live now r <-> ~ expired now r.
Proof. unfold live, expired. lia. Qed.

Lemma getURLData_eq (k : string) (w : World) :
  getURLData k w =
  match urls w !! k with
  | None => (Normal None, logged LWarn "URL not found" w)
  | Some r =>
      if (clock w >? expiresAt r)%Z
      then (Normal None, logged LInfo "URL expired" w)
      else (Normal (Some r), w)
  end.
Proof.
  unfold getURLData, bind, urls_get. cbv beta iota.
  destruct (urls w !! k) as [r|]; [| reflexivity].
  unfold Date_now. cbv beta iota.
  destruct (clock w >? expiresAt r)%Z; reflexivity.
Qed.

Lemma recordClick_eq (k : string) (cd : clickData) (w : World) :
  recordClick uid k cd w = (Normal (new_click uid w cd), clicked uid w k cd).
Proof. reflexivity. Qed.

Lemma getStatistics_eq (k : string) (w : World) :
  getStatistics k w =
  match urls w !! k with
  | None =>
      (Normal None, logged LWarn "Statistics requested for non-existent URL" w)
  | Some r => (Normal (Some (stats_of w k r)), logged LInfo "Statistics retrieved" w)
  end.
Proof.
  unfold getStatistics, bind, urls_get. cbv beta iota.
  destruct (urls w !! k) as [r|]; reflexivity.
Qed.

Lemma getAllURLs_loop_eq (l : list (string * urlData)) (acc : list urlSummary)
    (w : World) :
  getAllURLs_loop l acc w = (Normal (acc ++ (summary_of w <$> l))%list, w).
Proof.
  revert acc. induction l as [|[k r] l IH]; intros acc.
  - cbn. unfold ret. now rewrite app_nil_r.
  - cbn [getAllURLs_loop]. unfold bind, clicks_get. cbv beta iota.
    rewrite IH. rewrite <- app_assoc. reflexivity.
Qed.

Lemma getAllURLs_eq (w : World) :
  getAllURLs w =
  (Normal (summary_of w <$> map_to_list (urls w)),
   logged LInfo "All URLs retrieved" w).
Proof.
  unfold getAllURLs, urls_entries. unfold bind at 1. cbv beta iota.
  rewrite (bind_normal _ _ w _ w (getAllURLs_loop_eq _ _ _)).
  reflexivity.
Qed.

(** *** The cleanup sweep *)

Lemma cleanup_loop_spec (now : Z) (l : list (string * urlData)) (c : nat)
    (w : World) :
  NoDup l.*1 ->
  (forall k r, (k, r) ∈ l -> urls w !! k = Some r) ->
  exists w',
    cleanup_loop now l c w
    = (Normal (c + length (expired_entries now l))%nat, w') /\
    clock w' = clock w /\ random_calls w' = random_calls w /\
    uuid_calls w' = uuid_calls w /\ logs w' = logs w /\
    (forall k, urls w' !! k =
       if decide (k ∈ (expired_entries now l).*1) then None else urls w !! k) /\
    (forall k, clicks w' !! k =
       if decide (k ∈ (expired_entries now l).*1) then None
       else clicks w !! k) /\
    (size (urls w') + length (expired_entries now l) = size (urls w))%nat.
Proof.
  revert c w. induction l as [|[k r] l IH]; intros c w Hnd Hin.
  - exists w. cbn. unfold ret. rewrite Nat.add_0_r.
    repeat split; try reflexivity; lia.
  - apply NoDup_cons in Hnd as [Hk Hnd]. cbn [cleanup_loop].
    destruct (now >? expiresAt r)%Z eqn:Hexp.
    + apply gtb_expired in Hexp.
      unfold bind, urls_delete, clicks_delete. cbv beta iota.
      match goal with
      | |- context [cleanup_loop now l (S c) ?w1] =>
          destruct (IH (S c) w1 Hnd)
            as (w' & Hrun & Hclock & Hrc & Huc & Hlogs & Hu & Hc & Hsize)
      end.
      { intros k' r' Hin'. cbn [urls].
        rewrite lookup_delete_ne.
        - apply Hin. now right.
        - intros ->. apply Hk. apply list_elem_of_fmap. now exists (k', r'). }
      exists w'. unfold expired_entries in *.
      rewrite filter_cons_True by exact Hexp.
      cbn [length fmap list_fmap fst urls clicks clock random_calls
           uuid_calls logs] in *.
      rewrite Hrun. split; [f_equal; f_equal; lia |].
      repeat (split; [assumption |]).
      assert (Hpresent : is_Some (urls w !! k)).
      { exists r. apply Hin. now left. }
      split; [| split].
      * intros x. rewrite Hu.
        destruct (decide (x = k)) as [->|Hne].
        -- rewrite lookup_delete_eq.
           rewrite (decide_True (P := k ∈ k :: _)) by now left.
           now destruct (decide _).
        -- rewrite lookup_delete_ne by congruence.
           destruct (decide (x ∈ _)) as [Hx|Hx].
           ++ rewrite decide_True by now right. reflexivity.
           ++ rewrite decide_False; [reflexivity |].
              intros [?|?]%elem_of_cons; [congruence | contradiction].
      * intros x. rewrite Hc.
        destruct (decide (x = k)) as [->|Hne].
        -- rewrite lookup_delete_eq.
           rewrite (decide_True (P := k ∈ k :: _)) by now left.
           now destruct (decide _).
        -- rewrite lookup_delete_ne by congruence.
           destruct (decide (x ∈ _)) as [Hx|Hx].
           ++ rewrite decide_True by now right. reflexivity.
           ++ rewrite decide_False; [reflexivity |].
              intros [?|?]%elem_of_cons; [congruence | contradiction].
      * rewrite (map_size_delete_Some _ _ Hpresent) in Hsize.
        destruct Hpresent as [r0 Hr0].
        assert (size (urls w) <> 0)%nat.
        { intros H0. apply map_size_empty_inv in H0. rewrite H0 in Hr0.
          rewrite lookup_empty in Hr0. discriminate. }
        lia.
    + apply gtb_live, live_not_expired in Hexp.
      destruct (IH c w Hnd)
        as (w' & Hrun & Hclock & Hrc & Huc & Hlogs & Hu & Hc & Hsize).
      { intros k' r' Hin'. apply Hin. now right. }
      exists w'. unfold expired_entries in *.
      rewrite filter_cons_False by exact Hexp.
      rewrite Hrun. split; [reflexivity |].
      repeat (split; [assumption |]). assumption.
Qed.

Lemma cleanup_loop_nothing (now : Z) (l : list (string * urlData)) (c : nat)
    (w : World) :
  (forall kv, kv ∈ l -> ~ expired now kv.2) ->
  cleanup_loop now l c w = (Normal c, w).
Proof.
  revert c. induction l as [|[k r] l IH]; intros c Hl; [reflexivity |].
  cbn [cleanup_loop].
  assert (Hr : ~ expired now r) by (apply (Hl (k, r)); now left).
  apply live_not_expired, gtb_live in Hr. rewrite Hr.
  apply IH. intros kv Hkv. apply Hl. now right.
Qed.

Lemma expired_entries_keys (now : Z) (m : gmap string urlData) (k : string) :
  k ∈ (expired_entries now (map_to_list m)).*1
  <-> exists r, m !! k = Some r /\ expired now r.
Proof.
  unfold expired_entries. rewrite list_elem_of_fmap. split.
  - intros ([k' r] & -> & [Hexp Hin]%list_elem_of_filter).
    exists r. split; [now apply elem_of_map_to_list | exact Hexp].
  - intros (r & Hr & Hexp). exists (k, r). split; [reflexivity |].
    apply list_elem_of_filter. split; [exact Hexp |].
    now apply elem_of_map_to_list.
Qed.

Lemma cleanupExpiredURLs_spec (w : World) :
  exists n w',
    cleanupExpiredURLs w = (Normal n, w') /\
    n = length (expired_entries (clock w) (map_to_list (urls w))) /\
    clock w' = clock w /\
    (forall k r, urls w' !! k = Some r <->
       urls w !! k = Some r /\ ~ expired (clock w) r) /\
    (forall k r, urls w !! k = Some r -> expired (clock w) r ->
       urls w' !! k = None /\ clicks w' !! k = None) /\
    (forall k, ~ (exists r, urls w !! k = Some r /\ expired (clock w) r) ->
       clicks w' !! k = clicks w !! k) /\
    (size (urls w') + n = size (urls w))%nat.
Proof using Type.
  destruct (cleanup_loop_spec (clock w) (map_to_list (urls w)) 0 w)
    as (w1 & Hrun & Hclock & Hrc & Huc & Hlogs & Hu & Hc & Hsize).
  { apply NoDup_fst_map_to_list. }
  { intros k r. apply elem_of_map_to_list. }
  set (n := length (expired_entries (clock w) (map_to_list (urls w)))) in *.
  exists n.
  exists (if (0 <? n)%nat then logged LInfo "Expired URLs cleaned up" w1 else w1).
  split.
  { unfold cleanupExpiredURLs, Date_now, urls_entries.
    unfold bind at 1. cbv beta iota. unfold bind at 1. cbv beta iota.
    rewrite (bind_normal _ _ w _ _ Hrun). cbn [Nat.add].
    unfold bind, logger, ret, logged. destruct (0 <? n)%nat; reflexivity. }
  assert (Hw : exists w', w' = (if (0 <? n)%nat
                 then logged LInfo "Expired URLs cleaned up" w1 else w1) /\
             urls w' = urls w1 /\ clicks w' = clicks w1 /\ clock w' = clock w1).
  { eexists. split; [reflexivity |]. destruct (0 <? n)%nat; repeat split. }
  destruct Hw as (w' & <- & Eu & Ec & Et). rewrite Eu, Ec, Et.
  split; [reflexivity |]. split; [exact Hclock |].
  split; [| split; [| split]].
  - intros k r. rewrite Hu. destruct (decide _) as [Hin|Hin];
      rewrite expired_entries_keys in Hin.
    + destruct Hin as (r' & Hr' & Hexp). split; [discriminate |].
      intros [Hr Hlive]. congruence.
    + split.
      * intros Hr. split; [exact Hr |]. intros Hexp. apply Hin. eauto.
      * intros [Hr _]. exact Hr.
  - intros k r Hr Hexp.
    rewrite Hu, Hc.
    destruct (decide _) as [_|Hn]; [split; reflexivity |].
    exfalso. apply Hn, expired_entries_keys. eauto.
  - intros k Hk. rewrite Hc. rewrite decide_False; [reflexivity |].
    now rewrite expired_entries_keys.
  - exact Hsize.
Qed.

(** *** The three ways [createShortURL] ends *)

Lemma isValidShortcode_string (v : jsval) :
  isValidShortcode v = true -> exists s, v = JStr s /\ truthy v = true.
Proof.
  intros H. destruct v as [| |b|n|s|];
    try (rewrite not_string_invalid in H by reflexivity; discriminate).
  exists s. split; [reflexivity |].
  unfold isValidShortcode in H.
  destruct (truthy (JStr s)); [reflexivity | discriminate].
Qed.

Lemma createShortURL_cases (url : string) (v : Z) (custom : jsval) (w : World) :
  (truthy custom = true /\ isValidShortcode custom = false /\
   createShortURL rnd uid url v custom w
   = (Thrown InvalidShortcodeFormat, logged LError "Error creating short URL" w))
  \/
  (exists s, custom = JStr s /\ isValidShortcode custom = true /\
     is_Some (urls w !! s) /\
     createShortURL rnd uid url v custom w
     = (Thrown ShortcodeAlreadyExists, logged LError "Error creating short URL" w))
  \/
  (exists s w1,
     createShortURL rnd uid url v custom w
     = (Normal (new_record uid w1 url v s), filed uid w1 url v s) /\
     same_store w w1 /\ isValidShortcode (JStr s) = true /\
     ((custom = JStr s /\ w1 = w /\ urls w !! s = None) \/
      (truthy custom = false /\ generateUniqueShortcode rnd w = (Normal s, w1)))).
Proof.
  destruct (truthy custom) eqn:Ht.
  - destruct (isValidShortcode custom) eqn:Hv.
    + destruct (isValidShortcode_string _ Hv) as (s & -> & _).
      destruct (urls w !! s) as [r|] eqn:Hs.
      * right; left. exists s. repeat split; eauto.
        apply createShortURL_taken; eauto.
      * right; right. exists s, w.
        split; [now apply createShortURL_fresh |].
        split; [apply same_store_refl |]. split; [exact Hv |].
        left. repeat split. exact Hs.
    + left. repeat split. now apply createShortURL_invalid.
  - right; right.
    destruct (createShortURL_generated url v custom w Ht)
      as (code & w1 & Hgen & Hsame & _ & Hvalid & Hrun).
    exists code, w1. repeat (split; [assumption |]).
    right. split; [reflexivity | exact Hgen].
Qed.

(** *** The invariant *)

Lemma well_formed_constructor (t : Z) : well_formed (constructor t).
Proof. intros k r H. cbn in H. rewrite lookup_empty in H. discriminate. Qed.

Lemma well_formed_same_urls (w w' : World) :
  urls w' = urls w -> well_formed w -> well_formed w'.
Proof. unfold well_formed. intros ->. trivial. Qed.

Lemma well_formed_filed (w : World) (url : string) (v : Z) (s : string) :
  well_formed w -> isValidShortcode (JStr s) = true ->
  well_formed (filed uid w url v s).
Proof.
  intros Hw Hs k r. cbn [filed urls].
  destruct (decide (s = k)) as [->|Hne].
  - rewrite lookup_insert_eq. intros [= <-]. split; [reflexivity | exact Hs].
  - rewrite lookup_insert_ne by exact Hne. apply Hw.
Qed.

Lemma createShortURL_well_formed (url : string) (v : Z) (custom : jsval)
    (w : World) :
  well_formed w ->
  well_formed (world_after (createShortURL rnd uid url v custom w)).
Proof.
  intros Hw.
  destruct (createShortURL_cases url v custom w)
    as [(_ & _ & ->) | [(s & _ & _ & _ & ->) | (s & w1 & -> & Hsame & Hv & _)]];
    try exact Hw.
  apply well_formed_filed; [| exact Hv].
  destruct Hsame as (Hu & _). now apply (well_formed_same_urls w).
Qed.

Lemma cleanupExpiredURLs_well_formed (w : World) :
  well_formed w -> well_formed (world_after (cleanupExpiredURLs w)).
Proof.
  intros Hw.
  destruct (cleanupExpiredURLs_spec w) as (n & w' & -> & _ & _ & Hu & _).
  intros k r Hr. apply Hu in Hr as [Hr _]. now apply Hw.
Qed.

Lemma after_call_same_urls (c : Call) (w : World) :
  is_create c = false -> is_cleanup c = false ->
  urls (after_call rnd uid c w) = urls w.
Proof.
  intros Hc Hk. destruct c as [u v cu|k|k cd|k| | |t]; try discriminate;
    unfold after_call, world_after.
  - rewrite getURLData_eq. destruct (urls w !! k) as [r|]; [| reflexivity].
    destruct (clock w >? expiresAt r)%Z; reflexivity.
  - reflexivity.
  - rewrite getStatistics_eq. destruct (urls w !! k); reflexivity.
  - rewrite getAllURLs_eq. reflexivity.
  - reflexivity.
Qed.

Lemma after_call_well_formed (c : Call) (w : World) :
  well_formed w -> well_formed (after_call rnd uid c w).
Proof.
  intros Hw. destruct c as [u v cu|k|k cd|k| | |t];
    try (apply (well_formed_same_urls w);
         [now apply after_call_same_urls | exact Hw]).
  - now apply createShortURL_well_formed.
  - now apply cleanupExpiredURLs_well_formed.
Qed.

Lemma after_calls_well_formed (cs : list Call) (w : World) :
  well_formed w -> well_formed (after_calls rnd uid cs w).
Proof.
  revert w. induction cs as [|c cs IH]; intros w Hw; [exact Hw |].
  cbn. apply IH. now apply after_call_well_formed.
Qed.

Lemma after_call_keeps_key (c : Call) (w : World) (k : string) :
  is_cleanup c = false ->
  is_Some (urls w !! k) -> is_Some (urls (after_call rnd uid c w) !! k).
Proof.
  intros Hc Hk. destruct c as [u v cu|k'|k' cd|k'| | |t]; try discriminate;
    try (rewrite after_call_same_urls by reflexivity; exact Hk).
  unfold after_call, world_after.
  destruct (createShortURL_cases u v cu w)
    as [(_ & _ & ->) | [(s & _ & _ & _ & ->) | (s & w1 & -> & Hsame & _)]];
    try exact Hk.
  destruct Hsame as (Hu & _). cbn [snd filed urls]. rewrite Hu.
  destruct (decide (s = k)) as [->|Hne].
  - rewrite lookup_insert_eq. eauto.
  - now rewrite lookup_insert_ne.
Qed.

Lemma after_calls_keeps_key (cs : list Call) (w : World) (k : string) :
  forallb (fun c => negb (is_cleanup c)) cs = true ->
  is_Some (urls w !! k) -> is_Some (urls (after_calls rnd uid cs w) !! k).
Proof.
  revert w. induction cs as [|c cs IH]; intros w Hcs Hk; [exact Hk |].
  cbn in Hcs. apply andb_prop in Hcs as [Hc Hcs].
  cbn. apply IH; [exact Hcs |].
  apply after_call_keeps_key; [| exact Hk].
  now destruct (is_cleanup c).
Qed.

(** *** Clicks along quiet calls *)

Lemma after_call_clicks (c : Call) (w : World) (k : string) :
  is_quiet c = true ->
  exists recs,
    clicks_of (after_call rnd uid c w) k = (clicks_of w k ++ recs)%list /\
    click_meta <$> recs = data_meta <$> clicks_recorded k [c].
Proof.
  intros Hq. destruct c as [u v cu|k'|k' cd|k'| | |t]; try discriminate;
    unfold after_call, world_after, clicks_of.
  - exists []. rewrite app_nil_r. split; [| reflexivity].
    rewrite getURLData_eq. destruct (urls w !! k') as [r|]; [| reflexivity].
    destruct (clock w >? expiresAt r)%Z; reflexivity.
  - rewrite recordClick_eq. cbn [snd clicked clicks clicks_recorded].
    destruct (decide (k' = k)) as [->|Hne].
    + exists [new_click uid w cd]. rewrite lookup_insert_eq.
      split; reflexivity.
    + exists []. rewrite lookup_insert_ne by exact Hne.
      rewrite app_nil_r. split; reflexivity.
  - exists []. rewrite app_nil_r. split; [| reflexivity].
    rewrite getStatistics_eq. destruct (urls w !! k'); reflexivity.
  - exists []. rewrite app_nil_r. split; [| reflexivity].
    rewrite getAllURLs_eq. reflexivity.
  - exists []. rewrite app_nil_r. split; reflexivity.
Qed.

Lemma clicks_recorded_cons (k : string) (c : Call) (cs : list Call) :
  clicks_recorded k (c :: cs)
  = (clicks_recorded k [c] ++ clicks_recorded k cs)%list.
Proof.
  destruct c; try reflexivity. cbn. destruct (decide _); reflexivity.
Qed.

Lemma after_calls_quiet (cs : list Call) (w : World) (k : string) :
  forallb is_quiet cs = true ->
  urls (after_calls rnd uid cs w) = urls w /\
  exists recs,
    clicks_of (after_calls rnd uid cs w) k = (clicks_of w k ++ recs)%list /\
    click_meta <$> recs = data_meta <$> clicks_recorded k cs.
Proof.
  revert w. induction cs as [|c cs IH]; intros w Hq.
  - split; [reflexivity |]. exists []. now rewrite app_nil_r.
  - cbn in Hq. apply andb_prop in Hq as [Hc Hq].
    destruct (IH (after_call rnd uid c w) Hq) as (Hu & recs & Hrecs & Hmeta).
    destruct (after_call_clicks c w k Hc) as (rec1 & Hrec1 & Hmeta1).
    cbn [after_calls foldl]. fold (after_calls rnd uid cs (after_call rnd uid c w)).
    split.
    + rewrite Hu. apply after_call_same_urls.
      * unfold is_quiet in Hc. now destruct (is_create c).
      * unfold is_quiet in Hc. destruct (is_cleanup c); [| reflexivity].
        now rewrite andb_false_r in Hc.
    + exists (rec1 ++ recs)%list. rewrite Hrecs, Hrec1, <- app_assoc.
      split; [reflexivity |].
      rewrite clicks_recorded_cons, !fmap_app. now rewrite Hmeta, Hmeta1.
Qed.

(** *** What a creation can overwrite *)

Lemma createShortURL_overwrites (w : World) (url : string) (v : Z)
    (custom : jsval) (r : urlData) (w' : World) :
  createShortURL rnd uid url v custom w = (Normal r, w') ->
  urls w' = <[shortcode r := r]> (urls w) /\
  (truthy custom = true -> urls w !! shortcode r = None) /\
  (is_Some (urls w !! shortcode r) ->
     truthy custom = false /\
     shortcode r = fallback rnd w /\
     String.length (shortcode r) = 8%nat /\
     forall j, (j < maxAttempts)%nat -> is_Some (urls w !! candidate rnd w j)).
Proof.
  intros Hrun.
  destruct (createShortURL_cases url v custom w)
    as [(_ & _ & H) | [(s & _ & _ & _ & H) | (s & w1 & H & Hsame & Hv & Hor)]];
    rewrite H in Hrun; try discriminate.
  injection Hrun as <- <-. destruct Hsame as (Hu & _).
  cbn [new_record shortcode filed urls]. rewrite Hu.
  split; [reflexivity |].
  destruct Hor as [(-> & _ & Hnone) | (Hf & Hgen)].
  - split; [intros _; exact Hnone |].
    rewrite Hnone. intros [? ?]. discriminate.
  - split; [congruence |]. intros Hsome.
    destruct (generateUniqueShortcode_fuel_spec w (S maxAttempts))
      as (code & n & w2 & _ & Hgen' & _ & _ & _ & _ & _ & Hprev & Hend); [lia |].
    rewrite Hgen in Hgen'. injection Hgen' as <- <-.
    destruct Hend as [(_ & _ & _ & Hnone) | (Hn & Hc & Hlen)].
    { rewrite Hnone in Hsome. destruct Hsome as [? ?]. discriminate. }
    split; [exact Hf |]. split; [exact Hc |]. split; [exact Hlen |].
    intros j Hj. apply Hprev. lia.
Qed.

Lemma after_call_keeps_record (c : Call) (w : World) (k : string)
    (r : urlData) :
  is_cleanup c = false ->
  urls w !! k = Some r ->
  urls (after_call rnd uid c w) !! k = Some r \/
  (exists u v cu,
     c = CallCreate u v cu /\ truthy cu = false /\
     k = fallback rnd w /\ String.length k = 8%nat /\
     forall j, (j < maxAttempts)%nat -> is_Some (urls w !! candidate rnd w j)).
Proof.
  intros Hc Hk. destruct c as [u v cu|k'|k' cd|k'| | |t]; try discriminate;
    try (left; rewrite after_call_same_urls by reflexivity; exact Hk).
  unfold after_call, world_after.
  destruct (createShortURL rnd uid u v cu w) as [[r'| e |] w'] eqn:Hrun.
  - destruct (createShortURL_overwrites _ _ _ _ _ _ Hrun) as (Hu & _ & Hover).
    cbn [snd]. rewrite Hu.
    destruct (decide (shortcode r' = k)) as [E|Hne].
    + right. rewrite E in Hover.
      destruct Hover as (Hf & Hfb & Hlen & Hprev); [eauto |].
      exists u, v, cu. repeat split; assumption.
    + left. now rewrite lookup_insert_ne.
  - left.
    destruct (createShortURL_cases u v cu w)
      as [(_ & _ & H) | [(s & _ & _ & _ & H) | (s & w1 & H & _)]];
      rewrite H in Hrun; try discriminate;
      injection Hrun as _ <-; exact Hk.
  - exfalso.
    destruct (createShortURL_cases u v cu w)
      as [(_ & _ & H) | [(s & _ & _ & _ & H) | (s & w1 & H & _)]];
      rewrite H in Hrun; discriminate.
Qed.

Lemma after_calls_keeps_record (cs : list Call) (w : World) (k : string)
    (r : urlData) :
  forallb (fun c => negb (is_cleanup c)) cs = true ->
  urls w !! k = Some r ->
  urls (after_calls rnd uid cs w) !! k = Some r \/
  (String.length k = 8%nat /\ overwritten_by_fallback rnd uid k cs w).
Proof.
  revert w. induction cs as [|c cs IH]; intros w Hcs Hk; [now left |].
  cbn in Hcs. apply andb_prop in Hcs as [Hc Hcs].
  assert (Hc' : is_cleanup c = false) by now destruct (is_cleanup c).
  cbn [after_calls foldl]. fold (after_calls rnd uid cs (after_call rnd uid c w)).
  destruct (after_call_keeps_record c w k r Hc' Hk)
    as [Hk' | (u & v & cu & -> & Hf & Hfb & Hlen & Hprev)].
  - destruct (IH _ Hcs Hk')
      as [Hsame | (Hlen & cs1 & u & v & cu & cs2 & -> & Hf & Hfb & Hprev)];
      [now left |].
    right. split; [exact Hlen |].
    exists (c :: cs1), u, v, cu, cs2. repeat split; assumption.
  - right. split; [exact Hlen |].
    exists [], u, v, cu, cs. repeat split; assumption.
Qed.

(** *** Create, then resolve *)

(** C1.  For an integer validity between 1 and 525600 minutes,
    [createShortURL(originalUrl, validityMinutes)] returns a record, and
    [getURLData] on the shortcode of a record that [createShortURL] has just
    returned, with the clock unchanged, returns that record: its
    [originalUrl] is the one passed and its [expiresAt] is its [createdAt]
    plus [validityMinutes * 60] seconds. *)
Theorem create_then_resolve (w : World) (url : string) (v : Z)
    (custom : jsval) :
  (1 <= v <= 525600)%Z ->
  (exists r w', createShortURL rnd uid url v JNull w = (Normal r, w')) /\
  (forall r w',
     createShortURL rnd uid url v custom w = (Normal r, w') ->
     clock w' = clock w /\
     getURLData (shortcode r) w' = (Normal (Some r), w') /\
     originalUrl r = url /\
     expiresAt r = (createdAt r + seconds (v * 60))%Z).
Proof.
  intros Hv. split.
  - destruct (createShortURL_generated url v JNull w eq_refl)
      as (code & w1 & _ & _ & _ & _ & Hrun). eauto.
  - intros r w' Hrun.
    destruct (createShortURL_cases url v custom w)
      as [(_ & _ & H) | [(s & _ & _ & _ & H) | (s & w1 & H & Hsame & _)]];
      rewrite H in Hrun; try discriminate.
    injection Hrun as <- <-.
    destruct Hsame as (_ & _ & Hclock).
    split; [exact Hclock |].
    split; [| split; [reflexivity | unfold seconds; cbn; lia]].
    rewrite getURLData_eq. cbn [new_record shortcode filed urls clock].
    rewrite lookup_insert_eq.
    replace (clock w1 >? expiresAt (new_record uid w1 url v s))%Z with false;
      [reflexivity |].
    symmetry. rewrite Z.gtb_ltb. apply Z.ltb_ge. cbn [expiresAt new_record]. lia.
Qed.

(** *** Expiry hiding *)

(** C2, amended.  [getURLData] always answers, and changes neither map.  It
    returns the stored record exactly when the shortcode has a record in the
    URL map and [now <= expiresAt].  For a record that is present but
    expired it returns absent and the record stays in the map.  One further
    call that is not a cleanup leaves that same record in place unless it is
    a [createShortURL] without custom shortcode whose generator, its 100
    candidates all being keys, falls back on the unchecked length-8 code and
    that code is this shortcode.  So after any calls that are not cleanups
    the shortcode still has a record that [getAllURLs] lists with the length
    of its click list as [totalClicks], and it is the same record unless the
    shortcode has 8 characters and one of the calls was such a creation;
    after calls that neither create nor clean up it is the same record
    whatever the shortcode; a cleanup pass removes it. *)
Theorem getURLData_hides_expired (w : World) (k : string) :
  (exists o, result (getURLData k w) = Normal o) /\
  urls (world_after (getURLData k w)) = urls w /\
  clicks (world_after (getURLData k w)) = clicks w /\
  (forall r, result (getURLData k w) = Normal (Some r) <->
     urls w !! k = Some r /\ (clock w <= expiresAt r)%Z) /\
  (forall r, urls w !! k = Some r -> expired (clock w) r ->
     let w1 := world_after (getURLData k w) in
     result (getURLData k w) = Normal None /\
     urls w1 !! k = Some r /\
     (forall c, is_cleanup c = false ->
        urls (after_call rnd uid c w1) !! k = Some r \/
        exists u v cu,
          c = CallCreate u v cu /\ truthy cu = false /\
          k = fallback rnd w1 /\
          forall j, (j < maxAttempts)%nat ->
            is_Some (urls w1 !! candidate rnd w1 j)) /\
     (forall cs, forallb is_quiet cs = true ->
        let w2 := after_calls rnd uid cs w1 in
        exists all,
          result (getAllURLs w2) = Normal all /\
          {| summary_data := r; totalClicks := length (clicks_of w2 k) |} ∈ all) /\
     (forall cs, forallb (fun c => negb (is_cleanup c)) cs = true ->
        let w2 := after_calls rnd uid cs w1 in
        exists all r',
          result (getAllURLs w2) = Normal all /\
          urls w2 !! k = Some r' /\
          {| summary_data := r'; totalClicks := length (clicks_of w2 k) |} ∈ all /\
          (r' = r \/
           (String.length k = 8%nat /\ overwritten_by_fallback rnd uid k cs w1))) /\
     (let w3 := world_after (cleanupExpiredURLs w1) in
      urls w3 !! k = None /\ result (getStatistics k w3) = Normal None)).
Proof.
  unfold result, world_after. rewrite getURLData_eq.
  destruct (urls w !! k) as [r0|] eqn:Hk.
  - destruct (clock w >? expiresAt r0)%Z eqn:Hexp; cbn [fst snd logged urls clicks].
    + apply gtb_expired in Hexp.
      split; [eauto |]. split; [reflexivity |]. split; [reflexivity |].
      split.
      { intros r. split; [discriminate |].
        intros [[= ->] Hlive]. unfold expired in Hexp. lia. }
      intros r [= <-] _. split; [reflexivity |]. split; [exact Hk |].
      split; [| split; [| split]].
      * intros c Hc.
        destruct (after_call_keeps_record c (logged LInfo "URL expired" w) k r0 Hc)
          as [Hsame | (u & v & cu & -> & Hf & Hfb & _ & Hprev)];
          [exact Hk | now left |].
        right. exists u, v, cu. repeat split; assumption.
      * intros cs Hcs.
        destruct (after_calls_quiet cs (logged LInfo "URL expired" w) k Hcs)
          as (Hu & _).
        rewrite getAllURLs_eq. eexists. split; [reflexivity |].
        apply (list_elem_of_fmap_2' _ _ (k, r0)); [| reflexivity].
        apply elem_of_map_to_list. rewrite Hu. exact Hk.
      * intros cs Hcs.
        destruct (after_calls_keeps_key cs (logged LInfo "URL expired" w) k Hcs)
          as [r' Hr']; [cbn [logged urls]; eauto |].
        rewrite getAllURLs_eq. eexists _, r'. split; [reflexivity |].
        split; [exact Hr' |]. split.
        { apply (list_elem_of_fmap_2' _ _ (k, r')); [| reflexivity].
          now apply elem_of_map_to_list. }
        destruct (after_calls_keeps_record cs (logged LInfo "URL expired" w) k r0
                    Hcs Hk) as [Hsame | Hover]; [left | now right].
        rewrite Hsame in Hr'. congruence.
      * destruct (cleanupExpiredURLs_spec (logged LInfo "URL expired" w))
          as (n & w3 & -> & _ & _ & _ & Hgone & _).
        destruct (Hgone k r0 Hk Hexp) as [Hnone _]. cbn [snd].
        split; [exact Hnone |]. rewrite getStatistics_eq, Hnone. reflexivity.
    + apply gtb_live in Hexp. unfold live in Hexp.
      split; [eauto |]. split; [reflexivity |]. split; [reflexivity |].
      split.
      { intros r. split; [intros [= ->]; tauto | intros [[= ->] _]; reflexivity]. }
      intros r [= <-] Hx. unfold expired in Hx. lia.
  - cbn [fst snd logged urls clicks].
    split; [eauto |]. split; [reflexivity |]. split; [reflexivity |].
    split; [intros r; split; [discriminate | intros [? _]; discriminate] |].
    intros r Hr. discriminate.
Qed.

(** *** Custom shortcodes *)

(** C3, amended.  For a truthy customShortcode (not null, not undefined, not
    the empty string) [createShortURL] raises the invalid-format error
    exactly when customShortcode is not a string of 3 to 20 alphanumeric
    characters; otherwise it raises the already-exists error exactly when
    the shortcode is a key of the URL map; otherwise, the creation and
    expiry times being valid time values, it succeeds and files the record
    and an empty click list under customShortcode.  A falsy customShortcode
    is treated as not given: a code is generated and, the two times being
    valid time values, the call succeeds; it raises neither of the two
    errors whatever the validity.  Whenever the call raises either error,
    both maps are left unchanged. *)
Theorem createShortURL_custom (w : World) (url : string) (v : Z)
    (custom : jsval) :
  let out := createShortURL rnd uid url v custom w in
  (truthy custom = true ->
     (result out = Thrown InvalidShortcodeFormat <-> ~ shortcode_format custom) /\
     (forall s, custom = JStr s -> shortcode_format custom ->
        (result out = Thrown ShortcodeAlreadyExists <-> is_Some (urls w !! s)) /\
        (urls w !! s = None -> dates_in_range w v ->
           exists r, result out = Normal r /\
             shortcode r = s /\ originalUrl r = url /\
             urls (world_after out) = <[s := r]> (urls w) /\
             clicks (world_after out) = <[s := []]> (clicks w)))) /\
  (truthy custom = false ->
     result out <> Thrown InvalidShortcodeFormat /\
     result out <> Thrown ShortcodeAlreadyExists /\
     (dates_in_range w v ->
        exists r w1, result out = Normal r /\
          generateUniqueShortcode rnd w = (Normal (shortcode r), w1))) /\
  (forall e, result out = Thrown e ->
     urls (world_after out) = urls w /\ clicks (world_after out) = clicks w).
Proof.
  cbv zeta. unfold result, world_after.
  destruct (createShortURL_cases url v custom w)
    as [(Ht & Hv & ->) | [(s & -> & Hv & Hs & ->) | (s & w1 & -> & Hsame & Hv & Hor)]];
    cbn [fst snd logged filed urls clicks].
  - split; [| split].
    + intros _. split.
      * split; [| reflexivity]. intros _ Hf.
        apply isValidShortcode_spec in Hf. congruence.
      * intros s -> Hf. apply isValidShortcode_spec in Hf. congruence.
    + congruence.
    + intros e _. split; reflexivity.
  - split; [| split].
    + intros _. split.
      * split; [discriminate |]. intros Hn. exfalso. apply Hn.
        now apply isValidShortcode_spec.
      * intros s' [= <-] _. split; [tauto |].
        intros Hnone. rewrite Hnone in Hs. destruct Hs as [? ?]. discriminate.
    + intros Ht. apply isValidShortcode_string in Hv as (? & _ & Ht'). congruence.
    + intros e _. split; reflexivity.
  - destruct Hsame as (Hu & Hc & _). split; [| split].
    + intros Ht. destruct Hor as [(-> & -> & Hnone) | (Hf & _)]; [| congruence].
      split.
      * split; [discriminate |]. intros Hn. exfalso. apply Hn.
        now apply isValidShortcode_spec.
      * intros s' [= <-] _. split.
        -- split; [discriminate |]. rewrite Hnone. intros [? ?]. discriminate.
        -- intros _ _. eexists. repeat split.
    + intros Hf. destruct Hor as [(-> & _ & _) | (_ & Hgen)].
      * apply isValidShortcode_string in Hv as (? & _ & Ht'). congruence.
      * split; [discriminate |]. split; [discriminate |].
        intros _. eexists _, w1. split; [reflexivity | exact Hgen].
    + discriminate.
Qed.

(** *** Cleanup *)

(** C4.  [cleanupExpiredURLs] keeps in the URL map exactly the records with
    [now <= expiresAt], that is, it deletes exactly those with
    [now > expiresAt]; it deletes the click list of each deleted record; it
    returns the number of records removed.  A second call with the clock
    unchanged and nothing in between removes nothing and returns 0. *)
Theorem cleanupExpiredURLs_exact (w : World) :
  exists n w',
    cleanupExpiredURLs w = (Normal n, w') /\
    (forall k r, urls w' !! k = Some r <->
       urls w !! k = Some r /\ ~ expired (clock w) r) /\
    (forall k r, urls w !! k = Some r -> expired (clock w) r ->
       urls w' !! k = None /\ clicks w' !! k = None) /\
    n = length (expired_entries (clock w) (map_to_list (urls w))) /\
    (size (urls w') + n = size (urls w))%nat /\
    clock w' = clock w /\
    cleanupExpiredURLs w' = (Normal 0%nat, w').
Proof using Type.
  destruct (cleanupExpiredURLs_spec w)
    as (n & w' & Hrun & Hn & Hclock & Hu & Hgone & _ & Hsize).
  exists n, w'. repeat (split; [assumption |]).
  unfold cleanupExpiredURLs, Date_now, urls_entries.
  unfold bind at 1. cbv beta iota. unfold bind at 1. cbv beta iota.
  rewrite (bind_normal _ _ w' 0%nat w').
  - reflexivity.
  - apply cleanup_loop_nothing. intros [k r] Hin.
    apply elem_of_map_to_list, Hu in Hin as [_ Hlive].
    cbn [snd]. now rewrite Hclock.
Qed.

(** *** Termination of the generator *)

(** C5.  [generateUniqueShortcode] terminates: with any fuel above
    [maxAttempts] the loop returns, and returns what the method returns.
    The store is unchanged.  The codes tried are length-6 codes; every code
    tried before the last attempt is a key of the URL map; either the loop
    stops within [maxAttempts] attempts on a length-6 code that is not a key
    of the URL map, or all [maxAttempts] attempts have collided and the
    result is one length-8 code, which is not checked against the map. *)
Theorem generateUniqueShortcode_terminates (w : World) (fuel : nat) :
  (maxAttempts < fuel)%nat ->
  exists code attempts w',
    generateUniqueShortcode_fuel rnd fuel w = (Normal code, w') /\
    generateUniqueShortcode rnd w = (Normal code, w') /\
    same_store w w' /\
    (1 <= attempts)%nat /\ (attempts <= S maxAttempts)%nat /\
    (forall j, (j < attempts - 1)%nat ->
       String.length (candidate rnd w j) = 6%nat /\
       is_Some (urls w !! candidate rnd w j)) /\
    (((attempts <= maxAttempts)%nat /\
      code = candidate rnd w (attempts - 1) /\
      String.length code = 6%nat /\ urls w !! code = None)
     \/
     (attempts = S maxAttempts /\
      code = fallback rnd w /\ String.length code = 8%nat)).
Proof.
  intros Hfuel.
  destruct (generateUniqueShortcode_fuel_spec w fuel Hfuel)
    as (code & n & w' & Hf & Hg & Hsame & _ & _ & H1 & H2 & Hprev & Hend).
  exists code, n, w'. repeat (split; [assumption |]).
  split; [| exact Hend].
  intros j Hj. split; [apply code_from_empty | now apply Hprev].
Qed.

(** *** Statistics *)

Lemma view_meta_click_view (l : list clickRecord) :
  view_meta <$> (click_view <$> l) = click_meta <$> l.
Proof. induction l as [|c l IH]; [reflexivity |]. cbn. now rewrite IH. Qed.

(** C6.  [getStatistics] returns absent exactly when the shortcode has no
    record in the URL map; the clock is not consulted, so an expired record
    that has not been cleaned up still has statistics.  When the record is
    present, [totalClicks] is the length of the click list of the shortcode
    and [clicks] lists the stored clicks in their order, each entry carrying
    the timestamp, referrer, location and userAgent of the stored click.
    After a creation, calls that neither create nor clean up leave
    [totalClicks] equal to the number of [recordClick] calls for the
    shortcode, with the clicks in call order. *)
Theorem getStatistics_counts (w : World) (k : string) :
  (result (getStatistics k w) = Normal None <-> urls w !! k = None) /\
  urls (world_after (getStatistics k w)) = urls w /\
  clicks (world_after (getStatistics k w)) = clicks w /\
  (forall r, urls w !! k = Some r ->
     exists st,
       result (getStatistics k w) = Normal (Some st) /\
       stat_shortcode st = k /\ stat_originalUrl st = originalUrl r /\
       stat_createdAt st = createdAt r /\ stat_expiresAt st = expiresAt r /\
       stat_totalClicks st = length (clicks_of w k) /\
       length (stat_clicks st) = length (clicks_of w k) /\
       (forall i c, clicks_of w k !! i = Some c ->
          exists e, stat_clicks st !! i = Some e /\
            view_timestamp e = timestamp c /\ view_referrer e = referrer c /\
            view_location e = location c /\ view_userAgent e = userAgent c)) /\
  (forall url v custom r w1 cs,
     createShortURL rnd uid url v custom w = (Normal r, w1) ->
     forallb is_quiet cs = true ->
     exists st,
       result (getStatistics (shortcode r) (after_calls rnd uid cs w1))
       = Normal (Some st) /\
       stat_totalClicks st = length (clicks_recorded (shortcode r) cs) /\
       view_meta <$> stat_clicks st
       = data_meta <$> clicks_recorded (shortcode r) cs).
Proof.
  unfold result, world_after. rewrite getStatistics_eq.
  split; [| split; [| split; [| split]]].
  - destruct (urls w !! k); cbn [fst]; split; congruence.
  - destruct (urls w !! k); reflexivity.
  - destruct (urls w !! k); reflexivity.
  - intros r ->. eexists. cbn [fst]. split; [reflexivity |].
    cbn [stats_of stat_shortcode stat_originalUrl stat_createdAt stat_expiresAt
         stat_totalClicks stat_clicks].
    repeat (split; [reflexivity |]).
    split; [apply length_fmap |].
    intros i c Hi. exists (click_view c).
    rewrite list_lookup_fmap, Hi. repeat split.
  - intros url v custom r w1 cs Hrun Hcs.
    destruct (createShortURL_cases url v custom w)
      as [(_ & _ & H) | [(s & _ & _ & _ & H) | (s & w0 & H & _)]];
      rewrite H in Hrun; try discriminate.
    injection Hrun as <- <-. cbn [new_record shortcode].
    destruct (after_calls_quiet cs (filed uid w0 url v s) s Hcs)
      as (Hu & recs & Hrecs & Hmeta).
    rewrite getStatistics_eq, Hu. cbn [filed urls].
    rewrite lookup_insert_eq. eexists. cbn [fst]. split; [reflexivity |].
    assert (Hempty : clicks_of (filed uid w0 url v s) s = []).
    { unfold clicks_of. cbn [filed clicks]. now rewrite lookup_insert_eq. }
    rewrite Hempty in Hrecs. cbn [app] in Hrecs.
    cbn [stats_of stat_totalClicks stat_clicks]. rewrite Hrecs.
    rewrite view_meta_click_view, Hmeta.
    split; [| reflexivity].
    rewrite <- (length_fmap click_meta), Hmeta. apply length_fmap.
Qed.

(** *** Recording clicks *)


(** *** Uniqueness of shortcodes *)

Lemma summaries_NoDup (w : World) :
  well_formed w ->
  NoDup ((fun s => shortcode (summary_data s))
           <$> (summary_of w <$> map_to_list (urls w))).
Proof.
  intros Hw. rewrite <- list_fmap_compose.
  apply NoDup_fmap_2_strong; [| apply NoDup_map_to_list].
  intros [k1 r1] [k2 r2] H1 H2. cbn. intros Heq.
  apply elem_of_map_to_list in H1, H2.
  destruct (Hw _ _ H1) as [E1 _], (Hw _ _ H2) as [E2 _].
  assert (k1 = k2) as -> by congruence.
  f_equal. congruence.
Qed.

(** C8, amended.  After any sequence of calls on a fresh registry (creations
    with or without a custom shortcode, lookups, clicks, statistics,
    enumerations, cleanups, clock movements) two different entries of the
    URL map never hold the same shortcode, and the shortcodes of the records
    that [getAllURLs] enumerates, and of the live ones among them, are
    pairwise different.  A [createShortURL] that succeeds there files its
    record under the returned shortcode.  With a custom shortcode, the
    shortcode it returns was no key of the URL map.  When the returned
    shortcode was no key, every record of the map, live or expired, is kept
    and holds another shortcode.  The returned shortcode was already a key
    only when no custom shortcode was given, the 100 length-6 candidates of
    the generator were all keys and the shortcode is the unchecked length-8
    fallback: then the record that held it, live or not, is replaced by the
    new one. *)
Theorem unique_shortcodes (t0 : Z) (cs : list Call) :
  let w := after_calls rnd uid cs (constructor t0) in
  (forall k1 k2 r1 r2,
     urls w !! k1 = Some r1 -> urls w !! k2 = Some r2 -> k1 <> k2 ->
     shortcode r1 <> shortcode r2) /\
  (exists all,
     result (getAllURLs w) = Normal all /\
     NoDup ((fun s => shortcode (summary_data s)) <$> all) /\
     NoDup ((fun s => shortcode (summary_data s))
              <$> filter (fun s => live (clock w) (summary_data s)) all)) /\
  (forall url v custom r w',
     createShortURL rnd uid url v custom w = (Normal r, w') ->
     urls w' = <[shortcode r := r]> (urls w) /\
     (truthy custom = true -> urls w !! shortcode r = None) /\
     (urls w !! shortcode r = None ->
        forall k r0, urls w !! k = Some r0 ->
          urls w' !! k = Some r0 /\ shortcode r0 <> shortcode r) /\
     (forall r0, urls w !! shortcode r = Some r0 ->
        truthy custom = false /\
        shortcode r = fallback rnd w /\
        String.length (shortcode r) = 8%nat /\
        (forall j, (j < maxAttempts)%nat ->
           is_Some (urls w !! candidate rnd w j)) /\
        shortcode r0 = shortcode r /\
        urls w' !! shortcode r0 = Some r)).
Proof.
  cbv zeta.
  pose proof (after_calls_well_formed cs _ (well_formed_constructor t0)) as Hw.
  set (w := after_calls rnd uid cs (constructor t0)) in *.
  split; [| split].
  - intros k1 k2 r1 r2 H1 H2 Hne.
    destruct (Hw _ _ H1) as [E1 _], (Hw _ _ H2) as [E2 _]. congruence.
  - unfold result. rewrite getAllURLs_eq. eexists. split; [reflexivity |].
    pose proof (summaries_NoDup w Hw) as Hnd.
    split; [exact Hnd |].
    apply NoDup_fmap_2_strong.
    + intros x y [_ Hx]%list_elem_of_filter [_ Hy]%list_elem_of_filter Heq.
      apply list_elem_of_fmap in Hx as ([k1 r1] & -> & H1).
      apply list_elem_of_fmap in Hy as ([k2 r2] & -> & H2).
      cbn in Heq. apply elem_of_map_to_list in H1, H2.
      destruct (Hw _ _ H1) as [E1 _], (Hw _ _ H2) as [E2 _].
      assert (k1 = k2) as -> by congruence.
      assert (r1 = r2) as -> by congruence. reflexivity.
    + apply NoDup_filter. eapply NoDup_fmap_1. exact Hnd.
  - intros url v custom r w' Hrun.
    destruct (createShortURL_overwrites _ _ _ _ _ _ Hrun) as (Hu & Hcustom & Hover).
    split; [exact Hu |]. split; [exact Hcustom |]. split.
    + intros Hnone k r0 Hk. destruct (Hw _ _ Hk) as [E _].
      assert (Hne : shortcode r <> k) by (intros <-; congruence).
      split; [rewrite Hu; now rewrite lookup_insert_ne | congruence].
    + intros r0 Hr0. destruct (Hover (ex_intro _ r0 Hr0)) as (Hf & Hfb & Hlen & Hprev).
      destruct (Hw _ _ Hr0) as [E _].
      repeat (split; [assumption |]).
      rewrite Hu, E. apply lookup_insert_eq.
Qed.

(** *** Expired shortcodes stay taken *)

(** C9.  In a registry whose records are filed under their own valid
    shortcode, for a record that is expired and still in the URL map,
    [getURLData] on its shortcode returns absent, while [createShortURL]
    with that shortcode as customShortcode fails with the already-exists
    error, now and after any calls that are not cleanups; once
    [cleanupExpiredURLs] has run, the shortcode is no key any more and the
    same creation no longer raises the already-exists error: the creation
    and expiry times being valid time values, it succeeds. *)
Theorem expired_shortcode_stays_taken (w : World) (k : string) (r : urlData)
    (url : string) (v : Z) :
  well_formed w ->
  urls w !! k = Some r ->
  expired (clock w) r ->
  result (getURLData (shortcode r) w) = Normal None /\
  result (createShortURL rnd uid url v (JStr (shortcode r)) w)
  = Thrown ShortcodeAlreadyExists /\
  (forall cs, forallb (fun c => negb (is_cleanup c)) cs = true ->
     result (createShortURL rnd uid url v (JStr (shortcode r))
               (after_calls rnd uid cs w))
     = Thrown ShortcodeAlreadyExists) /\
  (let w' := world_after (cleanupExpiredURLs w) in
   urls w' !! shortcode r = None /\
   result (createShortURL rnd uid url v (JStr (shortcode r)) w')
   <> Thrown ShortcodeAlreadyExists /\
   (dates_in_range w v ->
    exists r',
      result (createShortURL rnd uid url v (JStr (shortcode r)) w') = Normal r' /\
      shortcode r' = shortcode r /\
      urls (world_after (createShortURL rnd uid url v (JStr (shortcode r)) w'))
        !! shortcode r = Some r')).
Proof.
  intros Hw Hk Hexp. destruct (Hw _ _ Hk) as [E Hvalid]. rewrite E.
  unfold result, world_after. split; [| split; [| split]].
  - rewrite getURLData_eq, Hk.
    apply gtb_expired in Hexp. now rewrite Hexp.
  - rewrite createShortURL_taken; eauto.
  - intros cs Hcs. rewrite createShortURL_taken; [reflexivity | exact Hvalid |].
    apply after_calls_keeps_key; eauto.
  - destruct (cleanupExpiredURLs_spec w) as (n & w' & -> & _ & _ & _ & Hgone & _).
    destruct (Hgone k r Hk Hexp) as [Hnone _]. cbn [snd].
    split; [exact Hnone |].
    rewrite createShortURL_fresh by assumption. cbn [fst snd].
    split; [discriminate |].
    intros _. eexists. split; [reflexivity |]. split; [reflexivity |].
    cbn [filed urls]. apply lookup_insert_eq.
Qed.

(** *** What cleanup leaves alone *)

Lemma sweep_keeps_orphan (c : Call) (w : World) (k : string) :
  is_sweep c = true ->
  urls w !! k = None ->
  urls (after_call rnd uid c w) !! k = None /\
  clicks (after_call rnd uid c w) !! k = clicks w !! k.
Proof.
  intros Hc Hk. destruct c; try discriminate; unfold after_call, world_after.
  - destruct (cleanupExpiredURLs_spec w) as (n & w' & -> & _ & _ & Hu & _ & Hc' & _).
    cbn [snd]. split.
    + destruct (urls w' !! k) as [r|] eqn:E; [| reflexivity].
      apply Hu in E as [E _]. congruence.
    + apply Hc'. intros (r & Hr & _). congruence.
  - split; [exact Hk | reflexivity].
Qed.

Lemma sweeps_keep_orphan (cs : list Call) (w : World) (k : string) :
  forallb is_sweep cs = true ->
  urls w !! k = None ->
  clicks (after_calls rnd uid cs w) !! k = clicks w !! k.
Proof.
  revert w. induction cs as [|c cs IH]; intros w Hcs Hk; [reflexivity |].
  cbn in Hcs. apply andb_prop in Hcs as [Hc Hcs].
  destruct (sweep_keeps_orphan c w k Hc Hk) as [Hk' Hc'].
  cbn [after_calls foldl]. fold (after_calls rnd uid cs (after_call rnd uid c w)).
  rewrite IH by assumption. exact Hc'.
Qed.

Lemma after_call_unfiled (c : Call) (w : World) (k : string) :
  urls w !! k = None ->
  urls (after_call rnd uid c w) !! k = None ->
  clicks (after_call rnd uid c w) !! k = clicks w !! k \/
  exists rec,
    clicks (after_call rnd uid c w) !! k = Some (clicks_of w k ++ [rec])%list.
Proof.
  intros Hk Hk'. destruct c as [u v cu|k'|k' cd|k'| | |t].
  - left. revert Hk'. unfold after_call, world_after.
    destruct (createShortURL_cases u v cu w)
      as [(_ & _ & ->) | [(s & _ & _ & _ & ->) | (s & w1 & -> & Hsame & _)]];
      try reflexivity.
    destruct Hsame as (_ & Hc & _). cbn [snd filed urls clicks].
    destruct (decide (s = k)) as [->|Hne].
    + rewrite lookup_insert_eq. discriminate.
    + intros _. rewrite lookup_insert_ne by exact Hne. now rewrite Hc.
  - left. unfold after_call, world_after. rewrite getURLData_eq.
    destruct (urls w !! k') as [r|]; [| reflexivity].
    destruct (clock w >? expiresAt r)%Z; reflexivity.
  - unfold after_call, world_after. rewrite recordClick_eq.
    cbn [snd clicked clicks].
    destruct (decide (k' = k)) as [->|Hne].
    + right. eexists. apply lookup_insert_eq.
    + left. now rewrite lookup_insert_ne.
  - left. unfold after_call, world_after. rewrite getStatistics_eq.
    destruct (urls w !! k'); reflexivity.
  - left. unfold after_call, world_after. now rewrite getAllURLs_eq.
  - left. now apply sweep_keeps_orphan.
  - left. reflexivity.
Qed.

Lemma stays_unfiled_clicks (cs : list Call) (w : World) (k : string) :
  stays_unfiled rnd uid k cs w ->
  exists more,
    clicks_of (after_calls rnd uid cs w) k = (clicks_of w k ++ more)%list /\
    (is_Some (clicks w !! k) ->
     is_Some (clicks (after_calls rnd uid cs w) !! k)).
Proof.
  revert w. induction cs as [|c cs IH]; intros w [Hk Hcs].
  - exists []. rewrite app_nil_r. split; [reflexivity | trivial].
  - destruct (IH _ Hcs) as (more & Hmore & Hsome).
    cbn [after_calls foldl]. fold (after_calls rnd uid cs (after_call rnd uid c w)).
    assert (Hk' : urls (after_call rnd uid c w) !! k = None)
      by (destruct cs; apply Hcs).
    destruct (after_call_unfiled c w k Hk Hk') as [Heq | (rec & Heq)].
    + exists more. unfold clicks_of in *. rewrite Heq in *. split; assumption.
    + exists (rec :: more). unfold clicks_of in *. rewrite Heq in *.
      cbn [from_option id] in Hmore. rewrite Hmore, <- app_assoc.
      split; [reflexivity |]. intros _. apply Hsome. eauto.
Qed.

(** C10, amended.  [cleanupExpiredURLs] only walks the URL map.  A click list whose
    shortcode has no record in the URL map is left as it is, by one cleanup
    pass and by any number of them at any clock values; clicks recorded for
    a shortcode without a record stay in the click map, at the front of its
    click list, through all calls for as long as no record is filed under
    that shortcode.  A record that is not expired, and its click list, are
    left unchanged by cleanup as well. *)
Theorem cleanup_frame (w : World) :
  let w' := world_after (cleanupExpiredURLs w) in
  (forall k, urls w !! k = None ->
     urls w' !! k = None /\ clicks w' !! k = clicks w !! k) /\
  (forall k r, urls w !! k = Some r -> ~ expired (clock w) r ->
     urls w' !! k = Some r /\ clicks w' !! k = clicks w !! k) /\
  (forall k cs, urls w !! k = None -> forallb is_sweep cs = true ->
     clicks (after_calls rnd uid cs w) !! k = clicks w !! k) /\
  (forall k cd cs, urls w !! k = None ->
     exists rec w1,
       recordClick uid k cd w = (Normal rec, w1) /\
       (forallb is_sweep cs = true ->
        clicks (after_calls rnd uid cs w1) !! k
        = Some (clicks_of w k ++ [rec])%list) /\
       (stays_unfiled rnd uid k cs w1 ->
        exists more,
          clicks (after_calls rnd uid cs w1) !! k
          = Some (clicks_of w k ++ rec :: more)%list)).
Proof.
  cbv zeta. split; [| split; [| split]].
  - intros k Hk. apply (sweep_keeps_orphan CallCleanup w k eq_refl Hk).
  - intros k r Hk Hlive. unfold world_after.
    destruct (cleanupExpiredURLs_spec w) as (n & w' & -> & _ & _ & Hu & _ & Hc & _).
    cbn [snd]. split.
    + apply Hu. split; assumption.
    + apply Hc. intros (r' & Hr' & Hexp). congruence.
  - intros k cs Hk Hcs. now apply sweeps_keep_orphan.
  - intros k cd cs Hk.
    exists (new_click uid w cd), (clicked uid w k cd).
    split; [apply recordClick_eq |]. split.
    + intros Hcs. rewrite sweeps_keep_orphan by assumption.
      cbn [clicked clicks]. apply lookup_insert_eq.
    + intros Hcs.
      destruct (stays_unfiled_clicks cs _ k Hcs) as (more & Hmore & Hsome).
      exists more.
      assert (Hnow : clicks (clicked uid w k cd) !! k
                     = Some (clicks_of w k ++ [new_click uid w cd])%list)
        by (cbn [clicked clicks]; apply lookup_insert_eq).
      destruct Hsome as [l Hl]; [eauto |].
      unfold clicks_of in Hmore at 1 2. rewrite Hl, Hnow in Hmore.
      cbn [from_option id] in Hmore. rewrite Hl, Hmore, <- app_assoc.
      reflexivity.
Qed.

End Properties.

(** ** The properties at sample inputs *)

Lemma stale_world_well_formed : well_formed stale_world.
Proof.
  unfold stale_world, sample_world.
  apply after_calls_well_formed, well_formed_constructor.
Qed.

Lemma stale_world_record : urls stale_world !! "abc123" = Some stale_record.
Proof. vm_compute. reflexivity. Qed.

Lemma stale_record_expired : expired (clock stale_world) stale_record.
Proof. vm_compute. reflexivity. Qed.

(** The end-to-end example of the specification, run on the model. *)
Example end_to_end :
  let created :=
    createShortURL sample_random sample_uuid "https://example.com" 30 JNull
      sample_world in
  let clicked :=
    recordClick sample_uuid "dkryFM" sample_click (world_after created) in
  (shortcode <$> result_value (result created) = Some "dkryFM") /\
  (expiresAt <$> result_value (result created)
   = Some (clock sample_world + 30 * 60 * 1000)%Z) /\
  result (getURLData "dkryFM" (world_after created)) = Normal (result_value (result created)) /\
  (referrer <$> result_value (result clicked) = Some "Direct") /\
  (stat_totalClicks <$>
     from_option id None
       (result_value (result (getStatistics "dkryFM" (world_after clicked))))
   = Some 1%nat).
Proof. cbv zeta. repeat split; vm_compute; reflexivity. Qed.

Lemma create_then_resolve_witness :
  (1 <= 30 <= 525600)%Z /\
  exists r w',
    createShortURL sample_random sample_uuid "https://example.com" 30 JNull
      sample_world = (Normal r, w') /\
    getURLData (shortcode r) w' = (Normal (Some r), w') /\
    expiresAt r = (createdAt r + seconds (30 * 60))%Z.
Proof.
  assert (Hv : (1 <= 30 <= 525600)%Z) by lia.
  split; [exact Hv |].
  destruct (create_then_resolve sample_random sample_uuid sample_world
              "https://example.com" 30 JNull Hv) as [(r & w' & Hrun) Hget].
  exists r, w'. destruct (Hget r w' Hrun) as (_ & Hres & _ & Hexp).
  repeat split; assumption.
Defined.

Lemma getURLData_hides_expired_witness :
  urls stale_world !! "abc123" = Some stale_record /\
  expired (clock stale_world) stale_record /\
  forallb (fun c => negb (is_cleanup c))
    [CallCreate "https://example.com/2" 30 JNull;
     CallRecordClick "abc123" sample_click] = true /\
  result (getURLData "abc123" stale_world) = Normal None /\
  exists all,
    result
      (getAllURLs
         (after_calls sample_random sample_uuid
            [CallCreate "https://example.com/2" 30 JNull;
             CallRecordClick "abc123" sample_click]
            (world_after (getURLData "abc123" stale_world))))
    = Normal all /\
    {| summary_data := stale_record; totalClicks := 1 |} ∈ all.
Proof.
  split; [exact stale_world_record |]. split; [exact stale_record_expired |].
  split; [reflexivity |].
  destruct (getURLData_hides_expired sample_random sample_uuid stale_world "abc123")
    as (_ & _ & _ & _ & H).
  destruct (H stale_record stale_world_record stale_record_expired)
    as (Hnone & _ & _ & _ & Hall & _).
  split; [exact Hnone |].
  destruct (Hall [CallCreate "https://example.com/2" 30 JNull;
                  CallRecordClick "abc123" sample_click] eq_refl)
    as (all & r' & Hrun & _ & Hin & [-> | [Hlen _]]).
  - exists all. split; [exact Hrun |]. exact Hin.
  - vm_compute in Hlen. discriminate.
Defined.

(** An expired record does not always stay enumerable until a cleanup pass
    removes it.  The crowded registry holds a record under [aaaaaaaa], by
    now expired: [getURLData] returns absent and leaves it in place.  No
    cleanup runs.  A [createShortURL] without custom shortcode, whose draws
    all give the first character, finds its 100 candidates taken, falls
    back on [aaaaaaaa] and files its record there: [getAllURLs] no longer
    lists the expired record. *)
Lemma fallback_replaces_expired_counterexample :
  let w1 := world_after (getURLData "aaaaaaaa" crowded_stale_world) in
  let w2 :=
    world_after
      (createShortURL zero_draw sample_uuid "https://example.com/c" 30 JNull w1) in
  urls crowded_stale_world !! "aaaaaaaa" = Some crowded_record /\
  expired (clock crowded_stale_world) crowded_record /\
  result (getURLData "aaaaaaaa" crowded_stale_world) = Normal None /\
  urls w1 !! "aaaaaaaa" = Some crowded_record /\
  urls w2 !! "aaaaaaaa"
  = Some (new_record sample_uuid w1 "https://example.com/c" 30 "aaaaaaaa") /\
  exists all,
    result (getAllURLs w2) = Normal all /\
    forall n, {| summary_data := crowded_record; totalClicks := n |} ∉ all.
Proof.
  cbv zeta.
  split; [vm_compute; reflexivity |]. split; [vm_compute; reflexivity |].
  split; [vm_compute; reflexivity |]. split; [vm_compute; reflexivity |].
  split; [vm_compute; reflexivity |].
  eexists. split; [vm_compute; reflexivity |].
  intros n Hin.
  repeat (apply elem_of_cons in Hin as [Hin | Hin]; [discriminate |]).
  now apply elem_of_nil in Hin.
Qed.

(** A customShortcode that is the empty string is not null and is not a
    string of 3 to 20 alphanumeric characters, yet no invalid-format error
    is raised: the call generates a code and succeeds. *)
Lemma createShortURL_empty_custom_counterexample :
  JStr "" <> JNull /\
  ~ shortcode_format (JStr "") /\
  result (createShortURL sample_random sample_uuid "https://example.com" 30
            (JStr "") sample_world)
  = Normal (new_record sample_uuid sample_world "https://example.com" 30 "dkryFM") /\
  ~ (result (createShortURL sample_random sample_uuid "https://example.com" 30
               (JStr "") sample_world) = Thrown InvalidShortcodeFormat
     <-> ~ shortcode_format (JStr "")).
Proof.
  assert (Hfmt : ~ shortcode_format (JStr "")).
  { intros (s & [= <-] & Hlen & _). cbn in Hlen. lia. }
  assert (Hrun : result (createShortURL sample_random sample_uuid
                           "https://example.com" 30 (JStr "") sample_world)
                 = Normal (new_record sample_uuid sample_world
                             "https://example.com" 30 "dkryFM"))
    by (vm_compute; reflexivity).
  split; [discriminate |]. split; [exact Hfmt |]. split; [exact Hrun |].
  intros [_ H]. specialize (H Hfmt). rewrite Hrun in H. discriminate.
Qed.

Lemma createShortURL_custom_witness :
  truthy (JStr "validCode123") = true /\
  shortcode_format (JStr "validCode123") /\
  urls sample_world !! "validCode123" = None /\
  dates_in_range sample_world 30 /\
  exists r,
    result (createShortURL sample_random sample_uuid "https://example.com" 30
              (JStr "validCode123") sample_world) = Normal r /\
    shortcode r = "validCode123".
Proof.
  assert (Hfmt : shortcode_format (JStr "validCode123"))
    by (apply isValidShortcode_spec; vm_compute; reflexivity).
  assert (Hdates : dates_in_range sample_world 30)
    by (unfold dates_in_range, valid_time, Date_max; cbn; lia).
  split; [reflexivity |]. split; [exact Hfmt |]. split; [reflexivity |].
  split; [exact Hdates |].
  destruct (createShortURL_custom sample_random sample_uuid sample_world
              "https://example.com" 30 (JStr "validCode123")) as (H & _ & _).
  destruct (H eq_refl) as (_ & Hs).
  destruct (Hs "validCode123" eq_refl Hfmt) as (_ & Hfresh).
  destruct (Hfresh eq_refl Hdates) as (r & Hr & Hcode & _).
  exists r. split; assumption.
Defined.

Lemma cleanupExpiredURLs_exact_witness :
  exists n w',
    cleanupExpiredURLs stale_world = (Normal n, w') /\
    n = 1%nat /\ urls w' !! "abc123" = None /\
    cleanupExpiredURLs w' = (Normal 0%nat, w').
Proof.
  destruct (cleanupExpiredURLs_exact stale_world)
    as (n & w' & Hrun & _ & Hgone & Hn & _ & _ & Hagain).
  exists n, w'. split; [exact Hrun |].
  split; [rewrite Hn; vm_compute; reflexivity |].
  split; [| exact Hagain].
  apply (Hgone "abc123" stale_record stale_world_record stale_record_expired).
Defined.

Lemma generateUniqueShortcode_terminates_witness :
  (maxAttempts < 101)%nat /\
  exists code w',
    generateUniqueShortcode_fuel zero_draw 101 crowded_world = (Normal code, w') /\
    generateUniqueShortcode zero_draw crowded_world = (Normal code, w').
Proof.
  assert (Hfuel : (maxAttempts < 101)%nat) by (unfold maxAttempts; lia).
  split; [exact Hfuel |].
  destruct (generateUniqueShortcode_terminates zero_draw crowded_world 101 Hfuel)
    as (code & n & w' & Hf & Hg & _).
  exists code, w'. split; assumption.
Defined.

(** With every length-6 code taken, the fallback code is returned although
    it is a key of the URL map. *)
Example fallback_not_rechecked :
  result (generateUniqueShortcode zero_draw crowded_world) = Normal "aaaaaaaa" /\
  is_Some (urls crowded_world !! "aaaaaaaa").
Proof.
  split; [vm_compute; reflexivity |].
  eexists. vm_compute. reflexivity.
Qed.

Lemma getStatistics_counts_witness :
  forallb is_quiet
    [CallRecordClick "validCode123" sample_click;
     ClockMoves 5000;
     CallRecordClick "validCode123" sample_click;
     CallGetURLData "validCode123";
     CallRecordClick "validCode123" sample_click] = true /\
  exists st,
    result
      (getStatistics "validCode123"
         (after_calls sample_random sample_uuid
            [CallRecordClick "validCode123" sample_click;
             ClockMoves 5000;
             CallRecordClick "validCode123" sample_click;
             CallGetURLData "validCode123";
             CallRecordClick "validCode123" sample_click]
            (world_after
               (createShortURL sample_random sample_uuid "https://example.com"
                  30 (JStr "validCode123") sample_world))))
    = Normal (Some st) /\
    stat_totalClicks st = 3%nat /\
    view_referrer <$> stat_clicks st = ["Direct"; "Direct"; "Direct"].
Proof.
  split; [reflexivity |].
  destruct (getStatistics_counts sample_random sample_uuid sample_world "validCode123")
    as (_ & _ & _ & _ & H).
  destruct (H "https://example.com" 30%Z (JStr "validCode123")
              (new_record sample_uuid sample_world "https://example.com" 30
                 "validCode123")
              (world_after
                 (createShortURL sample_random sample_uuid "https://example.com"
                    30 (JStr "validCode123") sample_world))
              [CallRecordClick "validCode123" sample_click;
               ClockMoves 5000;
               CallRecordClick "validCode123" sample_click;
               CallGetURLData "validCode123";
               CallRecordClick "validCode123" sample_click]
              eq_refl eq_refl) as (st & Hst & Htotal & Hmeta).
  exists st. split; [exact Hst |]. split; [exact Htotal |].
  apply (f_equal (fmap (fun m => m.1.2))) in Hmeta.
  rewrite <- !list_fmap_compose in Hmeta. exact Hmeta.
Defined.


Lemma unique_shortcodes_witness :
  (exists all,
     result
       (getAllURLs
          (after_calls sample_random sample_uuid
             [CallCreate "https://example.com/1" 30 JNull;
              CallCreate "https://example.com/2" 30 (JStr "abc123");
              CallCreate "https://example.com/3" 30 (JStr "abc123");
              ClockMoves 2000000;
              CallCreate "https://example.com/4" 30 JNull;
              CallCleanup]
             (constructor 0)))
     = Normal all /\
     length all = 1%nat /\
     NoDup ((fun s => shortcode (summary_data s)) <$> all)) /\
  exists r w',
    createShortURL sample_random sample_uuid "https://example.com/5" 30
      (JStr "abc123")
      (after_calls sample_random sample_uuid
         [CallCreate "https://example.com/1" 30 JNull;
          CallCreate "https://example.com/2" 30 (JStr "abc123");
          CallCreate "https://example.com/3" 30 (JStr "abc123");
          ClockMoves 2000000;
          CallCreate "https://example.com/4" 30 JNull;
          CallCleanup]
         (constructor 0))
    = (Normal r, w') /\
    shortcode r = "abc123" /\
    urls w' !! "abc123" = Some r /\
    size (urls w') = 2%nat.
Proof.
  pose proof (unique_shortcodes sample_random sample_uuid 0
                [CallCreate "https://example.com/1" 30 JNull;
                 CallCreate "https://example.com/2" 30 (JStr "abc123");
                 CallCreate "https://example.com/3" 30 (JStr "abc123");
                 ClockMoves 2000000;
                 CallCreate "https://example.com/4" 30 JNull;
                 CallCleanup]) as H.
  cbv zeta in H. destruct H as (_ & (all & Hall & Hnd & _) & Hcreate).
  split.
  - exists all. split; [exact Hall |]. split; [| exact Hnd].
    vm_compute in Hall. injection Hall as <-. reflexivity.
  - eexists _, _. split; [vm_compute; reflexivity |].
    match goal with
    | |- ?code = _ /\ urls ?w !! _ = Some ?r /\ _ =>
        destruct (Hcreate "https://example.com/5" 30%Z (JStr "abc123") r w)
          as (Hu & _)
    end; [vm_compute; reflexivity |].
    split; [reflexivity |]. split.
    + rewrite Hu. apply lookup_insert_eq.
    + vm_compute. reflexivity.
Defined.

(** Two records that [createShortURL] has returned can hold the same
    shortcode while both are live.  The crowded registry holds a live
    record under [aaaaaaaa], returned by a creation with that custom
    shortcode.  A creation without custom shortcode, whose draws all give
    the first character, finds its 100 candidates taken, returns the
    fallback [aaaaaaaa] unchecked and files its record over the live one,
    which is neither expired nor cleaned up. *)
Lemma fallback_collision_counterexample :
  let w0 :=
    after_calls zero_draw sample_uuid
      [CallCreate "https://example.com/a" 30 (JStr "aaaaaa")] (constructor 0) in
  let first :=
    createShortURL zero_draw sample_uuid "https://example.com/b" 30
      (JStr "aaaaaaaa") w0 in
  let second :=
    createShortURL zero_draw sample_uuid "https://example.com/c" 30 JNull
      crowded_world in
  let r := new_record sample_uuid crowded_world "https://example.com/c" 30 "aaaaaaaa" in
  result first = Normal crowded_record /\
  world_after first = crowded_world /\
  urls crowded_world !! "aaaaaaaa" = Some crowded_record /\
  result second = Normal r /\
  shortcode r = shortcode crowded_record /\
  r <> crowded_record /\
  live (clock (world_after second)) crowded_record /\
  live (clock (world_after second)) r /\
  urls (world_after second) !! "aaaaaaaa" = Some r /\
  size (urls (world_after second)) = 2%nat.
Proof.
  cbv zeta.
  split; [vm_compute; reflexivity |]. split; [vm_compute; reflexivity |].
  split; [vm_compute; reflexivity |]. split; [vm_compute; reflexivity |].
  split; [reflexivity |]. split; [discriminate |].
  split; [vm_compute; discriminate |]. split; [vm_compute; discriminate |].
  split; vm_compute; reflexivity.
Qed.

Lemma expired_shortcode_stays_taken_witness :
  well_formed stale_world /\
  urls stale_world !! "abc123" = Some stale_record /\
  expired (clock stale_world) stale_record /\
  dates_in_range stale_world 30 /\
  result (getURLData "abc123" stale_world) = Normal None /\
  result (createShortURL sample_random sample_uuid "https://example.org" 30
            (JStr "abc123") stale_world) = Thrown ShortcodeAlreadyExists /\
  exists r',
    result (createShortURL sample_random sample_uuid "https://example.org" 30
              (JStr "abc123") (world_after (cleanupExpiredURLs stale_world)))
    = Normal r' /\ shortcode r' = "abc123".
Proof.
  assert (Hdates : dates_in_range stale_world 30)
    by (unfold dates_in_range, valid_time, Date_max; cbn; lia).
  split; [exact stale_world_well_formed |].
  split; [exact stale_world_record |].
  split; [exact stale_record_expired |].
  split; [exact Hdates |].
  destruct (expired_shortcode_stays_taken sample_random sample_uuid stale_world
              "abc123" stale_record "https://example.org" 30
              stale_world_well_formed stale_world_record stale_record_expired)
    as (Hget & Htaken & _ & _ & _ & Hafter).
  split; [exact Hget |]. split; [exact Htaken |].
  destruct (Hafter Hdates) as (r' & Hr' & Hcode & _).
  exists r'. split; assumption.
Defined.

Lemma cleanup_frame_witness :
  urls sample_world !! "ghost1" = None /\
  exists rec w1,
    recordClick sample_uuid "ghost1" sample_click sample_world = (Normal rec, w1) /\
    clicks
      (after_calls sample_random sample_uuid
         [CallCleanup; ClockMoves 1000000000000; CallCleanup] w1) !! "ghost1"
    = Some [rec].
Proof.
  split; [reflexivity |].
  destruct (cleanup_frame sample_random sample_uuid sample_world)
    as (_ & _ & _ & H).
  destruct (H "ghost1" sample_click
              [CallCleanup; ClockMoves 1000000000000; CallCleanup] eq_refl)
    as (rec & w1 & Hrun & Hsweeps & _).
  exists rec, w1. split; [exact Hrun |]. exact (Hsweeps eq_refl).
Defined.

(** A click recorded for a shortcode that was never created does not stay
    in the click map for ever: no cleanup runs, yet creating a URL under
    that shortcode replaces its click list by the empty one. *)
Lemma orphan_clicks_reset_counterexample :
  urls sample_world !! "ghost1" = None /\
  clicks (world_after (recordClick sample_uuid "ghost1" sample_click sample_world))
    !! "ghost1"
  = Some [new_click sample_uuid sample_world sample_click] /\
  clicks
    (world_after
       (createShortURL sample_random sample_uuid "https://example.com" 30
          (JStr "ghost1")
          (world_after
             (recordClick sample_uuid "ghost1" sample_click sample_world))))
    !! "ghost1"
  = Some [].
Proof. repeat split; vm_compute; reflexivity. Qed.

(** * Further properties of the registry *)

Section MoreProperties.

Variable rnd : nat -> nat.
Variable uid : nat -> string.

(** ** The generator *)

(** X1.  [generateShortcode(n)] returns a string of exactly [n] characters,
    all of them in [a-zA-Z0-9], after [n] calls of [Math.random] and without
    touching the store; so its result has the shortcode format exactly when
    [3 <= n <= 20]. *)
Theorem generateShortcode_format (n : nat) (w : World) :
  exists code w',
    generateShortcode rnd n w = (Normal code, w') /\
    String.length code = n /\
    (forall i c, String.get i code = Some c -> alnum_char c) /\
    same_store w w' /\
    random_calls w' = (random_calls w + n)%nat /\
    (isValidShortcode (JStr code) = true <-> (3 <= n /\ n <= 20)%nat).
Proof.
  exists (code_from rnd (random_calls w) n ""), (drawn n w).
  destruct (code_from_empty rnd n (random_calls w)) as [Hlen Hal].
  split; [apply generateShortcode_eq |]. split; [exact Hlen |].
  split.
  { intros i c Hi. apply is_alnum_spec.
    rewrite all_alnum_get in Hal. eauto. }
  split; [repeat split |]. split; [reflexivity |].
  rewrite isValidShortcode_spec. split.
  - intros (s & [= <-] & H3 & H20 & _). lia.
  - intros [H3 H20]. eexists. split; [reflexivity |].
    split; [lia |]. split; [lia |].
    intros i c Hi. apply is_alnum_spec.
    rewrite all_alnum_get in Hal. eauto.
Qed.

(** ** Invariants of the reachable registry *)

Lemma or_default_nonempty (x : option string) (d : string) :
  d <> "" -> or_default x d <> "".
Proof.
  intros Hd. unfold or_default. destruct x as [s|]; [| exact Hd].
  destruct (String.eqb_spec s ""); assumption.
Qed.

Lemma registry_inv_constructor (t : Z) : registry_inv (constructor t).
Proof.
  split.
  - intros k r H. cbn in H. rewrite lookup_empty in H. discriminate.
  - intros k l c H. cbn in H. rewrite lookup_empty in H. discriminate.
Qed.

Lemma registry_inv_same (w w' : World) :
  urls w' = urls w -> clicks w' = clicks w -> registry_inv w -> registry_inv w'.
Proof. unfold registry_inv. intros -> ->. trivial. Qed.

Lemma registry_inv_filed (w : World) (url : string) (v : Z) (s : string) :
  registry_inv w -> isValidShortcode (JStr s) = true ->
  registry_inv (filed uid w url v s).
Proof.
  intros [Hu Hc] Hs. split.
  - intros k r. cbn [filed urls clicks].
    destruct (decide (s = k)) as [->|Hne].
    + rewrite !lookup_insert_eq. intros [= <-]. split; [| eauto].
      repeat split. now apply isValidShortcode_spec.
    + rewrite !lookup_insert_ne by exact Hne. apply Hu.
  - intros k l c. cbn [filed clicks].
    destruct (decide (s = k)) as [->|Hne].
    + rewrite lookup_insert_eq. intros [= <-] Hin.
      apply elem_of_nil in Hin. contradiction.
    + rewrite lookup_insert_ne by exact Hne. apply Hc.
Qed.

Lemma registry_inv_clicked (w : World) (k : string) (cd : clickData) :
  registry_inv w -> registry_inv (clicked uid w k cd).
Proof.
  intros [Hu Hc]. split.
  - intros k' r Hr. cbn [clicked urls clicks] in *.
    destruct (Hu _ _ Hr) as [Hs Hl]. split; [exact Hs |].
    destruct (decide (k = k')) as [->|Hne].
    + rewrite lookup_insert_eq. eauto.
    + now rewrite lookup_insert_ne.
  - intros k' l c. cbn [clicked clicks].
    destruct (decide (k = k')) as [->|Hne].
    + rewrite lookup_insert_eq. intros [= <-] Hin.
      apply elem_of_app in Hin as [Hin | Hin].
      * destruct (clicks w !! k') as [l0|] eqn:E; cbn in Hin.
        -- eapply Hc; eauto.
        -- apply elem_of_nil in Hin. contradiction.
      * apply list_elem_of_singleton in Hin as ->.
        split; cbn; apply or_default_nonempty; discriminate.
    + rewrite lookup_insert_ne by exact Hne. apply Hc.
Qed.

Lemma cleanup_clicks_sub (w : World) (k : string) (l : list clickRecord) :
  clicks (world_after (cleanupExpiredURLs w)) !! k = Some l ->
  clicks w !! k = Some l.
Proof.
  unfold world_after.
  destruct (cleanupExpiredURLs_spec w) as (n & w' & -> & _ & _ & _ & Hgone & Hkeep & _).
  cbn [snd]. intros Hl.
  destruct (urls w !! k) as [r|] eqn:Hr.
  - destruct (decide (expired (clock w) r)) as [Hexp|Hlive].
    + destruct (Hgone k r Hr Hexp) as [_ Hnone]. congruence.
    + rewrite <- Hkeep; [exact Hl |]. intros (r' & Hr' & Hexp). congruence.
  - rewrite <- Hkeep; [exact Hl |]. intros (r' & Hr' & _). congruence.
Qed.

Lemma registry_inv_cleanup (w : World) :
  registry_inv w -> registry_inv (world_after (cleanupExpiredURLs w)).
Proof.
  intros [Hu Hc]. split.
  - intros k r Hr. unfold world_after in *.
    destruct (cleanupExpiredURLs_spec w)
      as (n & w' & Hrun & _ & _ & Hsub & _ & Hkeep & _).
    rewrite Hrun in *. cbn [snd] in *.
    apply Hsub in Hr as [Hr Hlive]. destruct (Hu _ _ Hr) as [Hs Hl].
    split; [exact Hs |]. rewrite Hkeep; [exact Hl |].
    intros (r' & Hr' & Hexp). congruence.
  - intros k l c Hl. apply cleanup_clicks_sub in Hl. eauto.
Qed.

Lemma registry_inv_after_call (c : Call) (w : World) :
  registry_inv w -> registry_inv (after_call rnd uid c w).
Proof.
  intros Hw. destruct c as [u v cu|k|k cd|k| | |t]; unfold after_call, world_after.
  - destruct (createShortURL_cases rnd uid u v cu w)
      as [(_ & _ & ->) | [(s & _ & _ & _ & ->) | (s & w1 & -> & Hsame & Hv & _)]];
      try exact Hw.
    cbn [snd]. apply registry_inv_filed; [| exact Hv].
    destruct Hsame as (Hu & Hc & _). now apply (registry_inv_same w).
  - rewrite getURLData_eq. destruct (urls w !! k) as [r|]; [| exact Hw].
    destruct (clock w >? expiresAt r)%Z; exact Hw.
  - rewrite recordClick_eq. now apply registry_inv_clicked.
  - rewrite getStatistics_eq. destruct (urls w !! k); exact Hw.
  - rewrite getAllURLs_eq. exact Hw.
  - now apply registry_inv_cleanup.
  - exact Hw.
Qed.

Lemma registry_inv_after_calls (cs : list Call) (w : World) :
  registry_inv w -> registry_inv (after_calls rnd uid cs w).
Proof.
  revert w. induction cs as [|c cs IH]; intros w Hw; [exact Hw |].
  cbn. apply IH. now apply registry_inv_after_call.
Qed.

(** X2.  In every state reached from a fresh registry, every record in the
    URL map is filed under its own shortcode, which has the shortcode
    format; it is active, and it expires [validityMinutes] minutes after
    its creation. *)
Theorem reachable_records_sound (t0 : Z) (cs : list Call) (k : string)
    (r : urlData) :
  urls (after_calls rnd uid cs (constructor t0)) !! k = Some r ->
  shortcode r = k /\ shortcode_format (JStr k) /\ isActive r = true /\
  expiresAt r = (createdAt r + validityMinutes r * 60 * 1000)%Z.
Proof.
  intros Hr.
  destruct (registry_inv_after_calls cs _ (registry_inv_constructor t0)) as [Hu _].
  apply (Hu _ _ Hr).
Qed.

(** X3.  In every state reached from a fresh registry, every shortcode with
    a record in the URL map has a click list in the click map, so
    [getStatistics] and [getAllURLs] never fall back on the empty list for
    a record: [totalClicks] is the length of a stored list. *)
Theorem reachable_records_have_click_lists (t0 : Z) (cs : list Call)
    (k : string) (r : urlData) :
  let w := after_calls rnd uid cs (constructor t0) in
  urls w !! k = Some r ->
  exists l st,
    clicks w !! k = Some l /\
    result (getStatistics k w) = Normal (Some st) /\
    stat_totalClicks st = length l /\
    stat_clicks st = click_view <$> l.
Proof.
  cbv zeta. intros Hr.
  destruct (registry_inv_after_calls cs _ (registry_inv_constructor t0)) as [Hu _].
  destruct (Hu _ _ Hr) as [_ [l Hl]].
  exists l. eexists. split; [exact Hl |].
  unfold result. rewrite getStatistics_eq, Hr. cbn [fst].
  split; [reflexivity |].
  cbn [stats_of stat_totalClicks stat_clicks]. unfold clicks_of.
  rewrite Hl. split; reflexivity.
Qed.

(** X4.  In every state reached from a fresh registry, no stored click has
    an empty referrer or an empty location. *)
Theorem reachable_clicks_sound (t0 : Z) (cs : list Call) (k : string)
    (l : list clickRecord) (c : clickRecord) :
  clicks (after_calls rnd uid cs (constructor t0)) !! k = Some l ->
  c ∈ l ->
  referrer c <> "" /\ location c <> "".
Proof.
  intros Hl Hin.
  destruct (registry_inv_after_calls cs _ (registry_inv_constructor t0)) as [_ Hc].
  apply (Hc _ _ _ Hl Hin).
Qed.

(** ** Cleanup and lookup together *)

Lemma cleanup_lookup (w : World) (k : string) :
  let w' := world_after (cleanupExpiredURLs w) in
  clock w' = clock w /\
  urls w' !! k =
    match urls w !! k with
    | Some r => if decide (expired (clock w) r) then None else Some r
    | None => None
    end /\
  clicks w' !! k =
    match urls w !! k with
    | Some r => if decide (expired (clock w) r) then None else clicks w !! k
    | None => clicks w !! k
    end.
Proof using Type.
  cbv zeta. unfold world_after.
  destruct (cleanupExpiredURLs_spec w)
    as (n & w' & -> & _ & Hclock & Hsub & Hgone & Hkeep & _).
  cbn [snd]. split; [exact Hclock |].
  destruct (urls w !! k) as [r|] eqn:Hr.
  - destruct (decide (expired (clock w) r)) as [Hexp|Hlive].
    + apply (Hgone k r Hr Hexp).
    + split.
      * apply Hsub. split; assumption.
      * apply Hkeep. intros (r' & Hr' & Hexp). congruence.
  - split.
    + destruct (urls w' !! k) as [r|] eqn:E; [| reflexivity].
      apply Hsub in E as [E _]. congruence.
    + apply Hkeep. intros (r' & Hr' & _). congruence.
Qed.

(** X5.  Right after a cleanup pass, with the clock unchanged, expiry
    hiding has nothing left to hide: [getURLData] returns exactly what the
    URL map holds, every remaining record is live, and [getURLData] and
    [getStatistics] agree on which shortcodes exist. *)
Theorem cleanup_then_lookup (w : World) (k : string) :
  let w' := world_after (cleanupExpiredURLs w) in
  result (getURLData k w') = Normal (urls w' !! k) /\
  (forall r, urls w' !! k = Some r -> live (clock w') r) /\
  (result (getStatistics k w') = Normal None <->
   result (getURLData k w') = Normal None).
Proof using Type.
  cbv zeta. destruct (cleanup_lookup w k) as (Hclock & Hu & _).
  set (w' := world_after (cleanupExpiredURLs w)) in *.
  assert (Hlive : forall r, urls w' !! k = Some r -> live (clock w') r).
  { intros r Hr. rewrite Hr in Hu. rewrite Hclock.
    destruct (urls w !! k) as [r0|]; [| discriminate].
    destruct (decide (expired (clock w) r0)) as [|Hl]; [discriminate |].
    injection Hu as ->. now apply live_not_expired. }
  unfold result. rewrite getURLData_eq, getStatistics_eq.
  destruct (urls w' !! k) as [r|] eqn:Hr.
  - pose proof (Hlive r eq_refl) as Hr'. apply gtb_live in Hr' as Hgt.
    rewrite Hgt. cbn [fst].
    split; [reflexivity |]. split; [intros r' [= <-]; exact Hr' |].
    split; discriminate.
  - cbn [fst]. split; [reflexivity |]. split; [discriminate |].
    split; reflexivity.
Qed.

(** X6.  For a shortcode with a record, one [recordClick] raises
    [totalClicks] by exactly one and adds the view of the new click at the
    end of [clicks]; the statistics of every other shortcode are unchanged. *)
Theorem recordClick_counts (w : World) (k : string) (cd : clickData)
    (r : urlData) :
  urls w !! k = Some r ->
  exists st st' rec w',
    result (getStatistics k w) = Normal (Some st) /\
    recordClick uid k cd w = (Normal rec, w') /\
    result (getStatistics k w') = Normal (Some st') /\
    stat_totalClicks st' = S (stat_totalClicks st) /\
    stat_clicks st' = (stat_clicks st ++ [click_view rec])%list /\
    (forall k', k' <> k ->
       result (getStatistics k' w') = result (getStatistics k' w)).
Proof.
  intros Hr.
  exists (stats_of w k r), (stats_of (clicked uid w k cd) k r),
    (new_click uid w cd), (clicked uid w k cd).
  unfold result. rewrite !getStatistics_eq. cbn [clicked urls]. rewrite Hr.
  split; [reflexivity |]. split; [apply recordClick_eq |].
  split; [reflexivity |].
  assert (Hl : clicks_of (clicked uid w k cd) k
               = (clicks_of w k ++ [new_click uid w cd])%list).
  { unfold clicks_of at 1. cbn [clicked clicks]. now rewrite lookup_insert_eq. }
  cbn [stats_of stat_totalClicks stat_clicks]. rewrite Hl.
  split; [rewrite length_app; cbn; lia |].
  split; [now rewrite fmap_app |].
  intros k' Hne. rewrite !getStatistics_eq. cbn [clicked urls].
  destruct (urls w !! k') as [r'|]; [| reflexivity]. cbn [fst]. do 2 f_equal.
  unfold stats_of, clicks_of. cbn [clicked clicks].
  now rewrite lookup_insert_ne by congruence.
Qed.

(** X7.  [getAllURLs] changes neither map and returns one entry per record
    of the URL map, expired or not: as many entries as the map has keys,
    each a record of the map with the length of its click list. *)
Theorem getAllURLs_complete (w : World) :
  exists all,
    result (getAllURLs w) = Normal all /\
    urls (world_after (getAllURLs w)) = urls w /\
    clicks (world_after (getAllURLs w)) = clicks w /\
    length all = size (urls w) /\
    (forall s, s ∈ all <->
       exists k r, urls w !! k = Some r /\
         s = {| summary_data := r; totalClicks := length (clicks_of w k) |}).
Proof using Type.
  unfold result, world_after. rewrite getAllURLs_eq. eexists.
  split; [reflexivity |]. split; [reflexivity |]. split; [reflexivity |].
  split; [now rewrite length_fmap, length_map_to_list |].
  intros s. rewrite list_elem_of_fmap. split.
  - intros ([k r] & -> & Hin). apply elem_of_map_to_list in Hin. eauto.
  - intros (k & r & Hr & ->). exists (k, r).
    split; [reflexivity | now apply elem_of_map_to_list].
Qed.

(** ** What a creation does to the maps *)

(** X8.  A successful [createShortURL] files the returned record and an
    empty click list under the returned shortcode and changes nothing
    else.  The URL map grows by one record, except when the shortcode was
    already a key: that happens only without a custom shortcode, through
    the unchecked length-8 fallback of the generator, and then the old
    record is replaced and its click list emptied. *)
Theorem createShortURL_files (w : World) (url : string) (v : Z)
    (custom : jsval) (r : urlData) (w' : World) :
  createShortURL rnd uid url v custom w = (Normal r, w') ->
  urls w' = <[shortcode r := r]> (urls w) /\
  clicks w' = <[shortcode r := []]> (clicks w) /\
  clock w' = clock w /\
  (urls w !! shortcode r = None -> size (urls w') = S (size (urls w))) /\
  (is_Some (urls w !! shortcode r) ->
     truthy custom = false /\ String.length (shortcode r) = 8%nat /\
     size (urls w') = size (urls w)).
Proof.
  intros Hrun.
  destruct (createShortURL_cases rnd uid url v custom w)
    as [(_ & _ & H) | [(s & _ & _ & _ & H) | (s & w1 & H & Hsame & _ & Hor)]];
    rewrite H in Hrun; try discriminate.
  injection Hrun as <- <-. destruct Hsame as (Hu & Hc & Ht).
  cbn [new_record shortcode filed urls clicks clock]. rewrite Hu, Hc.
  split; [reflexivity |]. split; [reflexivity |]. split; [exact Ht |].
  split; [apply map_size_insert_None |].
  intros Hsome.
  destruct Hor as [(_ & _ & Hnone) | (Hf & Hgen)].
  { rewrite Hnone in Hsome. destruct Hsome as [? ?]. discriminate. }
  split; [exact Hf |]. split; [| now apply map_size_insert_Some].
  destruct (generateUniqueShortcode_fuel_spec rnd w (S maxAttempts))
    as (code & n & w2 & _ & Hgen' & _ & _ & _ & _ & _ & _ & Hend); [lia |].
  rewrite Hgen in Hgen'. injection Hgen' as <- <-.
  destruct Hend as [(_ & _ & _ & Hnone) | (_ & _ & Hlen)]; [| exact Hlen].
  rewrite Hnone in Hsome. destruct Hsome as [? ?]. discriminate.
Qed.

(** ** Time *)

(** X9.  Expiry hiding is monotone in the clock: on the same store, a
    shortcode that resolves at some time resolves to the same record at
    every earlier time, and one that has a record but does not resolve
    stays hidden at every later time. *)
Theorem getURLData_monotone (w : World) (k : string) (t t' : Z) :
  (t' <= t)%Z ->
  (forall r, result (getURLData k (set_clock t w)) = Normal (Some r) ->
     result (getURLData k (set_clock t' w)) = Normal (Some r)) /\
  (is_Some (urls w !! k) ->
   result (getURLData k (set_clock t' w)) = Normal None ->
   result (getURLData k (set_clock t w)) = Normal None).
Proof using Type.
  intros Hle. unfold result. rewrite !getURLData_eq. cbn [set_clock urls clock].
  destruct (urls w !! k) as [r0|]; [| split; [discriminate | reflexivity]].
  destruct (t >? expiresAt r0)%Z eqn:E1, (t' >? expiresAt r0)%Z eqn:E2;
    cbn [fst].
  - split; [discriminate | trivial].
  - split; [discriminate | intros _ H; discriminate].
  - apply gtb_live in E1. apply gtb_expired in E2. unfold live, expired in *. lia.
  - split; [trivial | intros _ H; discriminate].
Qed.

(** X10.  Two cleanup passes, the second at a later time, leave the maps
    that one pass at the later time leaves, and the two counts add up to
    its count. *)
Theorem cleanup_twice_later (w : World) (t1 t2 : Z) :
  (t1 <= t2)%Z ->
  exists n1 w1 n2 w2 n w2',
    cleanupExpiredURLs (set_clock t1 w) = (Normal n1, w1) /\
    cleanupExpiredURLs (set_clock t2 w1) = (Normal n2, w2) /\
    cleanupExpiredURLs (set_clock t2 w) = (Normal n, w2') /\
    urls w2 = urls w2' /\ clicks w2 = clicks w2' /\
    n = (n1 + n2)%nat.
Proof using Type.
  intros Hle.
  destruct (cleanupExpiredURLs_spec (set_clock t1 w))
    as (n1 & w1 & Hrun1 & _ & _ & _ & _ & _ & Hsize1).
  destruct (cleanupExpiredURLs_spec (set_clock t2 w1))
    as (n2 & w2 & Hrun2 & _ & _ & _ & _ & _ & Hsize2).
  destruct (cleanupExpiredURLs_spec (set_clock t2 w))
    as (n & w2' & Hrun & _ & _ & _ & _ & _ & Hsize).
  exists n1, w1, n2, w2, n, w2'.
  repeat (split; [assumption |]).
  assert (Hmaps : forall k, urls w2 !! k = urls w2' !! k /\
                            clicks w2 !! k = clicks w2' !! k).
  { intros k.
    pose proof (cleanup_lookup (set_clock t1 w) k) as (_ & Hu1 & Hc1).
    pose proof (cleanup_lookup (set_clock t2 w1) k) as (_ & Hu2 & Hc2).
    pose proof (cleanup_lookup (set_clock t2 w) k) as (_ & Hu & Hc).
    unfold world_after in *. rewrite Hrun1 in *. rewrite Hrun2 in *.
    rewrite Hrun in *. cbn [snd set_clock urls clicks clock] in *.
    rewrite Hu2, Hc2, Hu, Hc, Hu1, Hc1.
    destruct (urls w !! k) as [r|]; [| split; reflexivity].
    destruct (decide (expired t1 r)) as [He1|He1],
             (decide (expired t2 r)) as [He2|He2];
      try (split; reflexivity);
      try (rewrite decide_True by assumption);
      try (rewrite decide_False by assumption);
      try (split; reflexivity).
    unfold expired in *. lia. }
  assert (Hu : urls w2 = urls w2') by (apply map_eq; intros k; apply Hmaps).
  split; [exact Hu |].
  split; [apply map_eq; intros k; apply Hmaps |].
  cbn [set_clock urls] in *. rewrite Hu in Hsize2. lia.
Qed.

End MoreProperties.

(** * Properties of the helpers and of the routes *)

(** ** Trimming *)

Lemma trim_start_split (s : string) :
  exists pre, s = pre +:+ trim_start s /\ all_space pre = true.
Proof.
  induction s as [|c s (pre & Hs & Hpre)]; [exists ""; split; reflexivity |].
  cbn [trim_start]. destruct (is_space c) eqn:Hc.
  - exists (String c pre). split.
    + change (String c s = String c (pre +:+ trim_start s)). now f_equal.
    + cbn [all_space]. now rewrite Hc, Hpre.
  - exists "". split; reflexivity.
Qed.

Lemma trim_end_split (s : string) :
  exists post, s = trim_end s +:+ post /\ all_space post = true.
Proof.
  induction s as [|c s (post & Hs & Hpost)]; [exists ""; split; reflexivity |].
  cbn [trim_end]. destruct (is_space c && String.eqb (trim_end s) "") eqn:Hc.
  - apply andb_prop in Hc as [Hc He]. apply String.eqb_eq in He.
    rewrite He in Hs. change (s = post) in Hs. subst post.
    exists (String c s). split; [reflexivity |].
    cbn [all_space]. now rewrite Hc, Hpost.
  - exists post. split; [| exact Hpost].
    change (String c s = String c (trim_end s +:+ post)). now f_equal.
Qed.

Lemma trim_start_clean (s : string) : clean_start (trim_start s).
Proof.
  induction s as [|c s IH]; [exact I |].
  cbn [trim_start]. destruct (is_space c) eqn:Hc; [exact IH | exact Hc].
Qed.

Lemma trim_end_clean (s : string) : clean_end (trim_end s).
Proof.
  induction s as [|c s IH]; [exact I |].
  cbn [trim_end]. destruct (is_space c) eqn:Hc; cbn [andb].
  - destruct (String.eqb_spec (trim_end s) "") as [He|Hne]; [exact I |].
    cbn [clean_end]. destruct (trim_end s); [contradiction | exact IH].
  - cbn [clean_end]. destruct (trim_end s); [exact Hc | exact IH].
Qed.

Lemma trim_end_keeps_start (s : string) :
  clean_start s -> clean_start (trim_end s).
Proof.
  destruct s as [|c s]; [trivial |]. cbn [clean_start trim_end].
  intros Hc. rewrite Hc. cbn [andb clean_start]. exact Hc.
Qed.

Lemma trim_start_id (s : string) : clean_start s -> trim_start s = s.
Proof. destruct s as [|c s]; [reflexivity |]. cbn. now intros ->. Qed.

Lemma trim_end_id (s : string) : clean_end s -> trim_end s = s.
Proof.
  induction s as [|c s IH]; [reflexivity |].
  cbn [clean_end trim_end]. destruct s as [|d s].
  - intros ->. reflexivity.
  - intros H. rewrite (IH H).
    replace (String.eqb (String d s) "") with false by reflexivity.
    now rewrite andb_false_r.
Qed.

Lemma trim_id (s : string) : clean_start s -> clean_end s -> trim s = s.
Proof.
  intros Hs He. unfold trim. rewrite (trim_start_id s Hs). now apply trim_end_id.
Qed.

Lemma alnum_not_space (c : ascii) : is_alnum c = true -> is_space c = false.
Proof.
  unfold is_alnum, is_space. cbv zeta. generalize (nat_of_ascii c). intros n.
  rewrite !orb_true_iff, !andb_true_iff, !Nat.leb_le.
  intros H. apply not_true_is_false.
  rewrite !orb_true_iff, !andb_true_iff, !Nat.leb_le, !Nat.eqb_eq. lia.
Qed.

Lemma all_alnum_clean (s : string) :
  all_alnum s = true -> clean_start s /\ clean_end s.
Proof.
  induction s as [|c s IH]; [split; exact I |].
  cbn [all_alnum]. intros [Hc Hs]%andb_prop.
  apply alnum_not_space in Hc. split; [exact Hc |].
  cbn [clean_end]. destruct s; [exact Hc | now apply IH].
Qed.

Lemma valid_shortcode_trimmed (s : string) :
  isValidShortcode (JStr s) = true -> trim s = s /\ s <> "".
Proof.
  intros H. unfold isValidShortcode in H. cbn [truthy is_string] in H.
  destruct (String.eqb_spec s "") as [He|Hne];
    [cbn [negb orb] in H; discriminate |].
  cbn [negb orb] in H.
  destruct ((String.length s <? 3)%nat || (20 <? String.length s)%nat);
    [discriminate |].
  unfold regex_alnum_plus in H. apply andb_prop in H as [_ Hal].
  destruct (all_alnum_clean s Hal). split; [now apply trim_id | exact Hne].
Qed.

Lemma trim_start_empty (s : string) :
  trim_start s = "" <-> all_space s = true.
Proof.
  induction s as [|c s IH]; [split; reflexivity |].
  cbn [trim_start all_space]. destruct (is_space c); cbn [andb]; [exact IH |].
  split; discriminate.
Qed.

Lemma trim_end_empty (s : string) :
  clean_start s -> trim_end s = "" -> s = "".
Proof.
  destruct s as [|c s]; [reflexivity |]. cbn [clean_start trim_end].
  intros Hc. rewrite Hc. cbn [andb]. discriminate.
Qed.

(** X11.  [sanitizeInput] returns what is not a string unchanged.  Of a
    string it removes white space at both ends and nothing else: the
    string is white space, then the result, then white space, and the
    result neither starts nor ends with white space.  It is idempotent, it
    returns the empty string exactly for strings of white space only, and
    it leaves every string in shortcode format as it is. *)
Theorem sanitizeInput_trims (v : jsval) :
  (is_string v = false -> sanitizeInput v = v) /\
  (forall s, v = JStr s ->
     exists pre post,
       sanitizeInput v = JStr (trim s) /\
       s = pre +:+ trim s +:+ post /\
       all_space pre = true /\ all_space post = true /\
       clean_start (trim s) /\ clean_end (trim s) /\
       (trim s = "" <-> all_space s = true)) /\
  sanitizeInput (sanitizeInput v) = sanitizeInput v /\
  (isValidShortcode v = true -> sanitizeInput v = v).
Proof.
  split; [| split; [| split]].
  - intros H. unfold sanitizeInput. now rewrite H.
  - intros s ->. destruct (trim_start_split s) as (pre & Hpre & Hsp).
    destruct (trim_end_split (trim_start s)) as (post & Hpost & Hsq).
    exists pre, post. split; [reflexivity |].
    split.
    { rewrite Hpre at 1. f_equal. exact Hpost. }
    split; [exact Hsp |]. split; [exact Hsq |].
    split; [apply trim_end_keeps_start, trim_start_clean |].
    split; [apply trim_end_clean |].
    rewrite <- trim_start_empty. unfold trim. split.
    + apply trim_end_empty, trim_start_clean.
    + intros ->. reflexivity.
  - destruct v; try reflexivity. cbn [sanitizeInput is_string negb].
    f_equal. apply trim_id.
    + apply trim_end_keeps_start, trim_start_clean.
    + apply trim_end_clean.
  - intros H. destruct (isValidShortcode_string _ H) as (s & -> & _).
    cbn [sanitizeInput is_string negb]. f_equal.
    now apply valid_shortcode_trimmed.
Qed.

(** ** Validity *)

(** X12.  The validity that [POST /shorturls] passes on is the one of the
    body, or 30 when that is missing or falsy (so 0 becomes 30); it is
    accepted by [isValidValidity] exactly when the body's validity is falsy
    or an integer from 1 to 525600, and then the minutes handed to
    [createShortURL] are in that range. *)
Theorem validity_accepted (validity : jsval) :
  let validityMinutes := js_or validity (JNum 30) in
  (isValidValidity validityMinutes = true <->
   truthy validity = false \/
   exists n, validity = JNum n /\ (1 <= n <= 525600)%Z) /\
  (truthy validity = false -> minutes_of validityMinutes = 30%Z) /\
  (isValidValidity validityMinutes = true ->
   (1 <= minutes_of validityMinutes <= 525600)%Z).
Proof.
  cbv zeta. unfold js_or.
  destruct validity as [| |b|n|s|]; cbn [truthy].
  - split; [split; [now left | reflexivity] |]. split; [reflexivity |]. cbn. lia.
  - split; [split; [now left | reflexivity] |]. split; [reflexivity |]. cbn. lia.
  - destruct b; cbn.
    + split; [| split; [discriminate | discriminate]].
      split; [discriminate | intros [? | (n & ? & _)]; discriminate].
    + split; [split; [now left | reflexivity] |]. split; [reflexivity | lia].
  - destruct (n =? 0)%Z eqn:Hn; cbn [negb].
    + split; [split; [now left | reflexivity] |]. split; [reflexivity |]. cbn. lia.
    + apply Z.eqb_neq in Hn. cbn [isValidValidity Number_isInteger andb minutes_of].
      rewrite andb_true_iff, Z.gtb_ltb, Z.ltb_lt, Z.leb_le.
      split; [| split; [discriminate | lia]].
      split.
      * intros H. right. exists n. split; [reflexivity | lia].
      * intros [? | (m & [= <-] & H)]; [discriminate | lia].
  - destruct (String.eqb_spec s "") as [->|Hne]; cbn [negb].
    + split; [split; [now left | reflexivity] |]. split; [reflexivity |]. cbn. lia.
    + cbn. split; [| split; [discriminate | discriminate]].
      split; [discriminate | intros [? | (n & ? & _)]; discriminate].
  - cbn. split; [| split; [discriminate | discriminate]].
    split; [discriminate | intros [? | (n & ? & _)]; discriminate].
Qed.

Section RouteProperties.

Variable rnd : nat -> nat.
Variable uid : nat -> string.
Variable lookup : string -> geoResult.

(** ** Client address and location *)

Lemma or_else_falsy (a b : option string) :
  or_else a None = None -> or_else a b = b.
Proof.
  unfold or_else. destruct a as [s|]; [| reflexivity].
  destruct (String.eqb s ""); [reflexivity | discriminate].
Qed.

Lemma or_else_truthy (a b : option string) (s : string) :
  a = Some s -> s <> "" -> or_else a b = Some s.
Proof.
  intros -> Hs. unfold or_else.
  destruct (String.eqb_spec s ""); [contradiction | reflexivity].
Qed.

(** X13.  [getRealIP] never returns an empty address.  A non-empty
    [X-Forwarded-For] header decides it, whatever the connection says; the
    address of the connection counts only when both forwarding headers are
    missing or empty; with no source at all the address is 127.0.0.1. *)
Theorem getRealIP_precedence (req : Request) :
  getRealIP req <> "" /\
  (forall s, hdr_x_forwarded_for req = Some s -> s <> "" ->
     getRealIP req = s) /\
  (forall s, or_else (hdr_x_forwarded_for req) None = None ->
     hdr_x_real_ip req = Some s -> s <> "" -> getRealIP req = s) /\
  (forall s, or_else (hdr_x_forwarded_for req) None = None ->
     or_else (hdr_x_real_ip req) None = None ->
     connection_remoteAddress req = Some s -> s <> "" -> getRealIP req = s) /\
  (or_else (hdr_x_forwarded_for req) None = None ->
   or_else (hdr_x_real_ip req) None = None ->
   or_else (connection_remoteAddress req) None = None ->
   or_else (socket_remoteAddress req) None = None ->
   or_else (match connection_socket req with
            | Some socket => socket
            | None => None
            end) None = None ->
   or_else (req_ip req) None = None ->
   getRealIP req = "127.0.0.1").
Proof using Type.
  unfold getRealIP. split; [apply or_default_nonempty; discriminate |].
  split; [| split; [| split]].
  - intros s Hs Hne.
    rewrite (or_else_truthy _ (hdr_x_real_ip req) s Hs Hne).
    rewrite !(or_else_truthy (Some s) _ s eq_refl Hne).
    cbn [or_default]. destruct (String.eqb_spec s ""); [contradiction | reflexivity].
  - intros s H1 Hs Hne. rewrite (or_else_falsy _ _ H1).
    rewrite (or_else_truthy _ (connection_remoteAddress req) s Hs Hne).
    rewrite !(or_else_truthy (Some s) _ s eq_refl Hne).
    cbn [or_default]. destruct (String.eqb_spec s ""); [contradiction | reflexivity].
  - intros s H1 H2 Hs Hne. rewrite (or_else_falsy _ _ H1), (or_else_falsy _ _ H2).
    rewrite (or_else_truthy _ (socket_remoteAddress req) s Hs Hne).
    rewrite !(or_else_truthy (Some s) _ s eq_refl Hne).
    cbn [or_default]. destruct (String.eqb_spec s ""); [contradiction | reflexivity].
  - intros H1 H2 H3 H4 H5 H6.
    rewrite (or_else_falsy _ _ H1), (or_else_falsy _ _ H2),
      (or_else_falsy _ _ H3), (or_else_falsy _ _ H4), (or_else_falsy _ _ H5).
    unfold or_else in H6. unfold or_default.
    destruct (req_ip req) as [s|]; [| reflexivity].
    destruct (String.eqb s ""); [reflexivity | discriminate].
Qed.

Lemma string_app_nonempty (a b : string) : a <> "" -> a +:+ b <> "".
Proof. destruct a; [contradiction | discriminate]. Qed.

Lemma getLocationFromIP_run (ip : string) (w : World) :
  exists loc w',
    getLocationFromIP lookup ip w = (Normal loc, w') /\
    loc <> "" /\
    urls w' = urls w /\ clicks w' = clicks w /\ clock w' = clock w /\
    uuid_calls w' = uuid_calls w.
Proof.
  unfold getLocationFromIP.
  destruct (String.eqb ip "" || String.eqb ip "127.0.0.1" || String.eqb ip "::1"
            || startsWith ip "192.168." || startsWith ip "10."
            || startsWith ip "172.").
  { eexists _, w. split; [reflexivity |]. split; [discriminate |]. repeat split. }
  destruct (lookup ip) as [| |city region country].
  - eexists _, _. split; [reflexivity |]. split; [discriminate |]. repeat split.
  - eexists _, w. split; [reflexivity |]. split; [discriminate |]. repeat split.
  - eexists _, w. split; [reflexivity |].
    split; [| repeat split].
    apply string_app_nonempty, or_default_nonempty. discriminate.
Qed.

(** X14.  [getLocationFromIP] always returns a non-empty location and
    leaves the registry alone, whatever the geolocation database does.
    For an empty address, 127.0.0.1, ::1 and every address that starts
    with "192.168.", "10." or "172." it answers "Local/Private Network"
    without consulting the database; when the database throws, or finds
    nothing, the answer is "Unknown Location". *)
Theorem getLocationFromIP_total (ip : string) (w : World) :
  exists loc w',
    getLocationFromIP lookup ip w = (Normal loc, w') /\
    loc <> "" /\
    urls w' = urls w /\ clicks w' = clicks w /\
    (String.eqb ip "" || String.eqb ip "127.0.0.1" || String.eqb ip "::1"
     || startsWith ip "192.168." || startsWith ip "10."
     || startsWith ip "172." = true ->
     loc = "Local/Private Network" /\ w' = w) /\
    (String.eqb ip "" || String.eqb ip "127.0.0.1" || String.eqb ip "::1"
     || startsWith ip "192.168." || startsWith ip "10."
     || startsWith ip "172." = false ->
     match lookup ip with
     | GeoFound city region country =>
         loc = or_default city "Unknown City" +:+ ", "
               +:+ or_default region "Unknown Region" +:+ ", "
               +:+ or_default country "Unknown Country"
     | _ => loc = "Unknown Location"
     end).
Proof.
  destruct (getLocationFromIP_run ip w) as (loc & w' & Hrun & Hne & Hu & Hc & _).
  exists loc, w'. repeat (split; [assumption |]).
  revert Hrun. unfold getLocationFromIP.
  destruct (String.eqb ip "" || String.eqb ip "127.0.0.1" || String.eqb ip "::1"
            || startsWith ip "192.168." || startsWith ip "10."
            || startsWith ip "172.").
  - intros [= <- <-]. split; [split; reflexivity | discriminate].
  - intros Hrun. split; [discriminate |]. intros _.
    destruct (lookup ip); injection Hrun as <- _; reflexivity.
Qed.

(** ** The handlers, case by case *)

Lemma post_shorturls_eq (req : Request) (w : World) :
  post_shorturls rnd uid req w =
  let w0 := logged LInfo "Create short URL request received" w in
  let cleanShortcode :=
    if truthy (body_shortcode req) then sanitizeInput (body_shortcode req)
    else JNull in
  let validityMinutes := js_or (body_validity req) (JNum 30) in
  if negb (isValidValidity validityMinutes) then
    (Normal {| res_status := 400;
               res_body := BodyError
                 "Validity must be a positive integer representing minutes (max 525600)."
                 400 (clock w) |},
     logged LWarn "Invalid validity period" w0)
  else
    match createShortURL rnd uid (trim (body_url req))
            (minutes_of validityMinutes) cleanShortcode w0 with
    | (Normal r, w1) =>
        (Normal {| res_status := 201;
                   res_body := BodyCreated
                     ((req_protocol req +:+ "://" +:+ template (req_host req))
                      +:+ "/" +:+ shortcode r)
                     (expiresAt r) |},
         logged LInfo "Short URL created successfully" w1)
    | (Thrown e, w1) =>
        (Normal
           (if includes (message e) "shortcode"
            then {| res_status := 409;
                    res_body := BodyError (message e) 400 (clock w1) |}
            else {| res_status := 500;
                    res_body := BodyError
                      "Internal server error while creating short URL"
                      400 (clock w1) |}),
         logged LError "Error creating short URL" w1)
    | (OutOfFuel, w1) => (OutOfFuel, w1)
    end.
Proof.
  cbv zeta. unfold post_shorturls, try_catch.
  unfold bind at 1. unfold logger at 1. cbv beta iota.
  fold (logged LInfo "Create short URL request received" w).
  destruct (isValidValidity (js_or (body_validity req) (JNum 30))); cbn [negb].
  - unfold bind at 1.
    destruct (createShortURL rnd uid _ _ _ _) as [[r|e|] w1]; cbv beta iota.
    + reflexivity.
    + unfold bind, logger, formatErrorResponse, Date_now, ret. cbv beta iota.
      destruct (includes (message e) "shortcode"); reflexivity.
    + reflexivity.
  - reflexivity.
Qed.

Lemma get_redirect_eq (req : Request) (w : World) :
  get_redirect uid lookup req w =
  let code := trim (param_shortcode req) in
  let w0 := logged LInfo "Redirect request received" w in
  if String.eqb code "" then
    (Normal {| res_status := 400;
               res_body := BodyError "Invalid shortcode" 400 (clock w) |},
     logged LWarn "Empty shortcode in redirect request" w0)
  else
    match getURLData code w0 with
    | (Normal None, w1) =>
        (Normal {| res_status := 404;
                   res_body := BodyError "Short URL not found or has expired"
                                 400 (clock w1) |},
         logged LWarn "Redirect attempted for non-existent or expired URL" w1)
    | (Normal (Some r), w1) =>
        match getLocationFromIP lookup (getRealIP req) w1 with
        | (Normal loc, w2) =>
            (Normal {| res_status := 302;
                       res_body := BodyRedirect (originalUrl r) |},
             logged LInfo "Redirecting to original URL"
               (clicked uid w2 code
                  {| cd_ip := Some (getRealIP req);
                     cd_userAgent := req_user_agent req;
                     cd_referrer := or_else (req_referrer req) (req_referer req);
                     cd_location := Some loc |}))
        | (Thrown e, w2) =>
            (Normal {| res_status := 500;
                       res_body := BodyError
                         "Internal server error during redirect" 400 (clock w2) |},
             logged LError "Error during redirect" w2)
        | (OutOfFuel, w2) => (OutOfFuel, w2)
        end
    | (Thrown e, w1) =>
        (Normal {| res_status := 500;
                   res_body := BodyError
                     "Internal server error during redirect" 400 (clock w1) |},
         logged LError "Error during redirect" w1)
    | (OutOfFuel, w1) => (OutOfFuel, w1)
    end.
Proof.
  cbv zeta. unfold get_redirect, try_catch.
  unfold bind at 1. unfold logger at 1. cbv beta iota.
  fold (logged LInfo "Redirect request received" w).
  destruct (String.eqb (trim (param_shortcode req)) ""); [reflexivity |].
  unfold bind at 1.
  destruct (getURLData _ _) as [[[r|]|e|] w1]; cbv beta iota;
    try reflexivity.
  unfold bind at 1.
  destruct (getLocationFromIP _ _ _) as [[loc|e|] w2]; cbv beta iota;
    reflexivity.
Qed.

Lemma get_statistics_eq (req : Request) (w : World) :
  get_statistics req w =
  let code := trim (param_shortcode req) in
  let w0 := logged LInfo "Statistics request received" w in
  if String.eqb code "" then
    (Normal {| res_status := 400;
               res_body := BodyError "Shortcode is required" 400 (clock w) |},
     logged LWarn "Empty shortcode in statistics request" w0)
  else
    match urls w !! code with
    | None =>
        (Normal {| res_status := 404;
                   res_body := BodyError "Short URL not found or has expired"
                                 400 (clock w) |},
         logged LWarn "Statistics requested for non-existent shortcode"
           (logged LWarn "Statistics requested for non-existent URL" w0))
    | Some r =>
        (Normal {| res_status := 200;
                   res_body := BodyStatistics (stats_of w code r) |},
         logged LInfo "Statistics retrieved successfully"
           (logged LInfo "Statistics retrieved" w0))
    end.
Proof using Type.
  cbv zeta. unfold get_statistics, try_catch.
  unfold bind at 1. unfold logger at 1. cbv beta iota.
  fold (logged LInfo "Statistics request received" w).
  destruct (String.eqb (trim (param_shortcode req)) ""); [reflexivity |].
  unfold bind at 1. rewrite getStatistics_eq. cbn [logged urls].
  destruct (urls w !! trim (param_shortcode req)); reflexivity.
Qed.

Lemma get_all_urls_eq (req : Request) (w : World) :
  get_all_urls req w =
  (Normal {| res_status := 200;
             res_body := BodySuccess (summary_of w <$> map_to_list (urls w))
                           "All URLs retrieved successfully" (clock w) |},
   logged LInfo "All URLs retrieved successfully"
     (logged LInfo "All URLs retrieved"
        (logged LInfo "All URLs request received" w))).
Proof using Type.
  unfold get_all_urls, try_catch.
  unfold bind at 1. unfold logger at 1. cbv beta iota.
  fold (logged LInfo "All URLs request received" w).
  unfold bind at 1. rewrite getAllURLs_eq. reflexivity.
Qed.

Lemma minutes_in_range (validity : jsval) :
  isValidValidity (js_or validity (JNum 30)) = true ->
  (1 <= minutes_of (js_or validity (JNum 30)) <= 525600)%Z.
Proof using Type.
  unfold js_or. destruct validity as [| |b|n|s|]; cbn [truthy].
  - cbn. lia.
  - cbn. lia.
  - destruct b; cbn; [discriminate | lia].
  - destruct (n =? 0)%Z; cbn [negb]; [cbn; lia |].
    cbn [isValidValidity Number_isInteger andb minutes_of].
    rewrite andb_true_iff, Z.gtb_ltb, Z.ltb_lt, Z.leb_le. lia.
  - destruct (String.eqb s ""); cbn; [lia | discriminate].
  - cbn. discriminate.
Qed.

Lemma includes_shortcode (e : Error) :
  includes (message e) "shortcode" =
  match e with
  | InvalidShortcodeFormat => true
  | ShortcodeAlreadyExists => false
  end.
Proof using Type. destruct e; vm_compute; reflexivity. Qed.

(** ** Creating through the route *)

(** X15.  [POST /shorturls] always answers, with 400, 409, 500 or 201.  It
    answers 400 exactly when the validity (30 when missing or falsy) is
    rejected.  Otherwise, with the shortcode trimmed: 409 exactly when it
    is truthy and not in shortcode format; 500 exactly when it is in
    shortcode format and already a key of the URL map (the message of that
    error does not contain "shortcode" in lower case); 201 in the remaining
    cases, which include an empty or white-space shortcode.  Every error
    body carries the status code 400, and every answer but 201 leaves both
    maps unchanged. *)
Theorem post_shorturls_status (req : Request) (w : World) :
  let cleanShortcode :=
    if truthy (body_shortcode req) then sanitizeInput (body_shortcode req)
    else JNull in
  let validityMinutes := js_or (body_validity req) (JNum 30) in
  exists resp w',
    post_shorturls rnd uid req w = (Normal resp, w') /\
    (res_status resp = 400 <-> isValidValidity validityMinutes = false) /\
    (res_status resp = 409 <->
       isValidValidity validityMinutes = true /\
       truthy cleanShortcode = true /\ ~ shortcode_format cleanShortcode) /\
    (res_status resp = 500 <->
       isValidValidity validityMinutes = true /\
       exists s, cleanShortcode = JStr s /\ shortcode_format cleanShortcode /\
         is_Some (urls w !! s)) /\
    (res_status resp = 201 <->
       isValidValidity validityMinutes = true /\
       (truthy cleanShortcode = false \/
        exists s, cleanShortcode = JStr s /\ shortcode_format cleanShortcode /\
          urls w !! s = None)) /\
    (forall m c t, res_body resp = BodyError m c t -> c = 400%nat) /\
    (res_status resp <> 201 -> urls w' = urls w /\ clicks w' = clicks w).
Proof.
  cbv zeta. rewrite post_shorturls_eq. cbv zeta.
  set (sc := if truthy (body_shortcode req)
             then sanitizeInput (body_shortcode req) else JNull).
  set (w0 := logged LInfo "Create short URL request received" w).
  destruct (isValidValidity (js_or (body_validity req) (JNum 30))); cbn [negb].
  2:{ eexists _, _. split; [reflexivity |]. cbn [res_status res_body].
      repeat split; try discriminate; try (intros []; discriminate);
        try (intros m c t [= _ <- _]; reflexivity). }
  destruct (createShortURL_cases rnd uid (trim (body_url req))
              (minutes_of (js_or (body_validity req) (JNum 30))) sc w0)
    as [(Ht & Hv & ->) | [(s & Hsc & Hv & Hs & ->) | (s & w1 & -> & Hsame & Hv & Hor)]].
  - rewrite includes_shortcode. eexists _, _. split; [reflexivity |].
    cbn [res_status res_body logged urls clicks].
    assert (Hnf : ~ shortcode_format sc)
      by (rewrite <- isValidShortcode_spec; congruence).
    split; [split; discriminate |].
    split; [split; [intros _; repeat split; assumption | reflexivity] |].
    split; [split; [discriminate | intros (_ & s & _ & Hf & _); contradiction] |].
    split.
    { split; [discriminate |].
      intros (_ & [Hf | (s & _ & Hf & _)]); [congruence | contradiction]. }
    split; [intros m c t [= _ <- _]; reflexivity |].
    intros _. split; reflexivity.
  - rewrite includes_shortcode. eexists _, _. split; [reflexivity |].
    cbn [res_status res_body logged urls clicks].
    assert (Hf : shortcode_format sc) by now apply isValidShortcode_spec.
    cbn [w0 logged urls] in Hs.
    split; [split; discriminate |].
    split; [split; [discriminate | intros (_ & _ & Hnf); contradiction] |].
    split; [split; [intros _; split; [reflexivity | eauto] | reflexivity] |].
    split.
    { split; [discriminate |].
      intros (_ & [Hfalse | (s' & Hs' & _ & Hnone)]).
      - apply isValidShortcode_string in Hv as (? & _ & Ht). congruence.
      - rewrite Hsc in Hs'. injection Hs' as <-. rewrite Hnone in Hs.
        destruct Hs as [? ?]. discriminate. }
    split; [intros m c t [= _ <- _]; reflexivity |].
    intros _. split; reflexivity.
  - eexists _, _. split; [reflexivity |].
    cbn [res_status res_body].
    split; [split; discriminate |].
    split.
    { split; [discriminate |]. intros (_ & Ht & Hnf). exfalso.
      destruct Hor as [(Hsc & _ & _) | (Hfalse & _)]; [| congruence].
      apply Hnf. rewrite Hsc. now apply isValidShortcode_spec. }
    split.
    { split; [discriminate |]. intros (_ & s' & Hs' & Hf & Hsome). exfalso.
      destruct Hor as [(Hsc & _ & Hnone) | (Hfalse & _)].
      - rewrite Hsc in Hs'. injection Hs' as <-. cbn [w0 logged urls] in Hnone.
        rewrite Hnone in Hsome. destruct Hsome as [? ?]. discriminate.
      - apply isValidShortcode_spec, isValidShortcode_string in Hf
          as (? & _ & Ht). congruence. }
    split.
    { split; [| reflexivity]. intros _. split; [reflexivity |].
      destruct Hor as [(Hsc & _ & Hnone) | (Hfalse & _)]; [right | now left].
      exists s. split; [exact Hsc |]. split; [| exact Hnone].
      rewrite Hsc. now apply isValidShortcode_spec. }
    split; [discriminate |]. intros H. contradiction.
Qed.

Lemma post_shorturls_201 (req : Request) (w : World) (resp : Response)
    (w' : World) :
  post_shorturls rnd uid req w = (Normal resp, w') ->
  res_status resp = 201%nat ->
  exists s w1,
    isValidValidity (js_or (body_validity req) (JNum 30)) = true /\
    same_store w w1 /\ isValidShortcode (JStr s) = true /\
    resp = {| res_status := 201;
              res_body := BodyCreated
                ((req_protocol req +:+ "://" +:+ template (req_host req))
                 +:+ "/" +:+ s)
                (clock w + minutes_of (js_or (body_validity req) (JNum 30))
                           * 60 * 1000)%Z |} /\
    w' = logged LInfo "Short URL created successfully"
           (filed uid w1 (trim (body_url req))
              (minutes_of (js_or (body_validity req) (JNum 30))) s) /\
    (forall c, truthy (body_shortcode req) = true ->
       sanitizeInput (body_shortcode req) = JStr c -> c <> "" -> s = c).
Proof.
  rewrite post_shorturls_eq. cbv zeta.
  set (sc := if truthy (body_shortcode req)
             then sanitizeInput (body_shortcode req) else JNull).
  set (w0 := logged LInfo "Create short URL request received" w).
  destruct (isValidValidity (js_or (body_validity req) (JNum 30))); cbn [negb];
    [| intros [= <- _]; discriminate].
  destruct (createShortURL_cases rnd uid (trim (body_url req))
              (minutes_of (js_or (body_validity req) (JNum 30))) sc w0)
    as [(_ & _ & ->) | [(s & _ & _ & _ & ->) | (s & w1 & -> & Hsame & Hv & Hor)]].
  - rewrite includes_shortcode. intros [= <- _]. discriminate.
  - rewrite includes_shortcode. intros [= <- _]. discriminate.
  - intros [= <- <-] _. exists s, w1. destruct Hsame as (Hu & Hc & Ht).
    split; [reflexivity |]. split; [repeat split; assumption |].
    split; [exact Hv |].
    cbn [new_record shortcode expiresAt]. rewrite Ht. cbn [w0 logged clock].
    split; [reflexivity |]. split; [reflexivity |].
    intros c Htr Hc' Hne. subst sc. rewrite Htr, Hc' in Hor.
    destruct Hor as [([= <-] & _) | (Hf & _)]; [reflexivity |].
    cbn [truthy] in Hf. destruct (String.eqb_spec c ""); [contradiction | discriminate].
Qed.

(** X16.  When [POST /shorturls] answers 201, a record has been filed and
    nothing else changed: under the shortcode that ends the short link, with
    the trimmed url as its [originalUrl], created now and expiring, as the
    body says, after the validity of the request (30 minutes by default,
    between 1 and 525600); its click list is empty.  A custom shortcode is
    used as trimmed. *)
Theorem post_shorturls_created (req : Request) (w : World) (resp : Response)
    (w' : World) :
  post_shorturls rnd uid req w = (Normal resp, w') ->
  res_status resp = 201%nat ->
  exists r,
    res_body resp =
      BodyCreated
        ((req_protocol req +:+ "://" +:+ template (req_host req))
         +:+ "/" +:+ shortcode r)
        (expiresAt r) /\
    urls w' = <[shortcode r := r]> (urls w) /\
    clicks w' = <[shortcode r := []]> (clicks w) /\
    originalUrl r = trim (body_url req) /\
    createdAt r = clock w /\
    expiresAt r = (clock w + validityMinutes r * 60 * 1000)%Z /\
    (1 <= validityMinutes r <= 525600)%Z /\
    (truthy (body_validity req) = false -> validityMinutes r = 30%Z) /\
    (forall n, body_validity req = JNum n -> n <> 0%Z -> validityMinutes r = n) /\
    shortcode_format (JStr (shortcode r)) /\
    (forall c, body_shortcode req = JStr c -> trim c <> "" ->
       shortcode r = trim c).
Proof.
  intros Hrun H201.
  destruct (post_shorturls_201 req w resp w' Hrun H201)
    as (s & w1 & Hvalid & (Hu & Hc & Ht) & Hs & -> & -> & Hcustom).
  exists (new_record uid w1 (trim (body_url req))
            (minutes_of (js_or (body_validity req) (JNum 30))) s).
  cbn [res_body new_record shortcode expiresAt originalUrl createdAt
       validityMinutes logged filed urls clicks].
  rewrite Hu, Hc, Ht.
  repeat (split; [reflexivity |]).
  split; [now apply minutes_in_range |].
  split; [intros Hf; unfold js_or; now rewrite Hf |].
  split.
  { intros n Hn Hn0. unfold js_or. rewrite Hn. cbn [truthy].
    apply Z.eqb_neq in Hn0. now rewrite Hn0. }
  split; [now apply isValidShortcode_spec |].
  intros c Hc' Hne. apply Hcustom.
  - rewrite Hc'. cbn [truthy]. destruct (String.eqb_spec c "") as [->|]; [| reflexivity].
    contradiction Hne. reflexivity.
  - now rewrite Hc'.
  - exact Hne.
Qed.

(** ** Redirecting *)

(** X17.  [GET /:shortcode] always answers, with 400, 404 or 302, and
    never changes the URL map.  It answers 400 exactly when the parameter
    is white space only, and 404 exactly when the trimmed parameter has no
    live record (none, or an expired one); then the click map is unchanged
    too.  For a live record it answers 302 with the record's [originalUrl]
    and appends exactly one click to the shortcode's list: stamped now,
    with the address of [getRealIP], the request's user agent and a
    non-empty location. *)
Theorem get_redirect_spec (req : Request) (w : World) :
  let code := trim (param_shortcode req) in
  exists resp w',
    get_redirect uid lookup req w = (Normal resp, w') /\
    urls w' = urls w /\
    (res_status resp = 400 \/ res_status resp = 404 \/ res_status resp = 302)%nat /\
    (res_status resp = 400%nat <-> code = "") /\
    (res_status resp = 302%nat <->
       code <> "" /\ exists r, urls w !! code = Some r /\ live (clock w) r) /\
    (res_status resp <> 302%nat -> clicks w' = clicks w) /\
    (forall r, code <> "" -> urls w !! code = Some r -> live (clock w) r ->
       res_body resp = BodyRedirect (originalUrl r) /\
       exists c,
         clicks w' = <[code := (clicks_of w code ++ [c])%list]> (clicks w) /\
         timestamp c = clock w /\
         ip c = Some (getRealIP req) /\
         userAgent c = req_user_agent req /\
         referrer c <> "" /\ location c <> "").
Proof.
  cbv zeta. rewrite get_redirect_eq. cbv zeta.
  set (code := trim (param_shortcode req)).
  set (w0 := logged LInfo "Redirect request received" w).
  destruct (String.eqb_spec code "") as [He|Hne].
  { eexists _, _. split; [reflexivity |]. cbn [res_status res_body logged urls clicks].
    split; [reflexivity |]. split; [now left |].
    split; [split; [intros _; exact He | reflexivity] |].
    split; [split; [discriminate | intros [Hc _]; contradiction] |].
    split; [reflexivity |]. intros r Hc. contradiction. }
  rewrite getURLData_eq. cbn [w0 logged urls clock].
  destruct (urls w !! code) as [r0|] eqn:Hk.
  2:{ eexists _, _. split; [reflexivity |].
      cbn [res_status res_body logged urls clicks].
      split; [reflexivity |]. split; [right; now left |].
      split; [split; [discriminate | intros; contradiction] |].
      split; [split; [discriminate | intros (_ & r & Hr & _); discriminate] |].
      split; [reflexivity |]. intros r _ Hr. discriminate. }
  destruct (clock w >? expiresAt r0)%Z eqn:Hexp.
  { apply gtb_expired in Hexp.
    eexists _, _. split; [reflexivity |].
    cbn [res_status res_body logged urls clicks].
    split; [reflexivity |]. split; [right; now left |].
    split; [split; [discriminate | intros; contradiction] |].
    split.
    { split; [discriminate |]. intros (_ & r & [= <-] & Hl).
      unfold live, expired in *. lia. }
    split; [reflexivity |]. intros r _ [= <-] Hl.
    unfold live, expired in *. lia. }
  apply gtb_live in Hexp.
  destruct (getLocationFromIP_run (getRealIP req) w0)
    as (loc & w2 & Hloc & Hlne & Hu & Hc & Ht & _).
  fold w0. rewrite Hloc.
  eexists _, _. split; [reflexivity |].
  cbn [res_status res_body logged clicked urls clicks].
  split; [exact Hu |]. split; [right; now right |].
  split; [split; [discriminate | intros; contradiction] |].
  split; [split; [intros _; split; [exact Hne | eauto] | reflexivity] |].
  split; [intros H; contradiction |].
  intros r _ [= <-] _. split; [reflexivity |].
  eexists. unfold clicks_of. rewrite Hc. cbn [w0 logged clicks].
  split; [reflexivity |].
  cbn [new_click timestamp ip userAgent referrer location cd_ip cd_userAgent
       cd_referrer cd_location].
  split; [exact Ht |]. split; [reflexivity |]. split; [reflexivity |].
  split; apply or_default_nonempty; discriminate.
Qed.

(** X18.  A shortcode just created through [POST /shorturls] redirects:
    [GET /:shortcode] for the shortcode of a 201 answer (white space around
    it is ignored), with the clock unchanged, answers 302 with the trimmed
    url of the request, and the shortcode then has exactly one click. *)
Theorem post_then_redirect (req req' : Request) (w : World) (resp : Response)
    (w' : World) :
  post_shorturls rnd uid req w = (Normal resp, w') ->
  res_status resp = 201%nat ->
  exists code expiry,
    res_body resp =
      BodyCreated
        ((req_protocol req +:+ "://" +:+ template (req_host req))
         +:+ "/" +:+ code) expiry /\
    (trim (param_shortcode req') = code ->
     exists w'' c,
       get_redirect uid lookup req' w'
       = (Normal {| res_status := 302;
                    res_body := BodyRedirect (trim (body_url req)) |}, w'') /\
       clicks w'' !! code = Some [c]).
Proof.
  intros Hrun H201.
  destruct (post_shorturls_201 req w resp w' Hrun H201)
    as (s & w1 & Hvalid & (Hu & Hc & Ht) & Hs & -> & -> & _).
  eexists s, _. split; [reflexivity |]. intros Hparam.
  destruct (valid_shortcode_trimmed s Hs) as [Htrim Hne].
  rewrite get_redirect_eq. cbv zeta. rewrite Hparam.
  destruct (String.eqb_spec s "") as [|_]; [contradiction |].
  rewrite getURLData_eq. cbn [logged filed urls clock].
  rewrite lookup_insert_eq.
  pose proof (minutes_in_range _ Hvalid) as Hrange.
  replace (clock w1 >? _)%Z with false.
  2:{ symmetry. rewrite Z.gtb_ltb. apply Z.ltb_ge.
      cbn [expiresAt new_record]. lia. }
  match goal with
  | |- context [getLocationFromIP lookup ?ip ?wx] =>
      destruct (getLocationFromIP_run ip wx)
        as (loc & w2 & Hloc & _ & _ & Hc2 & _); rewrite Hloc
  end.
  eexists _, _. split; [reflexivity |].
  cbn [logged clicked clicks]. rewrite lookup_insert_eq.
  rewrite Hc2. cbn [logged filed clicks]. rewrite lookup_insert_eq. reflexivity.
Qed.

(** ** Statistics and enumeration through the routes *)

(** X19.  [GET /shorturls/:shortcode] always answers, with 400, 404 or 200,
    and changes neither map.  It answers 400 exactly when the parameter is
    white space only and 404 exactly when the trimmed parameter has no
    record; for a record it answers 200 with its statistics, also when the
    record is expired, in which case [GET /:shortcode] answers 404 for the
    same request. *)
Theorem get_statistics_spec (req : Request) (w : World) :
  let code := trim (param_shortcode req) in
  exists resp w',
    get_statistics req w = (Normal resp, w') /\
    urls w' = urls w /\ clicks w' = clicks w /\
    (res_status resp = 400%nat <-> code = "") /\
    (res_status resp = 404%nat <-> code <> "" /\ urls w !! code = None) /\
    (forall r, code <> "" -> urls w !! code = Some r ->
       resp = {| res_status := 200;
                 res_body := BodyStatistics (stats_of w code r) |} /\
       (expired (clock w) r ->
        exists resp2 w2,
          get_redirect uid lookup req w = (Normal resp2, w2) /\
          res_status resp2 = 404%nat)).
Proof.
  cbv zeta. rewrite get_statistics_eq. cbv zeta.
  set (code := trim (param_shortcode req)).
  destruct (String.eqb_spec code "") as [He|Hne].
  { eexists _, _. split; [reflexivity |]. cbn [res_status logged urls clicks].
    split; [reflexivity |]. split; [reflexivity |].
    split; [split; [intros _; exact He | reflexivity] |].
    split; [split; [discriminate | intros [Hc _]; contradiction] |].
    intros r Hc. contradiction. }
  destruct (urls w !! code) as [r0|] eqn:Hk.
  - eexists _, _. split; [reflexivity |]. cbn [res_status logged urls clicks].
    split; [reflexivity |]. split; [reflexivity |].
    split; [split; [discriminate | intros; contradiction] |].
    split; [split; [discriminate | intros [_ ?]; discriminate] |].
    intros r _ [= <-]. split; [reflexivity |]. intros Hexp.
    rewrite get_redirect_eq. cbv zeta. fold code.
    destruct (String.eqb_spec code "") as [|_]; [contradiction |].
    rewrite getURLData_eq. cbn [logged urls clock]. rewrite Hk.
    apply gtb_expired in Hexp. rewrite Hexp.
    eexists _, _. split; reflexivity.
  - eexists _, _. split; [reflexivity |]. cbn [res_status logged urls clicks].
    split; [reflexivity |]. split; [reflexivity |].
    split; [split; [discriminate | intros; contradiction] |].
    split; [split; [intros _; split; [exact Hne | reflexivity] | reflexivity] |].
    intros r _ Hr. discriminate.
Qed.

(** X20.  [GET /all-urls] always answers 200, changes neither map and
    lists one entry per record of the URL map, expired records included. *)
Theorem get_all_urls_spec (req : Request) (w : World) :
  exists data msg t w',
    get_all_urls req w
    = (Normal {| res_status := 200; res_body := BodySuccess data msg t |}, w') /\
    urls w' = urls w /\ clicks w' = clicks w /\
    length data = size (urls w) /\
    (forall k r, urls w !! k = Some r ->
       {| summary_data := r; totalClicks := length (clicks_of w k) |} ∈ data).
Proof using Type.
  rewrite get_all_urls_eq. eexists _, _, _, _. split; [reflexivity |].
  cbn [logged urls clicks]. split; [reflexivity |]. split; [reflexivity |].
  split; [now rewrite length_fmap, length_map_to_list |].
  intros k r Hr. apply (list_elem_of_fmap_2' _ _ (k, r)); [| reflexivity].
  now apply elem_of_map_to_list.
Qed.

End RouteProperties.

(** ** The further properties at sample inputs *)

Lemma generateShortcode_format_witness :
  exists code w',
    generateShortcode sample_random 6 sample_world = (Normal code, w') /\
    String.length code = 6%nat /\ isValidShortcode (JStr code) = true.
Proof.
  destruct (generateShortcode_format sample_random 6 sample_world)
    as (code & w' & Hrun & Hlen & _ & _ & _ & Hvalid).
  exists code, w'. split; [exact Hrun |]. split; [exact Hlen |].
  apply Hvalid. lia.
Defined.

Lemma reachable_records_sound_witness :
  urls stale_world !! "abc123" = Some stale_record /\
  shortcode stale_record = "abc123" /\ isActive stale_record = true /\
  expiresAt stale_record
  = (createdAt stale_record + validityMinutes stale_record * 60 * 1000)%Z.
Proof.
  split; [exact stale_world_record |].
  destruct (reachable_records_sound sample_random sample_uuid 1000
              [CallCreate "https://example.com" 1 (JStr "abc123");
               ClockMoves 1000000000]
              "abc123" stale_record stale_world_record)
    as (H1 & _ & H2 & H3).
  repeat split; assumption.
Defined.

Lemma reachable_records_have_click_lists_witness :
  urls stale_world !! "abc123" = Some stale_record /\
  exists l st,
    clicks stale_world !! "abc123" = Some l /\
    result (getStatistics "abc123" stale_world) = Normal (Some st) /\
    stat_totalClicks st = length l.
Proof.
  split; [exact stale_world_record |].
  destruct (reachable_records_have_click_lists sample_random sample_uuid 1000
              [CallCreate "https://example.com" 1 (JStr "abc123");
               ClockMoves 1000000000]
              "abc123" stale_record stale_world_record)
    as (l & st & Hl & Hst & Hlen & _).
  exists l, st. repeat split; assumption.
Defined.

Lemma clicked_world_clicks :
  clicks clicked_world !! "abc123" = Some [sample_stored_click].
Proof. vm_compute. reflexivity. Qed.

Lemma reachable_clicks_sound_witness :
  clicks clicked_world !! "abc123" = Some [sample_stored_click] /\
  sample_stored_click ∈ [sample_stored_click] /\
  referrer sample_stored_click <> "" /\ location sample_stored_click <> "".
Proof.
  assert (Hin : sample_stored_click ∈ [sample_stored_click])
    by apply list_elem_of_singleton, eq_refl.
  split; [exact clicked_world_clicks |]. split; [exact Hin |].
  exact (reachable_clicks_sound sample_random sample_uuid 1000
           [CallCreate "https://example.com" 1 (JStr "abc123");
            CallRecordClick "abc123" sample_click]
           "abc123" [sample_stored_click] sample_stored_click
           clicked_world_clicks Hin).
Defined.

Lemma cleanup_then_lookup_witness :
  result (getURLData "abc123" (world_after (cleanupExpiredURLs stale_world)))
  = Normal None /\
  result (getStatistics "abc123" (world_after (cleanupExpiredURLs stale_world)))
  = Normal None.
Proof.
  destruct (cleanup_then_lookup stale_world "abc123") as (Hget & _ & Hiff).
  assert (H : result (getURLData "abc123"
                        (world_after (cleanupExpiredURLs stale_world)))
              = Normal None) by (rewrite Hget; vm_compute; reflexivity).
  split; [exact H | now apply Hiff].
Defined.

Lemma recordClick_counts_witness :
  urls stale_world !! "abc123" = Some stale_record /\
  exists st st' rec w',
    result (getStatistics "abc123" stale_world) = Normal (Some st) /\
    recordClick sample_uuid "abc123" sample_click stale_world = (Normal rec, w') /\
    result (getStatistics "abc123" w') = Normal (Some st') /\
    stat_totalClicks st' = S (stat_totalClicks st).
Proof.
  split; [exact stale_world_record |].
  destruct (recordClick_counts sample_uuid stale_world "abc123" sample_click
              stale_record stale_world_record)
    as (st & st' & rec & w' & H1 & H2 & H3 & H4 & _).
  exists st, st', rec, w'. repeat split; assumption.
Defined.

Lemma getAllURLs_complete_witness :
  exists all,
    result (getAllURLs stale_world) = Normal all /\
    length all = 1%nat /\
    {| summary_data := stale_record; totalClicks := 0 |} ∈ all.
Proof.
  destruct (getAllURLs_complete stale_world) as (all & Hall & _ & _ & Hlen & Hin).
  exists all. split; [exact Hall |]. split; [rewrite Hlen; vm_compute; reflexivity |].
  apply Hin. exists "abc123", stale_record.
  split; [exact stale_world_record | reflexivity].
Defined.

Lemma createShortURL_files_witness :
  exists r w',
    createShortURL zero_draw sample_uuid "https://example.com/c" 30 JNull
      crowded_world = (Normal r, w') /\
    shortcode r = "aaaaaaaa" /\
    is_Some (urls crowded_world !! shortcode r) /\
    String.length (shortcode r) = 8%nat /\
    size (urls w') = size (urls crowded_world) /\
    clicks w' !! "aaaaaaaa" = Some [].
Proof.
  destruct (createShortURL_generated zero_draw sample_uuid
              "https://example.com/c" 30 JNull crowded_world eq_refl)
    as (code & w1 & Hgen & _ & _ & _ & Hrun).
  assert (Hcode : code = "aaaaaaaa").
  { vm_compute in Hgen. now injection Hgen as <- _. }
  subst code.
  assert (Hsome : is_Some (urls crowded_world !! "aaaaaaaa"))
    by (eexists; vm_compute; reflexivity).
  destruct (createShortURL_files zero_draw sample_uuid crowded_world
              "https://example.com/c" 30 JNull _ _ Hrun)
    as (_ & Hc & _ & _ & Hover).
  destruct (Hover Hsome) as (_ & Hlen & Hsize).
  eexists _, _. split; [exact Hrun |]. split; [reflexivity |].
  split; [exact Hsome |]. split; [exact Hlen |]. split; [exact Hsize |].
  rewrite Hc. apply lookup_insert_eq.
Defined.

Lemma getURLData_monotone_witness :
  (1000 <= 2000)%Z /\
  result (getURLData "abc123" (set_clock 2000 stale_world))
  = Normal (Some stale_record) /\
  result (getURLData "abc123" (set_clock 1000 stale_world))
  = Normal (Some stale_record).
Proof.
  assert (Hle : (1000 <= 2000)%Z) by lia.
  assert (H : result (getURLData "abc123" (set_clock 2000 stale_world))
              = Normal (Some stale_record)) by (vm_compute; reflexivity).
  split; [exact Hle |]. split; [exact H |].
  exact (proj1 (getURLData_monotone stale_world "abc123" 2000 1000 Hle)
           stale_record H).
Defined.

Lemma cleanup_twice_later_witness :
  (2000 <= 1000000000)%Z /\
  exists n1 w1 n2 w2 n w2',
    cleanupExpiredURLs (set_clock 2000 stale_world) = (Normal n1, w1) /\
    cleanupExpiredURLs (set_clock 1000000000 w1) = (Normal n2, w2) /\
    cleanupExpiredURLs (set_clock 1000000000 stale_world) = (Normal n, w2') /\
    urls w2 = urls w2' /\ clicks w2 = clicks w2' /\ n = (n1 + n2)%nat.
Proof.
  assert (Hle : (2000 <= 1000000000)%Z) by lia.
  split; [exact Hle |].
  exact (cleanup_twice_later stale_world 2000 1000000000 Hle).
Defined.

Lemma sanitizeInput_trims_witness :
  sanitizeInput (JStr "  abc123 ") = JStr "abc123" /\
  sanitizeInput (JNum 7) = JNum 7 /\
  sanitizeInput (JStr "abc123") = JStr "abc123".
Proof.
  destruct (sanitizeInput_trims (JStr "  abc123 ")) as (_ & Hs & _ & _).
  destruct (Hs "  abc123 " eq_refl) as (pre & post & Heq & _).
  split; [exact Heq |].
  split; [exact (proj1 (sanitizeInput_trims (JNum 7)) eq_refl) |].
  destruct (sanitizeInput_trims (JStr "abc123")) as (_ & _ & _ & Hv).
  apply Hv. reflexivity.
Defined.

Lemma validity_accepted_witness :
  isValidValidity (js_or (JNum 0) (JNum 30)) = true /\
  minutes_of (js_or (JNum 0) (JNum 30)) = 30%Z /\
  isValidValidity (js_or (JNum 525601) (JNum 30)) = false.
Proof.
  destruct (validity_accepted (JNum 0)) as (Hiff & Hdef & _).
  split; [apply Hiff; now left |]. split; [apply Hdef; reflexivity |].
  destruct (validity_accepted (JNum 525601)) as (Hiff' & _ & _).
  destruct (isValidValidity (js_or (JNum 525601) (JNum 30))) eqn:E;
    [| reflexivity].
  destruct (proj1 Hiff' eq_refl) as [H | (n & [= <-] & H)];
    [discriminate | lia].
Defined.

Lemma getRealIP_precedence_witness :
  getRealIP sample_request = "8.8.8.8" /\ getRealIP sample_request <> "".
Proof.
  destruct (getRealIP_precedence sample_request) as (Hne & Hxff & _).
  split; [| exact Hne]. apply Hxff; [reflexivity | discriminate].
Defined.

Lemma getLocationFromIP_total_witness :
  exists loc w',
    getLocationFromIP sample_geo "172.217.0.1" sample_world = (Normal loc, w') /\
    loc = "Local/Private Network" /\ w' = sample_world.
Proof.
  destruct (getLocationFromIP_total sample_geo "172.217.0.1" sample_world)
    as (loc & w' & Hrun & _ & _ & _ & Hprivate & _).
  exists loc, w'. split; [exact Hrun |]. apply Hprivate. reflexivity.
Defined.

Lemma post_shorturls_status_witness :
  exists resp w',
    post_shorturls sample_random sample_uuid sample_request stale_world
    = (Normal resp, w') /\
    res_status resp = 500%nat /\
    urls w' = urls stale_world.
Proof.
  destruct (post_shorturls_status sample_random sample_uuid sample_request
              stale_world)
    as (resp & w' & Hrun & _ & _ & H500 & _ & _ & Hframe).
  assert (Hstatus : res_status resp = 500%nat).
  { apply H500. split; [reflexivity |]. exists "abc123".
    split; [reflexivity |].
    split; [apply isValidShortcode_spec; vm_compute; reflexivity |].
    exists stale_record. exact stale_world_record. }
  exists resp, w'. split; [exact Hrun |]. split; [exact Hstatus |].
  apply Hframe. rewrite Hstatus. discriminate.
Defined.

Lemma post_shorturls_created_witness :
  exists resp w' r,
    post_shorturls sample_random sample_uuid sample_request sample_world
    = (Normal resp, w') /\
    res_status resp = 201%nat /\
    res_body resp = BodyCreated "http://short.test/abc123" (expiresAt r) /\
    originalUrl r = "https://example.com/page" /\
    validityMinutes r = 45%Z.
Proof.
  assert (H : exists resp w',
             post_shorturls sample_random sample_uuid sample_request sample_world
             = (Normal resp, w') /\ res_status resp = 201%nat)
    by (eexists _, _; split; [vm_compute; reflexivity | reflexivity]).
  destruct H as (resp & w' & Hrun & H201).
  destruct (post_shorturls_created sample_random sample_uuid sample_request
              sample_world resp w' Hrun H201)
    as (r & Hbody & _ & _ & Hurl & _ & _ & _ & _ & Hmin & _ & Hcode).
  exists resp, w', r. split; [exact Hrun |]. split; [exact H201 |].
  split.
  - rewrite Hbody, (Hcode " abc123 " eq_refl); [reflexivity |].
    vm_compute. discriminate.
  - split; [exact Hurl |]. apply (Hmin 45%Z); [reflexivity | discriminate].
Defined.

Lemma get_redirect_spec_witness :
  exists resp w',
    get_redirect sample_uuid sample_geo sample_request fresh_world
    = (Normal resp, w') /\
    res_status resp = 302%nat /\
    res_body resp = BodyRedirect "https://example.com".
Proof.
  destruct (get_redirect_spec sample_uuid sample_geo sample_request fresh_world)
    as (resp & w' & Hrun & _ & _ & _ & H302 & _ & Hlive).
  assert (Hne : trim (param_shortcode sample_request) <> "")
    by (vm_compute; discriminate).
  assert (Hr : urls fresh_world !! trim (param_shortcode sample_request)
               = Some stale_record) by (vm_compute; reflexivity).
  assert (Hl : live (clock fresh_world) stale_record)
    by (vm_compute; discriminate).
  exists resp, w'. split; [exact Hrun |].
  split; [apply H302; split; [exact Hne | eauto] |].
  apply (Hlive stale_record Hne Hr Hl).
Defined.

Lemma post_then_redirect_witness :
  exists resp w' w'' c,
    post_shorturls sample_random sample_uuid sample_request sample_world
    = (Normal resp, w') /\
    res_status resp = 201%nat /\
    get_redirect sample_uuid sample_geo sample_request w'
    = (Normal {| res_status := 302;
                 res_body := BodyRedirect "https://example.com/page" |}, w'') /\
    clicks w'' !! "abc123" = Some [c].
Proof.
  assert (H : exists resp w',
             post_shorturls sample_random sample_uuid sample_request sample_world
             = (Normal resp, w') /\ res_status resp = 201%nat /\
             res_body resp = BodyCreated "http://short.test/abc123" 2701000)
    by (eexists _, _; split; [vm_compute; reflexivity | split; reflexivity]).
  destruct H as (resp & w' & Hrun & H201 & Hbody).
  destruct (post_then_redirect sample_random sample_uuid sample_geo
              sample_request sample_request sample_world resp w' Hrun H201)
    as (code & expiry & Hbody' & Hnext).
  rewrite Hbody in Hbody'. injection Hbody' as Hcode _.
  assert (Hc : code = "abc123") by (vm_compute in Hcode; now symmetry).
  subst code.
  destruct Hnext as (w'' & c & Hget & Hclicks).
  { vm_compute. reflexivity. }
  exists resp, w', w'', c. repeat split; assumption.
Defined.

Lemma get_statistics_spec_witness :
  exists resp w' resp2 w2,
    get_statistics sample_request stale_world = (Normal resp, w') /\
    res_status resp = 200%nat /\
    get_redirect sample_uuid sample_geo sample_request stale_world
    = (Normal resp2, w2) /\
    res_status resp2 = 404%nat.
Proof.
  destruct (get_statistics_spec sample_uuid sample_geo sample_request stale_world)
    as (resp & w' & Hrun & _ & _ & _ & _ & Hfound).
  assert (Hne : trim (param_shortcode sample_request) <> "")
    by (vm_compute; discriminate).
  assert (Hr : urls stale_world !! trim (param_shortcode sample_request)
               = Some stale_record) by (vm_compute; reflexivity).
  destruct (Hfound stale_record Hne Hr) as (Hresp & Hexp).
  destruct (Hexp stale_record_expired) as (resp2 & w2 & Hrun2 & H404).
  exists resp, w', resp2, w2. split; [exact Hrun |].
  split; [now rewrite Hresp |]. split; assumption.
Defined.

Lemma get_all_urls_spec_witness :
  exists data msg t w',
    get_all_urls sample_request stale_world
    = (Normal {| res_status := 200; res_body := BodySuccess data msg t |}, w') /\
    length data = 1%nat /\
    {| summary_data := stale_record; totalClicks := 0 |} ∈ data.
Proof.
  destruct (get_all_urls_spec sample_request stale_world)
    as (data & msg & t & w' & Hrun & _ & _ & Hlen & Hin).
  exists data, msg, t, w'. split; [exact Hrun |].
  split; [rewrite Hlen; vm_compute; reflexivity |].
  apply (Hin "abc123" stale_record stale_world_record).
Defined.
